(** * auto_homework_grader: a shallow embedding of [app.py]

    The grader scans a homework root, normalises each submission into a
    staging directory, strips [package]/[import] lines, asks the operator
    for three scores and a comment, and appends a row to a report.

    Conventions of the embedding.
    - A file is the string of its bytes.  A Python [str] is held as the
      string of its UTF-8 bytes.  [strip] knows the white space of
      Unicode; letter case and the digits of the regular expressions are
      those of ASCII.
    - What the source takes from the Python interpreter and what depends
      on its version and on the Unicode database, [str.isdigit] and
      [int], is a parameter of the model: an [interpreter].
    - A directory is the list of its entries in listing order, so that
      [os.listdir] is the list of names in that order.  A function of the
      source that takes a path and lists or opens what is below it takes
      here the directory found at that path.
    - [input()] reads the next line of a list of console lines; running
      out of lines is the [EOFError] of the source.
    - What the source leaves to other programs and libraries (the archive
      library, the compiler and the test runner) enters as a variable of
      the pipeline section.  A stage of the pipeline returns [None] when
      an exception escapes it or an external call does not come back. *)

From Stdlib Require Import Bool Arith ZArith Lia List.
From Stdlib Require Import Strings.Ascii Strings.String.
Import ListNotations.

Open Scope string_scope.
Open Scope list_scope.

(** ** Python string primitives *)

Module PyStr.

(** [str.startswith(p)] *)
Definition startswith (s p : string) : bool := String.prefix p s.

(** [str.endswith(suf)] *)
Fixpoint endswith (s suf : string) : bool :=
  (s =? suf) ||
  match s with
  | EmptyString => false
  | String _ t => endswith t suf
  end.

(** [str.endswith((a, b, ...))] *)
Definition endswith_any (s : string) (sufs : list string) : bool :=
  existsb (endswith s) sufs.

(** [needle in s] *)
Fixpoint contains (s needle : string) : bool :=
  String.prefix needle s ||
  match s with
  | EmptyString => false
  | String _ t => contains t needle
  end.

(** The ASCII characters for which [str.isspace] holds: TAB, LF, VT,
    FF, CR, FS, GS, RS, US and the space. *)
Definition isspace (c : ascii) : bool :=
  let n := nat_of_ascii c in
  (((9 <=? n) && (n <=? 13)) || ((28 <=? n) && (n <=? 32)))%nat.

(** The white space of two bytes: U+0085 and U+00A0. *)
Definition isspace2 (c1 c2 : ascii) : bool :=
  let n1 := nat_of_ascii c1 in
  let n2 := nat_of_ascii c2 in
  ((n1 =? 194) && ((n2 =? 133) || (n2 =? 160)))%nat.

(** The white space of three bytes: U+1680, U+2000 to U+200A, U+2028,
    U+2029, U+202F, U+205F and U+3000. *)
Definition isspace3 (c1 c2 c3 : ascii) : bool :=
  let n1 := nat_of_ascii c1 in
  let n2 := nat_of_ascii c2 in
  let n3 := nat_of_ascii c3 in
  (((n1 =? 225) && (n2 =? 154) && (n3 =? 128))
   || ((n1 =? 226) && (n2 =? 128)
       && (((128 <=? n3) && (n3 <=? 138))
           || (n3 =? 168) || (n3 =? 169) || (n3 =? 175)))
   || ((n1 =? 226) && (n2 =? 129) && (n3 =? 159))
   || ((n1 =? 227) && (n2 =? 128) && (n3 =? 128)))%nat.

(** [str.lstrip()]: the white-space characters at the head are dropped,
    one character of one, two or three bytes at a time. *)
Fixpoint lstrip (s : string) : string :=
  match s with
  | EmptyString => EmptyString
  | String c1 t1 =>
      if isspace c1 then lstrip t1
      else
        match t1 with
        | EmptyString => s
        | String c2 t2 =>
            if isspace2 c1 c2 then lstrip t2
            else
              match t2 with
              | EmptyString => s
              | String c3 t3 => if isspace3 c1 c2 c3 then lstrip t3 else s
              end
        end
  end.

(** [str.rstrip()]: what is left once the longest tail of white space
    is dropped. *)
Fixpoint rstrip (s : string) : string :=
  match s with
  | EmptyString => EmptyString
  | String c t =>
      if lstrip s =? EmptyString then EmptyString else String c (rstrip t)
  end.

(** [str.strip()] *)
Definition strip (s : string) : string := rstrip (lstrip s).

Definition isupper (c : ascii) : bool :=
  let n := nat_of_ascii c in ((65 <=? n) && (n <=? 90))%nat.

Definition lower_char (c : ascii) : ascii :=
  if isupper c then ascii_of_nat (nat_of_ascii c + 32) else c.

(** [str.lower()] *)
Fixpoint lower (s : string) : string :=
  match s with
  | EmptyString => EmptyString
  | String c t => String (lower_char c) (lower t)
  end.

Definition isdigit_char (c : ascii) : bool :=
  let n := nat_of_ascii c in ((48 <=? n) && (n <=? 57))%nat.

Fixpoint all_digits (s : string) : bool :=
  match s with
  | EmptyString => true
  | String c t => isdigit_char c && all_digits t
  end.

(** [str.isdigit()]: at least one character, all of them digits. *)
Definition isdigit (s : string) : bool :=
  match s with
  | EmptyString => false
  | _ => all_digits s
  end.

Definition digit_value (c : ascii) : Z := Z.of_nat (nat_of_ascii c) - 48.

Fixpoint int_acc (acc : Z) (s : string) : Z :=
  match s with
  | EmptyString => acc
  | String c t => int_acc (10 * acc + digit_value c) t
  end.

(** [int(s)] on a string of digits; the interpreter's cap on the
    length of a decimal literal is outside the model. *)
Definition int (s : string) : Z := int_acc 0 s.

(** [s.split(sep)[0]] for a one-character separator: the text before
    the first separator, the whole string when there is none. *)
Fixpoint split_head (sep : ascii) (s : string) : string :=
  match s with
  | EmptyString => EmptyString
  | String c t => if Ascii.eqb c sep then EmptyString else String c (split_head sep t)
  end.

(** The first [n] characters of [s], when all [n] are digits. *)
Fixpoint take_digits (n : nat) (s : string) : option string :=
  match n with
  | O => Some EmptyString
  | S n' =>
      match s with
      | EmptyString => None
      | String c t =>
          if isdigit_char c
          then option_map (String c) (take_digits n' t)
          else None
      end
  end.

(** [re.search(r'\d{8}', s)], as [match.group(0)]: the leftmost run of
    eight digits. *)
Fixpoint search_digits8 (s : string) : option string :=
  match take_digits 8 s with
  | Some d => Some d
  | None =>
      match s with
      | EmptyString => None
      | String _ t => search_digits8 t
      end
  end.

(** [re.search(r'_(\d{8})', s)], as [match.group(1)]: the eight digits
    after the leftmost underscore that is followed by eight digits. *)
Fixpoint search_underscore_digits8 (s : string) : option string :=
  match s with
  | EmptyString => None
  | String c t =>
      if Ascii.eqb c "_"
      then match take_digits 8 t with
           | Some d => Some d
           | None => search_underscore_digits8 t
           end
      else search_underscore_digits8 t
  end.

End PyStr.

(** ** Files and directories *)

#[warnings="-register-all"]
Inductive node : Type :=
| File (content : string)
| Dir (entries : list (string * node)).

Definition directory : Type := list (string * node).

Definition listdir (d : directory) : list string := map fst d.

Definition isdir (n : node) : bool :=
  match n with
  | Dir _ => true
  | File _ => false
  end.

(** ** Submission scanner *)

Module Colors.
Definition ESC : ascii := "027"%char.
Definition GREEN : string := String ESC "[92m".
Definition YELLOW : string := String ESC "[93m".
Definition RED : string := String ESC "[91m".
Definition BLUE : string := String ESC "[94m".
Definition RESET : string := String ESC "[0m".
End Colors.

Definition extract_student_name (folder_name : string) : string :=
  PyStr.split_head "_" folder_name.

Fixpoint first_match (search : string -> option string) (items : list string)
  : option string :=
  match items with
  | [] => None
  | item :: rest =>
      match search item with
      | Some m => Some m
      | None => first_match search rest
      end
  end.

Definition find_matriculation_number (folder : directory) : option string :=
  match first_match PyStr.search_underscore_digits8 (listdir folder) with
  | Some m => Some m
  | None => first_match PyStr.search_digits8 (listdir folder)
  end.

Definition archive_extensions : list string := [".zip"; ".rar"; ".7z"].

Fixpoint determine_submission_type (folder : directory) : string * string :=
  match folder with
  | [] => ("Unknown/Other file", Colors.RED)
  | (item, item_node) :: rest =>
      if item =? "extracted" then determine_submission_type rest
      else if PyStr.endswith_any item archive_extensions
           then ("Zipped file", Colors.YELLOW)
      else if PyStr.endswith item ".txt" then ("Text file", Colors.GREEN)
      else if isdir item_node then ("Folder", Colors.BLUE)
      else determine_submission_type rest
  end.

Record student_info : Type := mk_student_info {
  name : string;
  matriculation : string;
  submission_type : string;
  color : string;
  folder_path : list string
}.

Definition search_student_directory
  (folder_path : list string) (folder_name : string) (folder : directory)
  : student_info :=
  let student_name := extract_student_name folder_name in
  let matriculation_nr := find_matriculation_number folder in
  let '(submission_type, submission_color) := determine_submission_type folder in
  {| name := student_name;
     matriculation := match matriculation_nr with
                      | Some m => if m =? "" then "Not found" else m
                      | None => "Not found"
                      end;
     submission_type := submission_type;
     color := submission_color;
     folder_path := folder_path |}.

(** ** Text files

    [open(path, 'r')] reads in universal-newlines mode: CR LF and a lone
    CR arrive as LF.  [open(path, 'w')] writes every LF as the line
    separator of the platform. *)

Definition LF : ascii := "010"%char.
Definition CR : ascii := "013"%char.

Inductive platform : Type := Posix | Windows.

Definition linesep (plat : platform) : string :=
  match plat with
  | Posix => String LF ""
  | Windows => String CR (String LF "")
  end.

Definition os_sep (plat : platform) : string :=
  match plat with
  | Posix => "/"
  | Windows => "\"
  end.

Fixpoint universal_newlines (s : string) : string :=
  match s with
  | EmptyString => EmptyString
  | String c t =>
      if Ascii.eqb c CR
      then String LF
             match t with
             | EmptyString => EmptyString
             | String c' t' =>
                 if Ascii.eqb c' LF then universal_newlines t'
                 else universal_newlines t
             end
      else String c (universal_newlines t)
  end.

(** Lines of a text, each with its LF when it has one. *)
Fixpoint split_lines (text : string) : list string :=
  match text with
  | EmptyString => []
  | String c t =>
      if Ascii.eqb c LF then String c "" :: split_lines t
      else match split_lines t with
           | [] => [String c ""]
           | l :: ls => String c l :: ls
           end
  end.

(** [f.readlines()] of a file opened with [open(path, 'r')] *)
Definition readlines (content : string) : list string :=
  split_lines (universal_newlines content).

Fixpoint write_text (sep : string) (text : string) : string :=
  match text with
  | EmptyString => EmptyString
  | String c t =>
      if Ascii.eqb c LF then sep ++ write_text sep t
      else String c (write_text sep t)
  end.

Definition join_lines (lines : list string) : string :=
  fold_right append "" lines.

(** [f.writelines(lines)] on a file opened with [open(path, 'w')] *)
Definition writelines (plat : platform) (lines : list string) : string :=
  write_text (linesep plat) (join_lines lines).

(** ** Decoding

    [open(path, 'r', encoding='utf-8')] decodes strictly: reading a file
    whose bytes are not well-formed UTF-8 raises [UnicodeDecodeError].
    The automaton below accepts exactly the well-formed byte sequences:
    no overlong form, no surrogate, nothing above U+10FFFF. *)

Inductive utf8_state : Type :=
| Utf8Start
| Utf8Tail1
| Utf8Tail2
| Utf8Tail3
| Utf8AfterE0
| Utf8AfterED
| Utf8AfterF0
| Utf8AfterF4.

Definition byte_in (lo hi : nat) (c : ascii) : bool :=
  ((lo <=? nat_of_ascii c) && (nat_of_ascii c <=? hi))%nat.

Definition utf8_step (st : utf8_state) (c : ascii) : option utf8_state :=
  match st with
  | Utf8Start =>
      if byte_in 0 127 c then Some Utf8Start
      else if byte_in 194 223 c then Some Utf8Tail1
      else if byte_in 224 224 c then Some Utf8AfterE0
      else if byte_in 225 236 c then Some Utf8Tail2
      else if byte_in 237 237 c then Some Utf8AfterED
      else if byte_in 238 239 c then Some Utf8Tail2
      else if byte_in 240 240 c then Some Utf8AfterF0
      else if byte_in 241 243 c then Some Utf8Tail3
      else if byte_in 244 244 c then Some Utf8AfterF4
      else None
  | Utf8Tail1 => if byte_in 128 191 c then Some Utf8Start else None
  | Utf8Tail2 => if byte_in 128 191 c then Some Utf8Tail1 else None
  | Utf8Tail3 => if byte_in 128 191 c then Some Utf8Tail2 else None
  | Utf8AfterE0 => if byte_in 160 191 c then Some Utf8Tail1 else None
  | Utf8AfterED => if byte_in 128 159 c then Some Utf8Tail1 else None
  | Utf8AfterF0 => if byte_in 144 191 c then Some Utf8Tail2 else None
  | Utf8AfterF4 => if byte_in 128 143 c then Some Utf8Tail2 else None
  end.

Fixpoint utf8_run (st : utf8_state) (bytes : string) : bool :=
  match bytes with
  | EmptyString =>
      match st with
      | Utf8Start => true
      | _ => false
      end
  | String c t =>
      match utf8_step st c with
      | Some st' => utf8_run st' t
      | None => false
      end
  end.

(** The bytes decode as UTF-8. *)
Definition utf8_valid (bytes : string) : bool := utf8_run Utf8Start bytes.

(** ** Package/import stripper *)

Definition is_package_declaration (stripped : string) : bool :=
  PyStr.startswith stripped "package " && PyStr.endswith stripped ";".

Definition is_import_declaration (stripped : string) : bool :=
  PyStr.startswith stripped "import " && PyStr.endswith stripped ";".

(** The loop over the lines of one file: [modified] and [new_lines] are
    the two variables it updates. *)
Fixpoint strip_lines (lines : list string) (modified : bool)
  (new_lines : list string) : bool * list string :=
  match lines with
  | [] => (modified, new_lines)
  | line :: rest =>
      let stripped := PyStr.strip line in
      if is_package_declaration stripped then strip_lines rest true new_lines
      else if is_import_declaration stripped then strip_lines rest true new_lines
      else strip_lines rest modified (new_lines ++ [line])
  end.

(** What the stripper leaves behind: the directory, the number of files
    modified, and the names of the files it opened for writing. *)
Record stripped_dir : Type := mk_stripped_dir {
  sd_entries : directory;
  sd_modified : nat;
  sd_written : list string
}.

(** The loop over the directory.  Opening a directory named [*.java]
    raises, and so does reading a file that does not decode; the source
    catches both, warns and moves on to the next file. *)
Fixpoint strip_files (plat : platform) (entries : directory)
  (files_modified : nat) : stripped_dir :=
  match entries with
  | [] => mk_stripped_dir [] files_modified []
  | (java_file, nd) :: rest =>
      if PyStr.endswith java_file ".java" then
        match nd with
        | File content =>
            if utf8_valid content then
              let '(modified, new_lines) :=
                strip_lines (readlines content) false [] in
              if modified then
                let r := strip_files plat rest (S files_modified) in
                mk_stripped_dir
                  ((java_file, File (writelines plat new_lines)) :: sd_entries r)
                  (sd_modified r) (java_file :: sd_written r)
              else
                let r := strip_files plat rest files_modified in
                mk_stripped_dir ((java_file, nd) :: sd_entries r)
                  (sd_modified r) (sd_written r)
            else
              let r := strip_files plat rest files_modified in
              mk_stripped_dir ((java_file, nd) :: sd_entries r)
                (sd_modified r) (sd_written r)
        | Dir _ =>
            let r := strip_files plat rest files_modified in
            mk_stripped_dir ((java_file, nd) :: sd_entries r)
              (sd_modified r) (sd_written r)
        end
      else
        let r := strip_files plat rest files_modified in
        mk_stripped_dir ((java_file, nd) :: sd_entries r)
          (sd_modified r) (sd_written r)
  end.

(** [remove_package_declarations(directory)]; [None] is a path at which
    nothing exists. *)
Definition remove_package_declarations (plat : platform)
  (dir : option directory) : option directory * nat * list string :=
  match dir with
  | None => (None, 0, [])
  | Some entries =>
      let r := strip_files plat entries 0 in
      (Some (sd_entries r), sd_modified r, sd_written r)
  end.

(** ** Grade capture *)

(** What the capture takes from the interpreter: [str.isdigit], and
    [int] with [None] where it raises [ValueError] (a digit that is no
    decimal digit, such as a superscript two, or a string of digits
    beyond the length the interpreter converts). *)
Record interpreter : Type := mk_interpreter {
  str_isdigit : string -> bool;
  str_int : string -> option Z;
  (** [str.isdigit] asks for at least one character. *)
  isdigit_empty : str_isdigit EmptyString = false
}.

Definition is_sentinel (comment : string) : bool :=
  (comment =? "b") || (comment =? "0").

Record grades : Type := mk_grades {
  task1 : string;
  task2 : string;
  task3 : string;
  comment : string
}.

(** One score prompt: the score and the lines left, or the exception
    that ends it. *)
Inductive asked : Type :=
| Asked (g : string) (rest : list string)
| AskedEOFError
| AskedValueError.

Inductive capture : Type :=
| Returned (g : grades) (rest : list string)
| EOFError
| ValueError
| OutOfFuel.

Section Capture.

Variable py : interpreter.

(** [g.isdigit() and 0 <= int(g) <= 2]; [None] when [int] raises. *)
Definition grade_condition (g : string) : option bool :=
  if str_isdigit py g then
    match str_int py g with
    | Some n => Some ((0 <=? n)%Z && (n <=? 2)%Z)
    | None => None
    end
  else Some false.

(** The condition holds. *)
Definition valid_grade (g : string) : bool :=
  match grade_condition g with
  | Some b => b
  | None => false
  end.

(** [while not (g.isdigit() and 0 <= int(g) <= 2): g = input().strip()] *)
Fixpoint ask_grade (g : string) (console : list string) : asked :=
  match grade_condition g with
  | None => AskedValueError
  | Some true => Asked g console
  | Some false =>
      match console with
      | [] => AskedEOFError
      | line :: rest => ask_grade (PyStr.strip line) rest
      end
  end.

(** The outer [while] loop; one unit of fuel per test of its condition. *)
Fixpoint collect_loop (fuel : nat) (task1_grade task2_grade task3_grade : string)
  (comment : string) (console : list string) : capture :=
  match fuel with
  | O => OutOfFuel
  | S fuel' =>
      if is_sentinel comment then
        match ask_grade task1_grade console with
        | AskedEOFError => EOFError
        | AskedValueError => ValueError
        | Asked task1_grade console =>
        match ask_grade task2_grade console with
        | AskedEOFError => EOFError
        | AskedValueError => ValueError
        | Asked task2_grade console =>
        match ask_grade task3_grade console with
        | AskedEOFError => EOFError
        | AskedValueError => ValueError
        | Asked task3_grade console =>
        match console with
        | [] => EOFError
        | line :: console =>
            let comment := PyStr.strip line in
            if is_sentinel comment
            then collect_loop fuel' "" "" "" comment console
            else collect_loop fuel' task1_grade task2_grade task3_grade
                   comment console
        end end end end
      else Returned (mk_grades task1_grade task2_grade task3_grade comment)
             console
  end.

Definition collect_grades (console : list string) : capture :=
  collect_loop (2 + List.length console) "" "" "" "0" console.

End Capture.

(** The interpreter on ASCII text. *)
Definition ascii_interpreter : interpreter :=
  mk_interpreter PyStr.isdigit (fun s => Some (PyStr.int s)) eq_refl.

(** ** Report writer

    The report is the sequence of rows handed to the CSV writer; [None]
    is a report file that does not exist yet. *)

Definition csv_row : Type := list string.

Definition csv_header : csv_row :=
  ["Student Name"; "Matriculation Nr"; "Task 1"; "Task 2"; "Task 3"; "Comment"].

Definition grade_row (info : student_info) (g : grades) : csv_row :=
  [name info; matriculation info; task1 g; task2 g; task3 g; comment g].

Definition save_grades_to_csv (report : option (list csv_row))
  (info : student_info) (g : grades) : option (list csv_row) :=
  let file_exists := match report with Some _ => true | None => false end in
  let rows := match report with Some rows => rows | None => [] end in
  let rows := if negb file_exists then rows ++ [csv_header] else rows in
  Some (rows ++ [grade_row info g]).

(** ** Configuration and scanning *)

Record config : Type := mk_config {
  HOMEWORKS_DIR : string;
  DONE_DIR : string;
  IGNORE_DIRS : list string
}.

Definition default_config : config :=
  {| HOMEWORKS_DIR := "Homeworks";
     DONE_DIR := "done";
     IGNORE_DIRS := ["_MACOSX"; "extracted"; "done"] |}.

Fixpoint scan_submissions (cfg : config) (homeworks : directory)
  : list student_info :=
  match homeworks with
  | [] => []
  | (folder_name, nd) :: rest =>
      let folder_path := [HOMEWORKS_DIR cfg; folder_name] in
      if PyStr.lower folder_name =? DONE_DIR cfg then scan_submissions cfg rest
      else match nd with
           | Dir folder =>
               search_student_directory folder_path folder_name folder
                 :: scan_submissions cfg rest
           | File _ => scan_submissions cfg rest
           end
  end.

(** ** Directory updates *)

Fixpoint lookup (nm : string) (d : directory) : option node :=
  match d with
  | [] => None
  | (nm', nd) :: rest => if nm' =? nm then Some nd else lookup nm rest
  end.

Fixpoint remove_entry (nm : string) (d : directory) : directory :=
  match d with
  | [] => []
  | (nm', nd) :: rest =>
      if nm' =? nm then remove_entry nm rest
      else (nm', nd) :: remove_entry nm rest
  end.

(** Writing [nd] at name [nm]: in place when the name exists, as a new
    last entry otherwise. *)
Fixpoint set_entry (nm : string) (nd : node) (d : directory) : directory :=
  match d with
  | [] => [(nm, nd)]
  | (nm', nd') :: rest =>
      if nm' =? nm then (nm, nd) :: rest
      else (nm', nd') :: set_entry nm nd rest
  end.

(** [os.path.join] of the components, as the string the source tests
    with [in]. *)
Definition path_string (plat : platform) (p : list string) : string :=
  String.concat (os_sep plat) p.

(** [os.path.basename] *)
Definition basename (p : list string) : string := last p "".

(** ** [os.walk], top-down *)

Record walk_item : Type := mk_walk_item {
  w_root : list string;
  w_dirs : list string;
  w_files : list (string * string)
}.

Fixpoint dirs_of (d : directory) : list string :=
  match d with
  | [] => []
  | (nm, Dir _) :: rest => nm :: dirs_of rest
  | (_, File _) :: rest => dirs_of rest
  end.

Fixpoint files_of (d : directory) : list (string * string) :=
  match d with
  | [] => []
  | (nm, File content) :: rest => (nm, content) :: files_of rest
  | (_, Dir _) :: rest => files_of rest
  end.

(** Walking something that is not a directory yields nothing. *)
Fixpoint walk (root : list string) (n : node) {struct n} : list walk_item :=
  match n with
  | File _ => []
  | Dir entries =>
      mk_walk_item root (dirs_of entries) (files_of entries)
      :: (fix walk_entries (es : list (string * node)) : list walk_item :=
            match es with
            | [] => []
            | (nm, child) :: rest => walk (root ++ [nm]) child ++ walk_entries rest
            end) entries
  end.

Definition walk_path (root : list string) (at_root : option node)
  : list walk_item :=
  match at_root with
  | Some n => walk root n
  | None => []
  end.

(** ** Archive/tree normalizer *)

(** The inner loop [for file in files]: every [*.java] file is copied
    into the staging directory under its own name. *)
Fixpoint copy_java_files (files : list (string * string))
  (staging : directory) (java_files_found : nat) : directory * nat :=
  match files with
  | [] => (staging, java_files_found)
  | (file, content) :: rest =>
      if PyStr.endswith file ".java"
      then copy_java_files rest (set_entry file (File content) staging)
             (S java_files_found)
      else copy_java_files rest staging java_files_found
  end.

(** The outer loop [for root, dirs, files in os.walk(...)], with the
    test that skips a root. *)
Fixpoint copy_walk (skip : string -> bool) (plat : platform)
  (items : list walk_item) (staging : directory) (java_files_found : nat)
  : directory * nat :=
  match items with
  | [] => (staging, java_files_found)
  | item :: rest =>
      if skip (path_string plat (w_root item))
      then copy_walk skip plat rest staging java_files_found
      else let '(staging, java_files_found) :=
             copy_java_files (w_files item) staging java_files_found in
           copy_walk skip plat rest staging java_files_found
  end.

Definition in_macosx (root : string) : bool := PyStr.contains root "_MACOSX".

Definition ignored_root (cfg : config) (root : string) : bool :=
  in_macosx root || existsb (fun ignored => PyStr.contains root ignored) (IGNORE_DIRS cfg).

Fixpoint find_archive (folder : directory) : option (string * node) :=
  match folder with
  | [] => None
  | (item, nd) :: rest =>
      if PyStr.endswith_any item archive_extensions then Some (item, nd)
      else find_archive rest
  end.

Definition strip_staging (plat : platform) (staging : directory)
  (java_files_found : nat) : directory :=
  if (0 <? java_files_found)%nat
  then sd_entries (strip_files plat staging 0)
  else staging.

Record world : Type := mk_world {
  homeworks : directory;
  temp_dir : option directory;
  current_submission : option directory;
  report : option (list csv_row);
  console : list string
}.

Section Pipeline.

Variable py : interpreter.

(** [zipfile.ZipFile(zip_path).extractall(extract_path)]: from the
    bytes of the archive and what is at the extraction path, the
    directory found there afterwards; [None] when it raises. *)
Variable zip_extractall : string -> option node -> option directory.

(** [run_junit_tests]: the external compiler and test runner with the
    operator's retry dialogue, from the two staging directories and the
    console; [None] when it does not return. *)
Variable run_junit_tests :
  option directory -> directory -> student_info -> list string ->
  option (option directory * directory * list string).

Variable plat : platform.
Variable cfg : config.

(** Returns the folder and the staging directory as they are left, and
    the path handed back for cleanup; [None] when an exception escapes. *)
Definition extract_and_copy_java_files (folder_path : list string)
  (folder : directory) (current_submission_dir : directory)
  : option (directory * directory * option (list string)) :=
  match find_archive folder with
  | None => Some (folder, current_submission_dir, None)
  | Some (item, nd) =>
      let extract_path := folder_path ++ ["extracted"] in
      let extracted :=
        if PyStr.endswith item ".zip" then
          match nd with
          | File archive =>
              match zip_extractall archive (lookup "extracted" folder) with
              | Some tree => Some (set_entry "extracted" (Dir tree) folder)
              | None => None
              end
          | Dir _ => None
          end
        else Some folder in
      match extracted with
      | None => None
      | Some folder =>
          let '(staging, java_files_found) :=
            copy_walk in_macosx plat
              (walk_path extract_path (lookup "extracted" folder))
              current_submission_dir 0 in
          Some (folder, strip_staging plat staging java_files_found,
                Some extract_path)
      end
  end.

(** Step 1 of [process_student_submission] *)
Definition setup_directories (w : world) : world :=
  mk_world (homeworks w) (Some []) (Some []) (report w) (console w).

(** Step 2: dispatch on the shape; the second component is
    [extract_path_to_clean]. *)
Definition normalize (student : student_info) (w : world)
  : option (world * option (list string)) :=
  let folder_name := basename (folder_path student) in
  match current_submission w with
  | None => None
  | Some staging =>
      if submission_type student =? "Zipped file" then
        match lookup folder_name (homeworks w) with
        | Some (Dir folder) =>
            match extract_and_copy_java_files (folder_path student)
                    folder staging with
            | Some (folder, staging, extract_path) =>
                Some (mk_world
                        (set_entry folder_name (Dir folder) (homeworks w))
                        (temp_dir w) (Some staging) (report w) (console w),
                      extract_path)
            | None => None
            end
        | _ => None
        end
      else if submission_type student =? "Folder" then
        let '(staging, java_files_found) :=
          copy_walk (ignored_root cfg) plat
            (walk_path (folder_path student)
               (lookup folder_name (homeworks w)))
            staging 0 in
        Some (mk_world (homeworks w) (temp_dir w)
                (Some (strip_staging plat staging java_files_found))
                (report w) (console w),
              None)
      else Some (w, None)
  end.

(** Step 3: tests run only over a staging directory with entries. *)
Definition testing (student : student_info) (w : world) : option world :=
  match current_submission w with
  | Some (e :: es) =>
      match run_junit_tests (temp_dir w) (e :: es) student (console w) with
      | Some (temp, staging, console) =>
          Some (mk_world (homeworks w) temp (Some staging) (report w) console)
      | None => None
      end
  | _ => Some w
  end.

(** Steps 4 and 5 *)
Definition grading (student : student_info) (w : world) : option world :=
  match collect_grades py (console w) with
  | Returned g rest =>
      Some (mk_world (homeworks w) (temp_dir w) (current_submission w)
              (save_grades_to_csv (report w) student g) rest)
  | _ => None
  end.

(** Step 6, on the homework root; [None] where [shutil] raises. *)
Definition move_to_done_folder (folder_path : list string)
  (hw : directory) : option directory :=
  let folder_name := basename folder_path in
  match lookup folder_name hw with
  | None => None
  | Some nd =>
      if folder_name =? DONE_DIR cfg then None
      else
        let done_dir :=
          match lookup (DONE_DIR cfg) hw with
          | None => Some []
          | Some (Dir d) => Some d
          | Some (File _) => None
          end in
        match done_dir with
        | None => None
        | Some d =>
            match lookup folder_name d with
            | Some (File _) => None
            | _ =>
                Some (set_entry (DONE_DIR cfg)
                        (Dir (set_entry folder_name nd
                                (remove_entry folder_name d)))
                        (remove_entry folder_name hw))
            end
        end
  end.

Definition archiving (student : student_info) (w : world) : option world :=
  match move_to_done_folder (folder_path student) (homeworks w) with
  | Some hw =>
      Some (mk_world hw (temp_dir w) (current_submission w) (report w)
              (console w))
  | None => None
  end.

(** Step 7: both staging directories go; the extraction directory goes
    when a path was handed back and something still exists there. *)
Definition cleanup (student : student_info)
  (extract_path_to_clean : option (list string)) (w : world) : option world :=
  let folder_name := basename (folder_path student) in
  let hw :=
    match extract_path_to_clean with
    | Some _ =>
        match lookup folder_name (homeworks w) with
        | Some (Dir folder) =>
            match lookup "extracted" folder with
            | Some (Dir _) =>
                Some (set_entry folder_name
                        (Dir (remove_entry "extracted" folder)) (homeworks w))
            | Some (File _) => None
            | None => Some (homeworks w)
            end
        | _ => Some (homeworks w)
        end
    | None => Some (homeworks w)
    end in
  match hw with
  | Some hw => Some (mk_world hw None None (report w) (console w))
  | None => None
  end.

(** [input("Press Enter to continue to next student...")] *)
Definition pause (w : world) : option world :=
  match console w with
  | [] => None
  | _ :: rest =>
      Some (mk_world (homeworks w) (temp_dir w) (current_submission w)
              (report w) rest)
  end.

Definition bind {A B : Type} (m : option A) (k : A -> option B) : option B :=
  match m with
  | Some a => k a
  | None => None
  end.

Definition stages_before_grading (student : student_info) (w : world)
  : option (world * option (list string)) :=
  bind (normalize student (setup_directories w)) (fun '(w, extract_path) =>
  bind (testing student w) (fun w => Some (w, extract_path))).

Definition stages_after_grading (student : student_info)
  (extract_path_to_clean : option (list string)) (w : world) : option world :=
  bind (archiving student w) (fun w =>
  bind (cleanup student extract_path_to_clean w) pause).

Definition process_student_submission (student : student_info) (w : world)
  : option world :=
  bind (stages_before_grading student w) (fun '(w, extract_path) =>
  bind (grading student w) (stages_after_grading student extract_path)).

End Pipeline.

(** * Vocabulary of the specification *)

(** A trimmed line that the contract calls a declaration: the package
    or the import keyword, a space, any text, a semicolon. *)
Definition declaration (stripped : string) : Prop :=
  exists body,
    stripped = ("package " ++ body ++ ";")%string \/
    stripped = ("import " ++ body ++ ";")%string.

(** A line that the stripper drops. *)
Definition is_declaration_line (line : string) : bool :=
  let stripped := PyStr.strip line in
  is_package_declaration stripped || is_import_declaration stripped.

Definition kept_lines (lines : list string) : list string :=
  filter (fun line => negb (is_declaration_line line)) lines.

(** A [*.java] file that decodes and has at least one declaration
    line. *)
Definition needs_rewrite (e : string * node) : bool :=
  PyStr.endswith (fst e) ".java" &&
  match snd e with
  | File content =>
      utf8_valid content && existsb is_declaration_line (readlines content)
  | Dir _ => false
  end.

Definition strip_entry (plat : platform) (e : string * node) : string * node :=
  match e with
  | (java_file, File content) =>
      if needs_rewrite e
      then (java_file, File (writelines plat (kept_lines (readlines content))))
      else e
  | _ => e
  end.

(** The lines of a text as they stand in the file, each with the line
    ending it has there: LF, CR LF or CR. *)
Fixpoint raw_lines (text : string) : list string :=
  match text with
  | EmptyString => []
  | String c t =>
      if Ascii.eqb c LF then String LF "" :: raw_lines t
      else if Ascii.eqb c CR then
        match t with
        | EmptyString => [String CR ""]
        | String c' t' =>
            if Ascii.eqb c' LF then String CR (String LF "") :: raw_lines t'
            else String CR "" :: raw_lines t
        end
      else match raw_lines t with
           | [] => [String c ""]
           | l :: ls => String c l :: ls
           end
  end.

(** Stripping that keeps every other line verbatim, line ending
    included. *)
Definition verbatim_strip (content : string) : string :=
  join_lines (kept_lines (raw_lines content)).

(** No CR in the text. *)
Fixpoint no_cr (s : string) : bool :=
  match s with
  | EmptyString => true
  | String c t => negb (Ascii.eqb c CR) && no_cr t
  end.

(** A line closed by its LF, with no LF before. *)
Fixpoint is_complete (l : string) : bool :=
  match l with
  | EmptyString => false
  | String c t => if Ascii.eqb c LF then (t =? "") else is_complete t
  end.

(** A last line without LF. *)
Fixpoint is_partial (l : string) : bool :=
  match l with
  | EmptyString => false
  | String c t =>
      negb (Ascii.eqb c LF) &&
      match t with
      | EmptyString => true
      | _ => is_partial t
      end
  end.

(** The shape of what [readlines] returns: closed lines, then possibly
    one open line. *)
Fixpoint lines_ok (ls : list string) : bool :=
  match ls with
  | [] => true
  | l :: rest =>
      match rest with
      | [] => is_complete l || is_partial l
      | _ => is_complete l && lines_ok rest
      end
  end.

Fixpoint last_char (s : string) : option ascii :=
  match s with
  | EmptyString => None
  | String c EmptyString => Some c
  | String _ t => last_char t
  end.

(** An eight-digit run somewhere in the string. *)
Definition has_digit_run8 (s : string) : Prop :=
  exists p d r, s = (p ++ d ++ r)%string /\
                String.length d = 8 /\ PyStr.all_digits d = true.

(** The three score prompts of one round, from cleared scores; what is
    left of the console starts with the comment line.  [None] when a
    prompt ends in an exception. *)
Definition enter_scores (py : interpreter) (console : list string)
  : option (string * string * string * list string) :=
  match ask_grade py "" console with
  | Asked task1_grade console =>
  match ask_grade py "" console with
  | Asked task2_grade console =>
  match ask_grade py "" console with
  | Asked task3_grade console =>
      Some (task1_grade, task2_grade, task3_grade, console)
  | _ => None
  end
  | _ => None
  end
  | _ => None
  end.

(** The state in which the outer loop of the capture tests its
    condition: a sentinel comment, or three valid scores. *)
Definition ready (py : interpreter) (t1 t2 t3 cm : string) : Prop :=
  is_sentinel cm = true \/
  (valid_grade py t1 = true /\ valid_grade py t2 = true /\
   valid_grade py t3 = true).

(** A score: all digits, and an integer from 0 to 2. *)
Definition score (py : interpreter) (g : string) : Prop :=
  str_isdigit py g = true /\
  exists n, str_int py g = Some n /\ (0 <= n <= 2)%Z.

(** An answer that is refused and asked again: not all digits, or an
    integer outside 0 to 2. *)
Definition refused (py : interpreter) (g : string) : Prop :=
  str_isdigit py g = false \/
  (str_isdigit py g = true /\
   exists n, str_int py g = Some n /\ ~ (0 <= n <= 2)%Z).

(** An answer at which the prompt raises [ValueError]: all digits, and
    no integer. *)
Definition raises (py : interpreter) (g : string) : Prop :=
  str_isdigit py g = true /\ str_int py g = None.

(** One of the two reserved tokens. *)
Definition sentinel (comment : string) : Prop :=
  comment = "b" \/ comment = "0".

(** One score prompt as the contract words it: the refused lines are
    passed over, the first line that is a score is the answer. *)
Inductive prompt (py : interpreter)
  : list string -> string -> list string -> Prop :=
| prompt_answer (line : string) (rest : list string) :
    score py (PyStr.strip line) ->
    prompt py (line :: rest) (PyStr.strip line) rest
| prompt_again (line : string) (rest : list string) (g : string)
    (rest' : list string) :
    refused py (PyStr.strip line) ->
    prompt py rest g rest' ->
    prompt py (line :: rest) g rest'.

(** A score prompt that ends in [ValueError]. *)
Inductive prompt_raises (py : interpreter) : list string -> Prop :=
| prompt_raises_here (line : string) (rest : list string) :
    raises py (PyStr.strip line) ->
    prompt_raises py (line :: rest)
| prompt_raises_later (line : string) (rest : list string) :
    refused py (PyStr.strip line) ->
    prompt_raises py rest ->
    prompt_raises py (line :: rest).

(** The capture as the contract words it: three score prompts and a
    comment; a comment that is a reserved token discards the three
    scores and the capture starts again on the lines that follow. *)
Inductive captures (py : interpreter)
  : list string -> grades -> list string -> Prop :=
| captures_accept (console : list string) (t1 t2 t3 line : string)
    (c1 c2 rest : list string) :
    prompt py console t1 c1 ->
    prompt py c1 t2 c2 ->
    prompt py c2 t3 (line :: rest) ->
    ~ sentinel (PyStr.strip line) ->
    captures py console (mk_grades t1 t2 t3 (PyStr.strip line)) rest
| captures_again (console : list string) (t1 t2 t3 line : string)
    (c1 c2 rest : list string) (g : grades) (rest' : list string) :
    prompt py console t1 c1 ->
    prompt py c1 t2 c2 ->
    prompt py c2 t3 (line :: rest) ->
    sentinel (PyStr.strip line) ->
    captures py rest g rest' ->
    captures py console g rest'.

(** A capture that ends in [ValueError]: at the first, second or third
    score prompt of a round, after any number of rounds closed by a
    reserved token. *)
Inductive capture_raises (py : interpreter) : list string -> Prop :=
| capture_raises_first (console : list string) :
    prompt_raises py console ->
    capture_raises py console
| capture_raises_second (console : list string) (t1 : string)
    (c1 : list string) :
    prompt py console t1 c1 ->
    prompt_raises py c1 ->
    capture_raises py console
| capture_raises_third (console : list string) (t1 t2 : string)
    (c1 c2 : list string) :
    prompt py console t1 c1 ->
    prompt py c1 t2 c2 ->
    prompt_raises py c2 ->
    capture_raises py console
| capture_raises_again (console : list string) (t1 t2 t3 line : string)
    (c1 c2 rest : list string) :
    prompt py console t1 c1 ->
    prompt py c1 t2 c2 ->
    prompt py c2 t3 (line :: rest) ->
    sentinel (PyStr.strip line) ->
    capture_raises py rest ->
    capture_raises py console.

(** The superscript two, U+00B2, in UTF-8. *)
Definition superscript_two : string :=
  String (ascii_of_nat 194) (String (ascii_of_nat 178) EmptyString).

(** An interpreter that knows one digit beyond ASCII: the superscript
    two is a digit and has no integer value. *)
Definition superscript_interpreter : interpreter :=
  mk_interpreter
    (fun s => PyStr.isdigit s || (s =? superscript_two))
    (fun s => if PyStr.isdigit s then Some (PyStr.int s) else None)
    eq_refl.

(** The directories of a listing, described as the scanner does. *)
Fixpoint describe_directories (cfg : config) (homeworks : directory)
  : list student_info :=
  match homeworks with
  | [] => []
  | (folder_name, Dir folder) :: rest =>
      search_student_directory [HOMEWORKS_DIR cfg; folder_name] folder_name folder
        :: describe_directories cfg rest
  | (_, File _) :: rest => describe_directories cfg rest
  end.

(** Classification by the best rule over the whole listing, the
    leftover [extracted] entry apart: the priority the docstring of
    [determine_submission_type] announces. *)
Definition priority_classification (folder : directory) : string :=
  let entries := filter (fun e => negb (fst e =? "extracted")) folder in
  if existsb (fun e => PyStr.endswith_any (fst e) archive_extensions) entries
  then "Zipped file"
  else if existsb (fun e => PyStr.endswith (fst e) ".txt") entries
  then "Text file"
  else if existsb (fun e => isdir (snd e)) entries then "Folder"
  else "Unknown/Other file".

(** The listing without the entries whose name is the archive name up
    to case. *)
Definition without_done (cfg : config) (homeworks : directory) : directory :=
  filter (fun e => negb (PyStr.lower (fst e) =? PyStr.lower (DONE_DIR cfg)))
    homeworks.

(** A source file in Latin-1: the byte 233 of its comment, followed by
    a line feed, is not UTF-8. *)
Definition latin1_source : string :=
  "package a;" ++ String LF "" ++ "// caf" ++ String (ascii_of_nat 233) ""
  ++ String LF "" ++ "class Legacy {}" ++ String LF "".

(** A staging directory: a file with declarations, a file without, a
    directory with a source-file name, a file that does not decode, and
    a file of another kind. *)
Definition sample_staging : directory :=
  [("Solution.java",
    File ("package a.b;" ++ String LF "" ++ "  import x.Y;  " ++ String LF ""
          ++ "class Solution {}" ++ String LF ""));
   ("Helper.java", File ("class Helper {}" ++ String LF ""));
   ("old.java", Dir []);
   ("Legacy.java", File latin1_source);
   ("README", File "import this;")].

(** Sample texts: a CR LF file and an LF file, each with one import. *)
Definition crlf_source : string :=
  "int x;" ++ String CR (String LF "") ++ "import a.B;" ++ String LF "".

Definition lf_source : string :=
  "int x;" ++ String LF "" ++ "import a.B;" ++ String LF "".

(** One append to the report, as a step of a run of appends. *)
Definition append_record (report : option (list csv_row))
  (r : student_info * grades) : option (list csv_row) :=
  save_grades_to_csv report (fst r) (snd r).

(** A text submission without identifier, and a world that holds it. *)
Definition sample_student : student_info :=
  search_student_directory ["Homeworks"; "Jane Doe_7_file"] "Jane Doe_7_file"
    [("notes.txt", File "hello")].

Definition sample_world : world :=
  mk_world [("Jane Doe_7_file", Dir [("notes.txt", File "hello")])]
    None None None ["2"; "2"; "1"; "0"; "1"; "1"; "1"; "b0"; ""].

(** An archive library that always raises, and a test stage that
    returns at once. *)
Definition no_zip (archive : string) (existing : option node)
  : option directory := None.

Definition tests_pass (temp : option directory) (staging : directory)
  (student : student_info) (console : list string)
  : option (option directory * directory * list string) :=
  Some (temp, staging, console).

(** A submission whose only entry is a RAR archive. *)
Definition rar_student : student_info :=
  search_student_directory ["Homeworks"; "Max Mustermann_9_file"]
    "Max Mustermann_9_file" [("hw1.rar", File "Rar!")].

Definition rar_world : world :=
  mk_world [("Max Mustermann_9_file", Dir [("hw1.rar", File "Rar!")])]
    None None None ["0"; "0"; "0"; "rar archive"; ""].

(** * The rest of the program *)

(** ** The batch *)

Section Batch.

Variable py : interpreter.

Variable zip_extractall : string -> option node -> option directory.

Variable run_junit_tests :
  option directory -> directory -> student_info -> list string ->
  option (option directory * directory * list string).

Variable plat : platform.
Variable cfg : config.

(** The loop [for student in students_data]. *)
Fixpoint process_students (students_data : list student_info) (w : world)
  : option world :=
  match students_data with
  | [] => Some w
  | student :: rest =>
      bind (process_student_submission py zip_extractall run_junit_tests plat
              cfg student w)
           (process_students rest)
  end.

(** [process_all_submissions]: the compilation directory is created
    when it is missing, then the students are processed in order. *)
Definition process_all_submissions (students_data : list student_info)
  (w : world) : option world :=
  let w :=
    match temp_dir w with
    | None => mk_world (homeworks w) (Some []) (current_submission w)
                (report w) (console w)
    | Some _ => w
    end in
  process_students students_data w.

End Batch.

(** ** Choosing the test file in [init_setup]

    [while True: choice = input(...).strip()] with the test
    [choice.isdigit()] and [1 <= int(choice) <= len(test_files)]; the
    answer is [test_files[choice_num - 1]].  [None] is the dialogue
    that ends in an exception: [EOFError] when the console has no line
    left, [ValueError] when [int] raises. *)
Fixpoint select_test_file (py : interpreter) (test_files : list string)
  (console : list string) : option (string * list string) :=
  match console with
  | [] => None
  | line :: rest =>
      let choice := PyStr.strip line in
      if str_isdigit py choice then
        match str_int py choice with
        | Some choice_num =>
            if ((1 <=? choice_num)
                && (choice_num <=? Z.of_nat (List.length test_files)))%Z
            then Some (nth (Z.to_nat (choice_num - 1)) test_files "", rest)
            else select_test_file py test_files rest
        | None => None
        end
      else select_test_file py test_files rest
  end.

(** ** The compile and test stage, one call at a time *)

(** The keys of [Config] that the test stage reads. *)
Record test_config : Type := mk_test_config {
  TEST_FILE : string;
  JUNIT_JAR : string
}.

(** [verify_java_installation], on the directory at [JDK_BIN_PATH];
    [None] is the pair [(None, None)] of the source. *)
Definition verify_java_installation (jdk_bin_path : list string)
  (jdk_bin : directory) : option (list string * list string) :=
  match lookup "java.exe" jdk_bin, lookup "javac.exe" jdk_bin with
  | Some _, Some _ =>
      Some (jdk_bin_path ++ ["java.exe"], jdk_bin_path ++ ["javac.exe"])
  | _, _ => None
  end.

(** [prepare_test_environment], on the tests directory, the library
    directory and the compilation directory; [None] when [shutil.copy2]
    raises because the test entry is a directory. *)
Definition prepare_test_environment (tcfg : test_config)
  (tests lib temp : directory) : option (bool * directory) :=
  match lookup (TEST_FILE tcfg) tests with
  | None => Some (false, temp)
  | Some (Dir _) => None
  | Some (File content) =>
      let temp := set_entry (TEST_FILE tcfg) (File content) temp in
      match lookup (JUNIT_JAR tcfg) lib with
      | None => Some (false, temp)
      | Some _ => Some (true, temp)
      end
  end.

(** [student_files]: the [*.java] names of the staging directory. *)
Definition java_names (d : directory) : list string :=
  filter (fun f => PyStr.endswith f ".java") (listdir d).

(** The loop [for file in student_files] of [compile_java_files]: each
    file is looked up by its name in the staging directory and copied
    over what the compilation directory has under that name. *)
Fixpoint copy_student_files (student_files : list string)
  (staging temp : directory) : option directory :=
  match student_files with
  | [] => Some temp
  | file :: rest =>
      match lookup file staging with
      | Some (File content) =>
          copy_student_files rest staging (set_entry file (File content) temp)
      | _ => None
      end
  end.

(** [compile_java_files].  The compiler is a function from the source
    names and the compilation directory it is run on to its exit status
    (true for zero) and the directory it leaves.  The result is the
    success flag, the path of the class directory and the compilation
    directory; [None] when an exception escapes. *)
Definition compile_java_files
  (javac : list string -> directory -> bool * directory)
  (temp_path : list string) (temp staging : directory)
  : option (bool * option (list string) * directory) :=
  let student_files := java_names staging in
  match student_files with
  | [] => Some (false, None, temp)
  | _ =>
      match copy_student_files student_files staging temp with
      | None => None
      | Some temp =>
          let java_files := java_names temp in
          let bin_dir := temp_path ++ ["bin"] in
          match lookup "bin" temp with
          | Some (File _) => None
          | existing =>
              let temp :=
                match existing with
                | None => temp ++ [("bin", Dir [])]
                | Some _ => temp
                end in
              let '(ok, temp) := javac java_files temp in
              if ok then Some (true, Some bin_dir, temp)
              else Some (false, None, temp)
          end
      end
  end.

(** The verdict of [execute_junit_tests] on the output of the test
    runner: [True] when the lower-cased output has the word. *)
Definition execute_junit_tests (stdout : string) : bool :=
  PyStr.contains (PyStr.lower stdout) "successful".

(** * Vocabulary of the further properties *)

(** An underscore followed by eight digits somewhere in the string. *)
Definition has_underscore_run8 (s m : string) : Prop :=
  exists p r, s = (p ++ String "_" (m ++ r))%string.

(** An entry that no rule of the classification matches. *)
Definition unclassified (e : string * node) : bool :=
  (fst e =? "extracted") ||
  (negb (PyStr.endswith_any (fst e) archive_extensions) &&
   negb (PyStr.endswith (fst e) ".txt") &&
   negb (isdir (snd e))).

(** The content copied last under [name], if any: the last [*.java]
    file of that name in the list. *)
Fixpoint last_copy (name : string) (files : list (string * string))
  : option string :=
  match files with
  | [] => None
  | (file, content) :: rest =>
      match last_copy name rest with
      | Some c => Some c
      | None =>
          if (file =? name) && PyStr.endswith file ".java"
          then Some content else None
      end
  end.

(** A staged entry as the stripper leaves it: a regular [*.java] file
    which, if it decodes, has no line that is a package or import
    declaration. *)
Definition staged_ok (e : string * node) : bool :=
  match e with
  | (java_file, File content) =>
      PyStr.endswith java_file ".java" &&
      negb (utf8_valid content
            && existsb is_declaration_line (readlines content))
  | (_, Dir _) => false
  end.

Definition is_java_file (e : string * node) : bool :=
  match e with
  | (java_file, File _) => PyStr.endswith java_file ".java"
  | (_, Dir _) => false
  end.

(** A regular [*.java] file that decodes: what the stripper works on. *)
Definition is_source_file (e : string * node) : bool :=
  match e with
  | (java_file, File content) =>
      PyStr.endswith java_file ".java" && utf8_valid content
  | (_, Dir _) => false
  end.

(** Every character is white space. *)
Fixpoint all_space (s : string) : bool :=
  match s with
  | EmptyString => true
  | String c t => PyStr.isspace c && all_space t
  end.

(** A folder submission with one source file in a subdirectory, and a
    world that holds it. *)
Definition folder_student : student_info :=
  search_student_directory ["Homeworks"; "Ann Lee_5_file"] "Ann Lee_5_file"
    [("src", Dir [("Main.java",
                   File ("package a;" ++ String LF "" ++ "class Main {}"))])].

Definition folder_world : world :=
  mk_world
    [("Ann Lee_5_file",
      Dir [("src", Dir [("Main.java",
                         File ("package a;" ++ String LF "" ++ "class Main {}"))])])]
    (Some [("Old.class", File "")]) (Some [("Old.java", File "")]) None
    ["2"; "2"; "2"; "good"; ""].

(** A folder submission with a source file in UTF-8 and one in Latin-1,
    each with a package line. *)
Definition legacy_student : student_info :=
  search_student_directory ["Homeworks"; "Eva Roth_3_file"] "Eva Roth_3_file"
    [("src", Dir [("Main.java",
                   File ("package a;" ++ String LF "" ++ "class Main {}"));
                  ("Legacy.java", File latin1_source)])].

Definition legacy_world : world :=
  mk_world
    [("Eva Roth_3_file",
      Dir [("src", Dir [("Main.java",
                         File ("package a;" ++ String LF "" ++ "class Main {}"));
                        ("Legacy.java", File latin1_source)])])]
    None None None ["1"; "1"; "1"; "ok"; ""].

(** A folder submission of a student whose name holds the letters of
    an ignored directory name. *)
Definition ignored_student : student_info :=
  search_student_directory ["Homeworks"; "Tom Macdonell_1_file"]
    "Tom Macdonell_1_file" [("src", Dir [("Main.java", File "class Main {}")])].

Definition ignored_world : world :=
  mk_world
    [("Tom Macdonell_1_file",
      Dir [("src", Dir [("Main.java", File "class Main {}")])])]
    None None None [].

(** A homework root with two submissions, the operator's lines for
    both, and the world a batch over them ends in. *)
Definition batch_world : world :=
  mk_world
    [("Jane Doe_7_file", Dir [("notes.txt", File "hello")]);
     ("Max Mustermann_9_file", Dir [("hw1.rar", File "Rar!")])]
    None None None
    ["1"; "1"; "1"; "ok"; ""; "0"; "0"; "0"; "rar archive"; ""].

Definition batch_world_done : world :=
  mk_world
    [("done",
      Dir [("Jane Doe_7_file", Dir [("notes.txt", File "hello")]);
           ("Max Mustermann_9_file", Dir [("hw1.rar", File "Rar!")])])]
    None None
    (Some [csv_header;
           ["Jane Doe"; "Not found"; "1"; "1"; "1"; "ok"];
           ["Max Mustermann"; "Not found"; "0"; "0"; "0"; "rar archive"]])
    [].

(** A test configuration, a tests directory, a library directory, and
    a staging directory in which one file has the name of the test
    file; a compiler that fails and leaves the directory as it is. *)
Definition sample_test_config : test_config :=
  mk_test_config "TestBank.java" "junit.jar".

Definition sample_tests : directory :=
  [("TestBank.java", File "class TestBank { /* instructor */ }")].

Definition sample_lib : directory := [("junit.jar", File "PK")].

Definition cheating_staging : directory :=
  [("Bank.java", File "class Bank {}");
   ("TestBank.java", File "class TestBank { /* student */ }")].

Definition javac_fails (java_files : list string) (temp : directory)
  : bool * directory := (false, temp).

(** Two directories of one walk, each with a file of the same name. *)
Definition colliding_walk : list walk_item :=
  [mk_walk_item ["Homeworks"; "A"; "extracted"] ["v1"; "v2"; "__MACOSX"] [];
   mk_walk_item ["Homeworks"; "A"; "extracted"; "v1"] []
     [("Main.java", "class Main { int v = 1; }")];
   mk_walk_item ["Homeworks"; "A"; "extracted"; "v2"] []
     [("Main.java", "class Main { int v = 2; }")];
   mk_walk_item ["Homeworks"; "A"; "extracted"; "__MACOSX"] []
     [("Main.java", "resource fork")]].

(** A submission whose only entry is a ZIP archive, and a world that
    holds it. *)
Definition zip_student : student_info :=
  search_student_directory ["Homeworks"; "Kim Roe_3_file"] "Kim Roe_3_file"
    [("hw.zip", File "not a zip")].

Definition zip_world : world :=
  mk_world [("Kim Roe_3_file", Dir [("hw.zip", File "not a zip")])]
    None None None ["2"; "2"; "2"; "fine"; ""].

(** The four results of the classification. *)
Definition shapes : list (string * string) :=
  [("Zipped file", Colors.YELLOW); ("Text file", Colors.GREEN);
   ("Folder", Colors.BLUE); ("Unknown/Other file", Colors.RED)].

(** * Facts about the string primitives *)

Section StringFacts.

Lemma append_empty_r (s : string) : (s ++ "")%string = s.
Proof. induction s as [|c t IH]; simpl; [reflexivity | now rewrite IH]. Qed.

Lemma append_assoc (a b c : string) :
  ((a ++ b) ++ c)%string = (a ++ (b ++ c))%string.
Proof. induction a as [|x t IH]; simpl; [reflexivity | now rewrite IH]. Qed.

Lemma endswith_refl (s : string) : PyStr.endswith s s = true.
Proof.
  destruct s as [|c t]; [reflexivity|].
  cbn [PyStr.endswith]. now rewrite String.eqb_refl.
Qed.

Lemma endswith_app (p suf : string) : PyStr.endswith (p ++ suf) suf = true.
Proof.
  induction p as [|c t IH]; simpl.
  - apply endswith_refl.
  - rewrite IH. apply orb_true_r.
Qed.

Lemma endswith_last_char (s suf : string) :
  PyStr.endswith s suf = true -> suf <> "" -> last_char s = last_char suf.
Proof.
  induction s as [|c t IH]; cbn [PyStr.endswith]; intros H Hne.
  - rewrite orb_false_r in H. apply String.eqb_eq in H. now subst.
  - apply orb_true_iff in H. destruct H as [H | H].
    + apply String.eqb_eq in H. now subst.
    + destruct t as [|c' t'].
      * cbn [PyStr.endswith] in H. rewrite orb_false_r in H.
        apply String.eqb_eq in H. now subst.
      * now apply IH.
Qed.

Lemma startswith_iff (s p : string) :
  PyStr.startswith s p = true <-> exists r, s = (p ++ r)%string.
Proof.
  unfold PyStr.startswith. revert s.
  induction p as [|c t IH]; intros s.
  - split; [intros _; now exists s | intros _; now destruct s].
  - destruct s as [|c' t']; cbn [String.prefix append].
    + split; [discriminate | intros [r H]; discriminate].
    + destruct (ascii_dec c c') as [<- | Hn].
      * rewrite IH. split; intros [r H]; exists r; congruence.
      * split; [discriminate | intros [r H]; congruence].
Qed.

Lemma endswith_iff (s suf : string) :
  PyStr.endswith s suf = true <-> exists p, s = (p ++ suf)%string.
Proof.
  split.
  - induction s as [|c t IH]; cbn [PyStr.endswith]; intros H.
    + rewrite orb_false_r in H. apply String.eqb_eq in H. now exists "".
    + apply orb_true_iff in H. destruct H as [H | H].
      * apply String.eqb_eq in H. now exists "".
      * destruct (IH H) as [p ->]. now exists (String c p).
  - intros [p ->]. apply endswith_app.
Qed.

(** A name with one of the two undecompressed extensions does not end
    in [.zip]. *)
Lemma rar_or_7z_not_zip (item : string) :
  PyStr.endswith item ".rar" || PyStr.endswith item ".7z" = true ->
  PyStr.endswith item ".zip" = false.
Proof.
  intros H. destruct (PyStr.endswith item ".zip") eqn:Hz; [|reflexivity].
  apply endswith_last_char in Hz; [|discriminate].
  apply orb_true_iff in H. destruct H as [H | H];
    (apply endswith_last_char in H; [|discriminate]);
    rewrite H in Hz; discriminate.
Qed.

Lemma contains_cons_false (c : ascii) (t needle : string) :
  PyStr.contains (String c t) needle = false -> PyStr.contains t needle = false.
Proof. simpl. intros H. now apply orb_false_iff in H. Qed.

Lemma contains_underscore_head (c : ascii) (t : string) :
  PyStr.contains (String c t) "_" = false -> Ascii.eqb c "_" = false.
Proof.
  simpl. intros H. apply orb_false_iff in H. destruct H as [H _].
  destruct (Ascii.eqb c "_") eqn:E; [|reflexivity].
  apply Ascii.eqb_eq in E. subst c. simpl in H.
  destruct t; discriminate.
Qed.

Lemma split_head_app (p rest : string) :
  PyStr.contains p "_" = false ->
  PyStr.split_head "_" (p ++ String "_" rest) = p.
Proof.
  induction p as [|c t IH]; intros H.
  - reflexivity.
  - cbn [append PyStr.split_head].
    rewrite (contains_underscore_head _ _ H).
    now rewrite (IH (contains_cons_false _ _ _ H)).
Qed.

Lemma take_digits_app (d rest : string) :
  PyStr.all_digits d = true ->
  PyStr.take_digits (String.length d) (d ++ rest) = Some d.
Proof.
  induction d as [|c t IH]; simpl; intros H.
  - reflexivity.
  - apply andb_true_iff in H. destruct H as [Hc Ht].
    rewrite Hc, (IH Ht). reflexivity.
Qed.

Lemma take_digits_sound (n : nat) (s d : string) :
  PyStr.take_digits n s = Some d ->
  String.length d = n /\ PyStr.all_digits d = true /\
  exists rest, s = (d ++ rest)%string.
Proof.
  revert s d. induction n as [|n IH]; simpl; intros s d H.
  - injection H as <-. repeat split. now exists s.
  - destruct s as [|c t]; [discriminate|].
    destruct (PyStr.isdigit_char c) eqn:Hc; [|discriminate].
    destruct (PyStr.take_digits n t) as [d'|] eqn:Hd; [|discriminate].
    injection H as <-. destruct (IH _ _ Hd) as (Hl & Ha & rest & ->).
    simpl. rewrite Hl, Hc, Ha. repeat split. now exists rest.
Qed.

Lemma search_underscore_digits8_app (p d rest : string) :
  PyStr.contains p "_" = false ->
  String.length d = 8 -> PyStr.all_digits d = true ->
  PyStr.search_underscore_digits8 (p ++ String "_" (d ++ rest)) = Some d.
Proof.
  intros Hp Hl Hd. induction p as [|c t IH].
  - cbn [append PyStr.search_underscore_digits8]. rewrite Ascii.eqb_refl.
    rewrite <- Hl. now rewrite take_digits_app.
  - cbn [append PyStr.search_underscore_digits8].
    rewrite (contains_underscore_head _ _ Hp).
    apply IH. exact (contains_cons_false _ _ _ Hp).
Qed.

Lemma search_digits8_sound (s d : string) :
  PyStr.search_digits8 s = Some d -> has_digit_run8 s.
Proof.
  induction s as [|c t IH]; intros H.
  - discriminate.
  - cbn [PyStr.search_digits8] in H.
    destruct (PyStr.take_digits 8 (String c t)) as [d'|] eqn:Ht.
    + destruct (take_digits_sound _ _ _ Ht) as (Hl & Ha & r & Hs).
      exists "", d', r. now rewrite Hs.
    + destruct (IH H) as (p & d0 & r & -> & Hl & Ha).
      now exists (String c p), d0, r.
Qed.

Lemma search_digits8_none_tail (c : ascii) (t : string) :
  PyStr.search_digits8 (String c t) = None -> PyStr.search_digits8 t = None.
Proof.
  cbn [PyStr.search_digits8].
  destruct (PyStr.take_digits 8 (String c t)); [discriminate | trivial].
Qed.

Lemma search_digits8_none_take (s : string) :
  PyStr.search_digits8 s = None -> PyStr.take_digits 8 s = None.
Proof.
  destruct s as [|c t]; [reflexivity|]. cbn [PyStr.search_digits8].
  destruct (PyStr.take_digits 8 (String c t)); [discriminate | trivial].
Qed.

Lemma search_underscore_none (s : string) :
  PyStr.search_digits8 s = None -> PyStr.search_underscore_digits8 s = None.
Proof.
  induction s as [|c t IH]; intros H; [reflexivity|].
  pose proof (search_digits8_none_tail _ _ H) as Ht.
  cbn [PyStr.search_underscore_digits8].
  rewrite (search_digits8_none_take _ Ht), (IH Ht).
  now destruct (Ascii.eqb c "_").
Qed.

Lemma first_match_none (search : string -> option string) (items : list string) :
  (forall item, In item items -> search item = None) ->
  first_match search items = None.
Proof.
  induction items as [|x xs IH]; intros H; [reflexivity|].
  simpl. rewrite (H x (or_introl eq_refl)). apply IH.
  intros item Hi. apply H. now right.
Qed.

Lemma first_match_app (search : string -> option string)
  (before after : list string) (item m : string) :
  (forall x, In x before -> search x = None) ->
  search item = Some m ->
  first_match search (before ++ item :: after) = Some m.
Proof.
  induction before as [|x xs IH]; intros H Hm; simpl.
  - now rewrite Hm.
  - rewrite (H x (or_introl eq_refl)). apply IH; [|exact Hm].
    intros y Hy. apply H. now right.
Qed.

End StringFacts.

(** * Facts about text files and the stripper *)

Section TextFacts.

Lemma join_split_lines (text : string) : join_lines (split_lines text) = text.
Proof.
  induction text as [|c t IH]; [reflexivity|].
  cbn [split_lines]. destruct (Ascii.eqb c LF).
  - cbn. unfold join_lines in IH. now rewrite IH.
  - unfold join_lines in *. destruct (split_lines t) as [|l ls].
    + cbn in *. now subst.
    + cbn in *. now rewrite IH.
Qed.

Lemma split_lines_complete (l t : string) :
  is_complete l = true -> split_lines (l ++ t) = l :: split_lines t.
Proof.
  induction l as [|c l' IH]; cbn [is_complete]; intros H; [discriminate|].
  cbn [append split_lines]. destruct (Ascii.eqb c LF).
  - apply String.eqb_eq in H. now subst.
  - now rewrite (IH H).
Qed.

Lemma split_lines_partial (l : string) :
  is_partial l = true -> split_lines l = [l].
Proof.
  induction l as [|c l' IH]; cbn [is_partial]; intros H; [discriminate|].
  apply andb_true_iff in H. destruct H as [Hc Hl].
  cbn [split_lines]. apply negb_true_iff in Hc. rewrite Hc.
  destruct l' as [|c' l'']; [reflexivity|].
  now rewrite (IH Hl).
Qed.

Lemma lines_ok_tail (l : string) (ls : list string) :
  lines_ok (l :: ls) = true -> lines_ok ls = true.
Proof.
  cbn [lines_ok]. destruct ls as [|l' ls']; [reflexivity|].
  intros H. now apply andb_true_iff in H.
Qed.

Lemma lines_ok_head (l : string) (ls : list string) :
  lines_ok (l :: ls) = true -> is_complete l || is_partial l = true.
Proof.
  cbn [lines_ok]. destruct ls as [|l' ls']; [trivial|].
  intros H. apply andb_true_iff in H. destruct H as [H _].
  now rewrite H.
Qed.

Lemma lines_ok_head_complete (l l' : string) (ls : list string) :
  lines_ok (l :: l' :: ls) = true -> is_complete l = true.
Proof. cbn [lines_ok]. intros H. now apply andb_true_iff in H. Qed.

Lemma lines_ok_cons (l : string) (ls : list string) :
  is_complete l = true -> lines_ok ls = true -> lines_ok (l :: ls) = true.
Proof.
  intros Hl Hls. cbn [lines_ok]. destruct ls; rewrite Hl; [reflexivity|].
  now rewrite Hls.
Qed.

Lemma split_join_lines (ls : list string) :
  lines_ok ls = true -> split_lines (join_lines ls) = ls.
Proof.
  induction ls as [|l rest IH]; intros H; [reflexivity|].
  destruct rest as [|l' rest'].
  - cbn [lines_ok] in H. unfold join_lines. cbn [fold_right].
    rewrite append_empty_r. apply orb_true_iff in H. destruct H as [H | H].
    + rewrite <- (append_empty_r l) at 1.
      now rewrite (split_lines_complete _ _ H).
    + now apply split_lines_partial.
  - change (join_lines (l :: l' :: rest'))
      with (l ++ join_lines (l' :: rest'))%string.
    rewrite (split_lines_complete _ _ (lines_ok_head_complete _ _ _ H)).
    now rewrite (IH (lines_ok_tail _ _ H)).
Qed.

Lemma lines_ok_split (text : string) : lines_ok (split_lines text) = true.
Proof.
  induction text as [|c t IH]; [reflexivity|].
  cbn [split_lines]. destruct (Ascii.eqb c LF) eqn:Hc.
  - apply lines_ok_cons; [|exact IH]. cbn [is_complete]. now rewrite Hc.
  - destruct (split_lines t) as [|l ls]; cbn [lines_ok is_complete is_partial].
    + now rewrite Hc.
    + rewrite Hc. cbn [lines_ok] in IH. cbn [negb andb].
      destruct ls as [|l' ls'].
      * destruct l as [|x l0]; [discriminate|]. exact IH.
      * exact IH.
Qed.

Lemma lines_ok_filter (f : string -> bool) (ls : list string) :
  lines_ok ls = true -> lines_ok (filter f ls) = true.
Proof.
  induction ls as [|l rest IH]; intros H; [reflexivity|].
  cbn [filter]. pose proof (IH (lines_ok_tail _ _ H)) as Hrest.
  destruct (f l); [|exact Hrest].
  destruct rest as [|l' rest'].
  - exact H.
  - destruct (filter f (l' :: rest')) as [|k ks] eqn:Hf.
    + cbn [lines_ok]. rewrite (lines_ok_head_complete _ _ _ H). reflexivity.
    + apply lines_ok_cons; [|exact Hrest].
      exact (lines_ok_head_complete _ _ _ H).
Qed.

Lemma no_cr_app (a b : string) : no_cr (a ++ b) = no_cr a && no_cr b.
Proof.
  induction a as [|c t IH]; [reflexivity|].
  cbn [append no_cr]. rewrite IH. now rewrite andb_assoc.
Qed.

Lemma no_cr_join_lines (ls : list string) :
  no_cr (join_lines ls) = forallb no_cr ls.
Proof.
  induction ls as [|l rest IH]; [reflexivity|].
  change (join_lines (l :: rest)) with (l ++ join_lines rest)%string.
  rewrite no_cr_app, IH. reflexivity.
Qed.

Lemma forallb_filter {A : Type} (p f : A -> bool) (l : list A) :
  forallb p l = true -> forallb p (filter f l) = true.
Proof.
  induction l as [|x xs IH]; [trivial|]. cbn [forallb filter]. intros H.
  apply andb_true_iff in H. destruct H as [Hx Hxs].
  destruct (f x); cbn [forallb]; rewrite ?Hx; auto.
Qed.

Lemma no_cr_universal_newlines_aux (s : string) :
  no_cr (universal_newlines s) = true /\
  forall c, no_cr (universal_newlines (String c s)) = true.
Proof.
  induction s as [|a t [IH1 IH2]].
  - split; [reflexivity|]. intros c. cbn [universal_newlines].
    destruct (Ascii.eqb c CR) eqn:Hc; cbn [no_cr]; [reflexivity|].
    now rewrite Hc.
  - split; [apply IH2|]. intros c.
    change (universal_newlines (String c (String a t))) with
      (if Ascii.eqb c CR
       then String LF (if Ascii.eqb a LF then universal_newlines t
                       else universal_newlines (String a t))
       else String c (universal_newlines (String a t))).
    destruct (Ascii.eqb c CR) eqn:Hc; cbn [no_cr].
    + destruct (Ascii.eqb a LF); [exact IH1 | apply IH2].
    + rewrite Hc. apply IH2.
Qed.

Lemma no_cr_universal_newlines (s : string) :
  no_cr (universal_newlines s) = true.
Proof. apply no_cr_universal_newlines_aux. Qed.

Lemma universal_newlines_no_cr (s : string) :
  no_cr s = true -> universal_newlines s = s.
Proof.
  induction s as [|c t IH]; [reflexivity|]. cbn [no_cr]. intros H.
  apply andb_true_iff in H. destruct H as [Hc Ht].
  apply negb_true_iff in Hc. cbn [universal_newlines]. rewrite Hc.
  now rewrite (IH Ht).
Qed.

Lemma write_text_posix (s : string) : write_text (linesep Posix) s = s.
Proof.
  induction s as [|c t IH]; [reflexivity|]. cbn [write_text].
  destruct (Ascii.eqb c LF) eqn:Hc.
  - apply Ascii.eqb_eq in Hc. subst c.
    change (linesep Posix ++ write_text (linesep Posix) t)%string
      with (String LF (write_text (linesep Posix) t)).
    now rewrite IH.
  - now rewrite IH.
Qed.

Lemma universal_write_windows (s : string) :
  no_cr s = true -> universal_newlines (write_text (linesep Windows) s) = s.
Proof.
  induction s as [|c t IH]; [reflexivity|]. cbn [no_cr]. intros H.
  apply andb_true_iff in H. destruct H as [Hc Ht].
  apply negb_true_iff in Hc. cbn [write_text].
  destruct (Ascii.eqb c LF) eqn:Hl.
  - apply Ascii.eqb_eq in Hl. subst c.
    change (linesep Windows ++ write_text (linesep Windows) t)%string
      with (String CR (String LF (write_text (linesep Windows) t))).
    cbn [universal_newlines]. rewrite !Ascii.eqb_refl. now rewrite (IH Ht).
  - cbn [universal_newlines]. rewrite Hc. now rewrite (IH Ht).
Qed.

(** Reading back what was written gives the text that was written. *)
Lemma universal_write_text (plat : platform) (s : string) :
  no_cr s = true -> universal_newlines (write_text (linesep plat) s) = s.
Proof.
  intros H. destruct plat.
  - rewrite write_text_posix. now apply universal_newlines_no_cr.
  - now apply universal_write_windows.
Qed.

Lemma no_cr_readlines (content : string) :
  forallb no_cr (readlines content) = true.
Proof.
  unfold readlines. rewrite <- no_cr_join_lines, join_split_lines.
  apply no_cr_universal_newlines.
Qed.

Lemma readlines_writelines (plat : platform) (f : string -> bool)
  (content : string) :
  readlines (writelines plat (filter f (readlines content)))
  = filter f (readlines content).
Proof.
  unfold readlines at 1. unfold writelines.
  rewrite universal_write_text.
  - apply split_join_lines, lines_ok_filter, lines_ok_split.
  - rewrite no_cr_join_lines. apply forallb_filter, no_cr_readlines.
Qed.

Lemma strip_lines_spec (lines : list string) (modified : bool)
  (new_lines : list string) :
  strip_lines lines modified new_lines
  = (modified || existsb is_declaration_line lines,
     new_lines ++ kept_lines lines).
Proof.
  revert modified new_lines.
  induction lines as [|line rest IH]; intros modified new_lines.
  - cbn. now rewrite orb_false_r, app_nil_r.
  - cbn [strip_lines existsb kept_lines filter]. unfold is_declaration_line at 1 3.
    cbn zeta.
    destruct (is_package_declaration (PyStr.strip line)) eqn:Hp;
      [|destruct (is_import_declaration (PyStr.strip line)) eqn:Hi];
      rewrite IH; cbn [orb negb]; rewrite ?orb_true_r; try reflexivity.
    now rewrite <- app_assoc.
Qed.

Lemma existsb_kept_lines (lines : list string) :
  existsb is_declaration_line (kept_lines lines) = false.
Proof.
  induction lines as [|l rest IH]; [reflexivity|].
  unfold kept_lines in *. cbn [filter].
  destruct (is_declaration_line l) eqn:Hl; cbn [negb]; [exact IH|].
  cbn [existsb]. now rewrite Hl, IH.
Qed.

Lemma strip_files_spec (plat : platform) (entries : directory) (n : nat) :
  strip_files plat entries n
  = mk_stripped_dir (map (strip_entry plat) entries)
      (n + List.length (filter needs_rewrite entries))
      (map fst (filter needs_rewrite entries)).
Proof.
  revert n. induction entries as [|[java_file nd] rest IH]; intros n.
  - cbn. now rewrite Nat.add_0_r.
  - assert (Hn : needs_rewrite (java_file, nd)
                 = PyStr.endswith java_file ".java" &&
                   match nd with
                   | File content =>
                       utf8_valid content
                       && existsb is_declaration_line (readlines content)
                   | Dir _ => false
                   end) by reflexivity.
    cbn [strip_files map filter].
    destruct (PyStr.endswith java_file ".java") eqn:Hj; cbn [andb] in Hn.
    + destruct nd as [content | sub].
      * cbn [strip_entry]. rewrite Hn.
        destruct (utf8_valid content) eqn:Hu; cbn [andb].
        -- rewrite strip_lines_spec. cbn [orb app].
           destruct (existsb is_declaration_line (readlines content)) eqn:He;
             rewrite IH;
             cbn [sd_entries sd_modified sd_written map fst List.length].
           ++ f_equal. lia.
           ++ reflexivity.
        -- rewrite IH. reflexivity.
      * rewrite IH, Hn. reflexivity.
    + rewrite IH, Hn. destruct nd as [content | sub]; cbn [strip_entry];
        rewrite ?Hn; reflexivity.
Qed.

Lemma needs_rewrite_strip_entry (plat : platform) (e : string * node) :
  needs_rewrite (strip_entry plat e) = false.
Proof.
  destruct e as [java_file [content | sub]]; cbn [strip_entry].
  - destruct (needs_rewrite (java_file, File content)) eqn:Hn; [|exact Hn].
    unfold needs_rewrite. cbn [fst snd]. unfold kept_lines.
    rewrite readlines_writelines. fold (kept_lines (readlines content)).
    rewrite existsb_kept_lines. now rewrite !andb_false_r.
  - unfold needs_rewrite. cbn [snd]. apply andb_false_r.
Qed.

Lemma strip_entry_idempotent (plat : platform) (e : string * node) :
  strip_entry plat (strip_entry plat e) = strip_entry plat e.
Proof.
  pose proof (needs_rewrite_strip_entry plat e) as H.
  destruct (strip_entry plat e) as [nm [c | d]]; cbn [strip_entry];
    [now rewrite H | reflexivity].
Qed.

Lemma filter_needs_rewrite_stripped (plat : platform) (entries : directory) :
  filter needs_rewrite (map (strip_entry plat) entries) = [].
Proof.
  induction entries as [|e rest IH]; [reflexivity|].
  cbn [map filter]. now rewrite needs_rewrite_strip_entry.
Qed.

End TextFacts.

(** * Facts about grade capture *)

Section CaptureFacts.

Variable py : interpreter.

Lemma grade_condition_score (g : string) :
  grade_condition py g = Some true <-> score py g.
Proof.
  unfold grade_condition, score.
  destruct (str_isdigit py g); [|split; [discriminate | intros [H _]; discriminate]].
  destruct (str_int py g) as [n|].
  - split.
    + intros H. injection H as H. apply andb_true_iff in H.
      split; [reflexivity|]. exists n. split; [reflexivity | lia].
    + intros [_ (m & Hm & Hr)]. injection Hm as <-. f_equal.
      apply andb_true_iff. lia.
  - split; [discriminate | intros [_ (m & Hm & _)]; discriminate].
Qed.

Lemma grade_condition_refused (g : string) :
  grade_condition py g = Some false <-> refused py g.
Proof.
  unfold grade_condition, refused.
  destruct (str_isdigit py g); [|split; auto].
  destruct (str_int py g) as [n|].
  - split.
    + intros H. injection H as H. apply andb_false_iff in H. right.
      split; [reflexivity|]. exists n. split; [reflexivity | lia].
    + intros [H | [_ (m & Hm & Hr)]]; [discriminate|].
      injection Hm as <-. f_equal. apply andb_false_iff. lia.
  - split; [discriminate|].
    intros [H | [_ (m & Hm & _)]]; discriminate.
Qed.

Lemma grade_condition_raises (g : string) :
  grade_condition py g = None <-> raises py g.
Proof.
  unfold grade_condition, raises.
  destruct (str_isdigit py g); [|split; [discriminate | intros [H _]; discriminate]].
  destruct (str_int py g) as [n|].
  - split; [discriminate | intros [_ H]; discriminate].
  - split; auto.
Qed.

Lemma valid_grade_score (g : string) : valid_grade py g = true <-> score py g.
Proof.
  rewrite <- grade_condition_score. unfold valid_grade.
  destruct (grade_condition py g) as [[|]|]; split; congruence.
Qed.

Lemma is_sentinel_sentinel (cm : string) :
  is_sentinel cm = true <-> sentinel cm.
Proof.
  unfold is_sentinel, sentinel. rewrite orb_true_iff, !String.eqb_eq.
  reflexivity.
Qed.

Lemma ask_grade_eq (g : string) (console : list string) :
  ask_grade py g console
  = match grade_condition py g with
    | None => AskedValueError
    | Some true => Asked g console
    | Some false =>
        match console with
        | [] => AskedEOFError
        | line :: rest => ask_grade py (PyStr.strip line) rest
        end
    end.
Proof. destruct console; reflexivity. Qed.

(** From cleared scores a prompt reads a line first. *)
Lemma ask_grade_cleared (console : list string) :
  ask_grade py "" console
  = match console with
    | [] => AskedEOFError
    | line :: rest => ask_grade py (PyStr.strip line) rest
    end.
Proof.
  rewrite ask_grade_eq. unfold grade_condition.
  now rewrite (isdigit_empty py).
Qed.

Lemma ask_grade_sound (console : list string) :
  forall g g' console',
    ask_grade py g console = Asked g' console' ->
    valid_grade py g' = true /\ List.length console' <= List.length console.
Proof.
  induction console as [|line rest IH]; intros g g' console' H;
    rewrite ask_grade_eq in H;
    destruct (grade_condition py g) as [[|]|] eqn:Hg; try discriminate.
  - injection H as <- <-. unfold valid_grade. rewrite Hg. auto.
  - injection H as <- <-. unfold valid_grade. rewrite Hg. auto.
  - destruct (IH _ _ _ H) as [Hv Hl]. split; [exact Hv|]. cbn. lia.
Qed.

(** A prompt that has an answer from cleared scores has read a line. *)
Lemma ask_grade_cleared_reads (console : list string) (g : string)
  (rest : list string) :
  ask_grade py "" console = Asked g rest ->
  List.length rest < List.length console.
Proof.
  rewrite ask_grade_cleared. destruct console as [|line c]; [discriminate|].
  intros H. apply ask_grade_sound in H. cbn. lia.
Qed.

(** The prompt of the source and the prompt of the contract. *)
Lemma ask_grade_line_prompt (rest : list string) :
  forall line g c,
    ask_grade py (PyStr.strip line) rest = Asked g c <->
    prompt py (line :: rest) g c.
Proof.
  induction rest as [|l r IH]; intros line g c; rewrite ask_grade_eq;
    destruct (grade_condition py (PyStr.strip line)) as [[|]|] eqn:Hg.
  - apply grade_condition_score in Hg. split.
    + intros H. injection H as <- <-. now constructor.
    + intros H. inversion H; subst; [reflexivity|].
      match goal with
      | Hp : prompt _ [] _ _ |- _ => inversion Hp
      end.
  - split; [discriminate|]. intros H. inversion H; subst.
    + match goal with
      | Hs : score _ _ |- _ => apply grade_condition_score in Hs; congruence
      end.
    + match goal with
      | Hp : prompt _ [] _ _ |- _ => inversion Hp
      end.
  - split; [discriminate|]. intros H. inversion H; subst.
    + match goal with
      | Hs : score _ _ |- _ => apply grade_condition_score in Hs; congruence
      end.
    + match goal with
      | Hs : refused _ _ |- _ => apply grade_condition_refused in Hs; congruence
      end.
  - apply grade_condition_score in Hg. split.
    + intros H. injection H as <- <-. now constructor.
    + intros H. inversion H; subst; [reflexivity|].
      match goal with
      | Hs : refused _ _ |- _ =>
          apply grade_condition_refused in Hs;
          apply grade_condition_score in Hg; congruence
      end.
  - rewrite IH. split.
    + intros H. apply prompt_again; [|exact H].
      now apply grade_condition_refused.
    + intros H. inversion H; subst; [|assumption].
      match goal with
      | Hs : score _ _ |- _ => apply grade_condition_score in Hs; congruence
      end.
  - split; [discriminate|]. intros H. inversion H; subst.
    + match goal with
      | Hs : score _ _ |- _ => apply grade_condition_score in Hs; congruence
      end.
    + match goal with
      | Hs : refused _ _ |- _ => apply grade_condition_refused in Hs; congruence
      end.
Qed.

Lemma ask_grade_prompt (console : list string) (g : string)
  (c : list string) :
  ask_grade py "" console = Asked g c <-> prompt py console g c.
Proof.
  rewrite ask_grade_cleared. destruct console as [|line rest].
  - split; [discriminate | intros H; inversion H].
  - apply ask_grade_line_prompt.
Qed.

Lemma ask_grade_line_raises (rest : list string) :
  forall line,
    ask_grade py (PyStr.strip line) rest = AskedValueError <->
    prompt_raises py (line :: rest).
Proof.
  induction rest as [|l r IH]; intros line; rewrite ask_grade_eq;
    destruct (grade_condition py (PyStr.strip line)) as [[|]|] eqn:Hg.
  - split; [discriminate|]. intros H. inversion H; subst.
    + match goal with
      | Hs : raises _ _ |- _ => apply grade_condition_raises in Hs; congruence
      end.
    + match goal with
      | Hp : prompt_raises _ [] |- _ => inversion Hp
      end.
  - split; [discriminate|]. intros H. inversion H; subst.
    + match goal with
      | Hs : raises _ _ |- _ => apply grade_condition_raises in Hs; congruence
      end.
    + match goal with
      | Hp : prompt_raises _ [] |- _ => inversion Hp
      end.
  - split; [|reflexivity]. intros _. constructor.
    now apply grade_condition_raises.
  - split; [discriminate|]. intros H. inversion H; subst.
    + match goal with
      | Hs : raises _ _ |- _ => apply grade_condition_raises in Hs; congruence
      end.
    + match goal with
      | Hs : refused _ _ |- _ => apply grade_condition_refused in Hs; congruence
      end.
  - rewrite IH. split.
    + intros H. apply prompt_raises_later; [|exact H].
      now apply grade_condition_refused.
    + intros H. inversion H; subst; [|assumption].
      match goal with
      | Hs : raises _ _ |- _ => apply grade_condition_raises in Hs; congruence
      end.
  - split; [|reflexivity]. intros _. constructor.
    now apply grade_condition_raises.
Qed.

Lemma ask_grade_raises (console : list string) :
  ask_grade py "" console = AskedValueError <-> prompt_raises py console.
Proof.
  rewrite ask_grade_cleared. destruct console as [|line rest].
  - split; [discriminate | intros H; inversion H].
  - apply ask_grade_line_raises.
Qed.

Lemma collect_loop_S (fuel : nat) (t1 t2 t3 cm : string) (console : list string) :
  collect_loop py (S fuel) t1 t2 t3 cm console
  = if is_sentinel cm then
      match ask_grade py t1 console with
      | AskedEOFError => EOFError
      | AskedValueError => ValueError
      | Asked t1 console =>
      match ask_grade py t2 console with
      | AskedEOFError => EOFError
      | AskedValueError => ValueError
      | Asked t2 console =>
      match ask_grade py t3 console with
      | AskedEOFError => EOFError
      | AskedValueError => ValueError
      | Asked t3 console =>
      match console with
      | [] => EOFError
      | line :: console =>
          if is_sentinel (PyStr.strip line)
          then collect_loop py fuel "" "" "" (PyStr.strip line) console
          else collect_loop py fuel t1 t2 t3 (PyStr.strip line) console
      end end end end
    else Returned (mk_grades t1 t2 t3 cm) console.
Proof. reflexivity. Qed.

Lemma collect_loop_accepts (fuel : nat) :
  forall t1 t2 t3 cm console g rest,
    ready py t1 t2 t3 cm ->
    collect_loop py fuel t1 t2 t3 cm console = Returned g rest ->
    valid_grade py (task1 g) = true /\ valid_grade py (task2 g) = true /\
    valid_grade py (task3 g) = true /\ is_sentinel (comment g) = false.
Proof.
  induction fuel as [|fuel IH]; intros t1 t2 t3 cm console g rest Hr H.
  - discriminate.
  - rewrite collect_loop_S in H. destruct (is_sentinel cm) eqn:Hc.
    + destruct (ask_grade py t1 console) as [g1 c1| |] eqn:E1; try discriminate.
      destruct (ask_grade py t2 c1) as [g2 c2| |] eqn:E2; try discriminate.
      destruct (ask_grade py t3 c2) as [g3 c3| |] eqn:E3; try discriminate.
      destruct c3 as [|line c4]; [discriminate|].
      apply ask_grade_sound in E1, E2, E3.
      destruct (is_sentinel (PyStr.strip line)) eqn:Hs;
        apply IH in H; auto; unfold ready; intuition.
    + injection H as <- <-. cbn.
      destruct Hr as [Hr | Hr]; [congruence | intuition].
Qed.

Lemma collect_loop_fuel (fuel : nat) :
  forall t1 t2 t3 cm console,
    List.length console < fuel ->
    collect_loop py fuel t1 t2 t3 cm console <> OutOfFuel.
Proof.
  induction fuel as [|fuel IH]; intros t1 t2 t3 cm console Hf; [lia|].
  rewrite collect_loop_S. destruct (is_sentinel cm); [|discriminate].
  destruct (ask_grade py t1 console) as [g1 c1| |] eqn:H1; try discriminate.
  destruct (ask_grade py t2 c1) as [g2 c2| |] eqn:H2; try discriminate.
  destruct (ask_grade py t3 c2) as [g3 c3| |] eqn:H3; try discriminate.
  destruct c3 as [|line c4]; [discriminate|].
  apply ask_grade_sound in H1, H2, H3. cbn in H3.
  destruct (is_sentinel (PyStr.strip line)); apply IH; lia.
Qed.

Lemma collect_loop_fuel_irrelevant (f1 : nat) :
  forall f2 t1 t2 t3 cm console,
    List.length console < f1 -> List.length console < f2 ->
    collect_loop py f1 t1 t2 t3 cm console
    = collect_loop py f2 t1 t2 t3 cm console.
Proof.
  induction f1 as [|f1 IH]; intros f2 t1 t2 t3 cm console H1 H2; [lia|].
  destruct f2 as [|f2]; [lia|]. rewrite !collect_loop_S.
  destruct (is_sentinel cm); [|reflexivity].
  destruct (ask_grade py t1 console) as [g1 c1| |] eqn:E1; try reflexivity.
  destruct (ask_grade py t2 c1) as [g2 c2| |] eqn:E2; try reflexivity.
  destruct (ask_grade py t3 c2) as [g3 c3| |] eqn:E3; try reflexivity.
  destruct c3 as [|line c4]; [reflexivity|].
  apply ask_grade_sound in E1, E2, E3. cbn in E3.
  destruct (is_sentinel (PyStr.strip line)); apply IH; lia.
Qed.

Lemma collect_loop_sentinel (fuel : nat) (t1 t2 t3 cm cm' : string)
  (console : list string) :
  is_sentinel cm = true -> is_sentinel cm' = true ->
  collect_loop py fuel t1 t2 t3 cm console
  = collect_loop py fuel t1 t2 t3 cm' console.
Proof.
  intros H H'. destruct fuel as [|fuel]; [reflexivity|].
  rewrite !collect_loop_S, H, H'. reflexivity.
Qed.

Lemma enter_scores_sound (console : list string) (t1 t2 t3 : string)
  (rest : list string) :
  enter_scores py console = Some (t1, t2, t3, rest) ->
  3 + List.length rest <= List.length console /\
  valid_grade py t1 = true /\ valid_grade py t2 = true /\
  valid_grade py t3 = true.
Proof.
  unfold enter_scores. intros H.
  destruct (ask_grade py "" console) as [g1 c1| |] eqn:E1; try discriminate.
  destruct (ask_grade py "" c1) as [g2 c2| |] eqn:E2; try discriminate.
  destruct (ask_grade py "" c2) as [g3 c3| |] eqn:E3; try discriminate.
  injection H as <- <- <- <-.
  pose proof (ask_grade_cleared_reads _ _ _ E1).
  pose proof (ask_grade_cleared_reads _ _ _ E2).
  pose proof (ask_grade_cleared_reads _ _ _ E3).
  apply ask_grade_sound in E1, E2, E3. intuition; lia.
Qed.

(** The three prompts of the source and those of the contract. *)
Lemma enter_scores_prompts (console : list string) (t1 t2 t3 : string)
  (rest : list string) :
  enter_scores py console = Some (t1, t2, t3, rest) <->
  exists c1 c2,
    prompt py console t1 c1 /\ prompt py c1 t2 c2 /\ prompt py c2 t3 rest.
Proof.
  unfold enter_scores. split.
  - intros H.
    destruct (ask_grade py "" console) as [g1 c1| |] eqn:E1; try discriminate.
    destruct (ask_grade py "" c1) as [g2 c2| |] eqn:E2; try discriminate.
    destruct (ask_grade py "" c2) as [g3 c3| |] eqn:E3; try discriminate.
    injection H as <- <- <- <-. exists c1, c2.
    now rewrite <- !ask_grade_prompt.
  - intros (c1 & c2 & H1 & H2 & H3).
    apply ask_grade_prompt in H1, H2, H3. now rewrite H1, H2, H3.
Qed.

(** One round of the capture from cleared scores. *)
Lemma collect_loop_round (fuel : nat) (cm : string) (console : list string)
  (t1 t2 t3 line : string) (rest : list string) :
  is_sentinel cm = true ->
  enter_scores py console = Some (t1, t2, t3, line :: rest) ->
  collect_loop py (S fuel) "" "" "" cm console
  = if is_sentinel (PyStr.strip line)
    then collect_loop py fuel "" "" "" (PyStr.strip line) rest
    else collect_loop py fuel t1 t2 t3 (PyStr.strip line) rest.
Proof.
  intros Hc H. rewrite collect_loop_S, Hc. unfold enter_scores in H.
  destruct (ask_grade py "" console) as [g1 c1| |]; try discriminate.
  destruct (ask_grade py "" c1) as [g2 c2| |]; try discriminate.
  destruct (ask_grade py "" c2) as [g3 c3| |]; try discriminate.
  injection H as <- <- <- ->. reflexivity.
Qed.

Lemma collect_grades_restart (console : list string)
  (t1 t2 t3 line : string) (rest : list string) :
  enter_scores py console = Some (t1, t2, t3, line :: rest) ->
  is_sentinel (PyStr.strip line) = true ->
  collect_grades py console = collect_grades py rest.
Proof.
  intros H Hs. unfold collect_grades.
  change (2 + List.length console) with (S (S (List.length console))).
  rewrite (collect_loop_round _ "0" _ _ _ _ _ _ eq_refl H), Hs.
  destruct (enter_scores_sound _ _ _ _ _ H) as (Hl & _). cbn in Hl.
  rewrite (collect_loop_sentinel _ _ _ _ _ "0" _ Hs eq_refl).
  apply collect_loop_fuel_irrelevant; cbn; lia.
Qed.

Lemma collect_grades_accept (console : list string)
  (t1 t2 t3 line : string) (rest : list string) :
  enter_scores py console = Some (t1, t2, t3, line :: rest) ->
  is_sentinel (PyStr.strip line) = false ->
  collect_grades py console
  = Returned (mk_grades t1 t2 t3 (PyStr.strip line)) rest.
Proof.
  intros H Hs. unfold collect_grades.
  change (2 + List.length console) with (S (S (List.length console))).
  rewrite (collect_loop_round _ "0" _ _ _ _ _ _ eq_refl H), Hs.
  rewrite collect_loop_S, Hs. reflexivity.
Qed.

(** What the loop returns from cleared scores, the contract allows. *)
Lemma collect_loop_captures (fuel : nat) :
  forall cm console g rest,
    is_sentinel cm = true ->
    collect_loop py fuel "" "" "" cm console = Returned g rest ->
    captures py console g rest.
Proof.
  induction fuel as [|fuel IH]; intros cm console g rest Hc H; [discriminate|].
  rewrite collect_loop_S, Hc in H.
  destruct (ask_grade py "" console) as [g1 c1| |] eqn:E1; try discriminate.
  destruct (ask_grade py "" c1) as [g2 c2| |] eqn:E2; try discriminate.
  destruct (ask_grade py "" c2) as [g3 c3| |] eqn:E3; try discriminate.
  destruct c3 as [|line c4]; [discriminate|].
  apply ask_grade_prompt in E1, E2, E3.
  destruct (is_sentinel (PyStr.strip line)) eqn:Hs.
  - apply (captures_again py console g1 g2 g3 line c1 c2 c4); auto.
    + now apply is_sentinel_sentinel.
    + now apply (IH (PyStr.strip line)).
  - destruct fuel as [|fuel]; [discriminate|].
    rewrite collect_loop_S, Hs in H. injection H as <- <-.
    apply (captures_accept py console g1 g2 g3 line c1 c2 c4); auto.
    intros Hn. apply is_sentinel_sentinel in Hn. congruence.
Qed.

(** What the contract allows, the capture returns. *)
Lemma captures_collect_grades (console : list string) (g : grades)
  (rest : list string) :
  captures py console g rest -> collect_grades py console = Returned g rest.
Proof.
  induction 1 as [console t1 t2 t3 line c1 c2 rest H1 H2 H3 Hs
                 |console t1 t2 t3 line c1 c2 rest g rest' H1 H2 H3 Hs _ IH].
  - apply collect_grades_accept.
    + apply enter_scores_prompts. now exists c1, c2.
    + destruct (is_sentinel (PyStr.strip line)) eqn:E; [|reflexivity].
      apply is_sentinel_sentinel in E. contradiction.
  - rewrite <- IH. apply (collect_grades_restart _ t1 t2 t3 line).
    + apply enter_scores_prompts. now exists c1, c2.
    + now apply is_sentinel_sentinel.
Qed.

(** The loop ends in [ValueError] only as the contract says. *)
Lemma collect_loop_raises (fuel : nat) :
  forall cm console,
    is_sentinel cm = true ->
    collect_loop py fuel "" "" "" cm console = ValueError ->
    capture_raises py console.
Proof.
  induction fuel as [|fuel IH]; intros cm console Hc H; [discriminate|].
  rewrite collect_loop_S, Hc in H.
  destruct (ask_grade py "" console) as [g1 c1| |] eqn:E1; try discriminate;
    [|apply capture_raises_first; now apply ask_grade_raises].
  apply ask_grade_prompt in E1.
  destruct (ask_grade py "" c1) as [g2 c2| |] eqn:E2; try discriminate;
    [|apply (capture_raises_second py console g1 c1); auto;
      now apply ask_grade_raises].
  apply ask_grade_prompt in E2.
  destruct (ask_grade py "" c2) as [g3 c3| |] eqn:E3; try discriminate;
    [|apply (capture_raises_third py console g1 g2 c1 c2); auto;
      now apply ask_grade_raises].
  apply ask_grade_prompt in E3.
  destruct c3 as [|line c4]; [discriminate|].
  destruct (is_sentinel (PyStr.strip line)) eqn:Hs.
  - apply (capture_raises_again py console g1 g2 g3 line c1 c2 c4); auto.
    + now apply is_sentinel_sentinel.
    + now apply (IH (PyStr.strip line)).
  - destruct fuel as [|fuel]; [discriminate|].
    rewrite collect_loop_S, Hs in H. discriminate.
Qed.

Lemma capture_raises_collect_grades (console : list string) :
  capture_raises py console -> collect_grades py console = ValueError.
Proof.
  induction 1 as [console H1
                 |console t1 c1 H1 H2
                 |console t1 t2 c1 c2 H1 H2 H3
                 |console t1 t2 t3 line c1 c2 rest H1 H2 H3 Hs _ IH].
  - apply ask_grade_raises in H1. unfold collect_grades.
    change (2 + List.length console) with (S (S (List.length console))).
    rewrite collect_loop_S. cbn [is_sentinel String.eqb orb]. cbn.
    now rewrite H1.
  - apply ask_grade_prompt in H1. apply ask_grade_raises in H2.
    unfold collect_grades.
    change (2 + List.length console) with (S (S (List.length console))).
    rewrite collect_loop_S. cbn. now rewrite H1, H2.
  - apply ask_grade_prompt in H1, H2. apply ask_grade_raises in H3.
    unfold collect_grades.
    change (2 + List.length console) with (S (S (List.length console))).
    rewrite collect_loop_S. cbn. now rewrite H1, H2, H3.
  - rewrite <- IH. apply (collect_grades_restart _ t1 t2 t3 line).
    + apply enter_scores_prompts. now exists c1, c2.
    + now apply is_sentinel_sentinel.
Qed.

Lemma prompt_suffix (console : list string) (g : string)
  (rest : list string) :
  prompt py console g rest -> forall line, In line rest -> In line console.
Proof.
  induction 1 as [line rest _ | line rest g rest' _ _ IH]; intros l Hl.
  - now right.
  - right. now apply IH.
Qed.

Lemma prompt_raises_line (console : list string) :
  prompt_raises py console ->
  exists line, In line console /\ raises py (PyStr.strip line).
Proof.
  induction 1 as [line rest Hr | line rest _ _ (l & Hl & Hr)].
  - exists line. split; [now left | exact Hr].
  - exists l. split; [now right | exact Hr].
Qed.

(** A capture that ends in [ValueError] has met a line that is all
    digits and has no integer value. *)
Lemma capture_raises_line (console : list string) :
  capture_raises py console ->
  exists line, In line console /\ raises py (PyStr.strip line).
Proof.
  induction 1 as [console H1
                 |console t1 c1 H1 H2
                 |console t1 t2 c1 c2 H1 H2 H3
                 |console t1 t2 t3 line c1 c2 rest H1 H2 H3 Hs _ IH].
  - now apply prompt_raises_line.
  - destruct (prompt_raises_line _ H2) as (l & Hl & Hr). exists l.
    split; [|exact Hr]. exact (prompt_suffix _ _ _ H1 _ Hl).
  - destruct (prompt_raises_line _ H3) as (l & Hl & Hr). exists l.
    split; [|exact Hr].
    exact (prompt_suffix _ _ _ H1 _ (prompt_suffix _ _ _ H2 _ Hl)).
  - destruct IH as (l & Hl & Hr). exists l. split; [|exact Hr].
    apply (prompt_suffix _ _ _ H1), (prompt_suffix _ _ _ H2),
      (prompt_suffix _ _ _ H3). now right.
Qed.

End CaptureFacts.

(** * Facts about the pipeline *)

Section PipelineFacts.

Lemma set_entry_lookup_same (nm : string) (nd : node) (d : directory) :
  lookup nm d = Some nd -> set_entry nm nd d = d.
Proof.
  induction d as [|[nm' nd'] rest IH]; cbn [lookup set_entry]; intros H.
  - discriminate.
  - destruct (nm' =? nm) eqn:E.
    + apply String.eqb_eq in E. injection H as ->. now subst.
    + now rewrite (IH H).
Qed.

Lemma lower_char_idempotent (c : ascii) :
  PyStr.lower_char (PyStr.lower_char c) = PyStr.lower_char c.
Proof.
  destruct c as [[] [] [] [] [] [] [] []]; reflexivity.
Qed.

Lemma lower_idempotent (s : string) : PyStr.lower (PyStr.lower s) = PyStr.lower s.
Proof.
  induction s as [|c t IH]; [reflexivity|].
  cbn [PyStr.lower]. now rewrite lower_char_idempotent, IH.
Qed.

(** With an archive name that has an upper-case letter the test of
    the scanner never succeeds. *)
Lemma scan_submissions_mixed_case (cfg : config) (homeworks : directory) :
  PyStr.lower (DONE_DIR cfg) <> DONE_DIR cfg ->
  scan_submissions cfg homeworks = describe_directories cfg homeworks.
Proof.
  intros Hd. induction homeworks as [|[folder_name nd] rest IH]; [reflexivity|].
  cbn [scan_submissions describe_directories].
  destruct (PyStr.lower folder_name =? DONE_DIR cfg) eqn:E.
  - apply String.eqb_eq in E. exfalso. apply Hd.
    rewrite <- E. apply lower_idempotent.
  - rewrite IH. destruct nd; reflexivity.
Qed.

(** With a lower-case archive name the exclusion is case-insensitive. *)
Lemma scan_submissions_lower_case (cfg : config) (homeworks : directory) :
  PyStr.lower (DONE_DIR cfg) = DONE_DIR cfg ->
  scan_submissions cfg homeworks
  = describe_directories cfg (without_done cfg homeworks).
Proof.
  intros Hd. unfold without_done. rewrite Hd.
  induction homeworks as [|[folder_name nd] rest IH]; [reflexivity|].
  cbn [scan_submissions filter fst].
  destruct (PyStr.lower folder_name =? DONE_DIR cfg); cbn [negb].
  - exact IH.
  - cbn [describe_directories]. rewrite IH. destruct nd; reflexivity.
Qed.

Ltac break_match H :=
  repeat match type of H with
         | context [match ?x with _ => _ end] => destruct x eqn:?
         | context [if ?x then _ else _] => destruct x eqn:?
         end; try discriminate.

Lemma normalize_report zip plat cfg student w w1 ep :
  normalize zip plat cfg student w = Some (w1, ep) ->
  report w1 = report w /\ console w1 = console w /\ temp_dir w1 = temp_dir w.
Proof.
  unfold normalize. intros H. break_match H;
    injection H as <- <-; auto.
Qed.

Lemma testing_report run student w w1 :
  testing run student w = Some w1 -> report w1 = report w.
Proof.
  unfold testing. intros H. break_match H; injection H as <-; reflexivity.
Qed.

Lemma stages_before_report zip run plat cfg student w w1 ep :
  stages_before_grading zip run plat cfg student w = Some (w1, ep) ->
  report w1 = report w.
Proof.
  unfold stages_before_grading, bind. intros H.
  destruct (normalize zip plat cfg student (setup_directories w))
    as [[w0 ep0]|] eqn:Hn; [|discriminate].
  destruct (testing run student w0) as [w2|] eqn:Ht; [|discriminate].
  injection H as <- <-.
  apply normalize_report in Hn. apply testing_report in Ht.
  destruct Hn as (Hn & _). now rewrite Ht, Hn.
Qed.

Lemma archiving_report cfg student w w' :
  archiving cfg student w = Some w' -> report w' = report w.
Proof.
  unfold archiving. intros H.
  destruct (move_to_done_folder cfg (folder_path student) (homeworks w));
    [|discriminate].
  now injection H as <-.
Qed.

Lemma cleanup_report student ep w w' :
  cleanup student ep w = Some w' -> report w' = report w.
Proof.
  unfold cleanup. intros H.
  match type of H with
  | match ?hw with _ => _ end = _ => destruct hw; [|discriminate]
  end.
  now injection H as <-.
Qed.

Lemma pause_report w w' : pause w = Some w' -> report w' = report w.
Proof.
  unfold pause. intros H. destruct (console w); [discriminate|].
  now injection H as <-.
Qed.

Lemma stages_after_report cfg student ep w w' :
  stages_after_grading cfg student ep w = Some w' -> report w' = report w.
Proof.
  unfold stages_after_grading, bind. intros H.
  destruct (archiving cfg student w) as [w1|] eqn:Ha; [|discriminate].
  destruct (cleanup student ep w1) as [w2|] eqn:Hc; [|discriminate].
  apply archiving_report in Ha. apply cleanup_report in Hc.
  apply pause_report in H. now rewrite H, Hc, Ha.
Qed.

End PipelineFacts.

(** * The scanner *)

(** C1 (the code departs from the claim).  Classification is decided by
    the first entry that matches any rule, not by the best rule over all
    entries: a text file listed before an archive makes the submission a
    text submission, where the priority over the whole listing gives an
    archive submission; the same two entries in the other order make it
    an archive submission. *)
Theorem determine_submission_type_follows_listing_order :
  determine_submission_type
    [("notes.txt", File "see archive"); ("solution.zip", File "PK")]
  = ("Text file", Colors.GREEN) /\
  priority_classification
    [("notes.txt", File "see archive"); ("solution.zip", File "PK")]
  = "Zipped file" /\
  determine_submission_type
    [("solution.zip", File "PK"); ("notes.txt", File "see archive")]
  = ("Zipped file", Colors.YELLOW).
Proof. repeat split; reflexivity. Qed.

(** C2, as stated, fails: the identifier is searched in the names of
    the entries of the folder, and the name of the folder itself is never
    read.  A folder named [A B_12345678_rest] that holds [Jane.zip] gets
    no identifier. *)
Lemma identifier_ignores_folder_name :
  matriculation
    (search_student_directory ["Homeworks"; "A B_12345678_rest"]
       "A B_12345678_rest" [("Jane.zip", File "PK")])
  <> "12345678".
Proof. cbv. discriminate. Qed.

(** C2 (amended).  For a name [p_d_rest] with no separator in [p] and
    eight digits [d]: as a folder name it yields the display name [p];
    as the name of the first entry of the folder in which a separator is
    followed by eight digits, it yields the identifier [d]. *)
Theorem name_and_identifier_extraction (p d rest : string) :
  PyStr.contains p "_" = false ->
  String.length d = 8 ->
  PyStr.all_digits d = true ->
  let nm := (p ++ String "_" (d ++ String "_" rest))%string in
  extract_student_name nm = p /\
  forall (fp : list string) (folder_name : string)
         (before after : directory) (nd : node),
    (forall x, In x (listdir before) ->
               PyStr.search_underscore_digits8 x = None) ->
    let folder := before ++ (nm, nd) :: after in
    find_matriculation_number folder = Some d /\
    matriculation (search_student_directory fp folder_name folder) = d.
Proof.
  intros Hp Hl Hd nm. split.
  - apply split_head_app, Hp.
  - intros fp folder_name before after nd Hb folder.
    assert (Hf : find_matriculation_number folder = Some d).
    { unfold find_matriculation_number, folder, listdir.
      rewrite map_app. cbn [map fst].
      rewrite (first_match_app _ _ _ nm d); [reflexivity | exact Hb |].
      apply search_underscore_digits8_app; assumption. }
    split; [exact Hf|].
    unfold search_student_directory. rewrite Hf.
    destruct (determine_submission_type folder). cbn [matriculation].
    destruct d; [discriminate | reflexivity].
Qed.

Lemma name_and_identifier_extraction_witness :
  extract_student_name "A B_12345678_rest" = "A B" /\
  matriculation
    (search_student_directory ["Homeworks"; "Jane Doe_77_file"]
       "Jane Doe_77_file" [("A B_12345678_rest", File "")])
  = "12345678".
Proof.
  destruct (name_and_identifier_extraction "A B" "12345678" "rest"
              eq_refl eq_refl eq_refl) as [Hn Hi].
  split; [exact Hn|].
  apply (Hi ["Homeworks"; "Jane Doe_77_file"] "Jane Doe_77_file"
            [] [] (File "")).
  intros x [].
Defined.

(** * The stripper *)

(** C3, as stated, fails on line endings.  On a POSIX platform a kept
    line that ended in CR LF is written back with LF; on Windows a kept
    line that ended in LF is written back with CR LF. *)
Lemma stripper_rewrites_line_endings :
  fst (fst (remove_package_declarations Posix
              (Some [("A.java", File crlf_source)])))
  <> Some [("A.java", File (verbatim_strip crlf_source))] /\
  fst (fst (remove_package_declarations Windows
              (Some [("A.java", File lf_source)])))
  <> Some [("A.java", File (verbatim_strip lf_source))].
Proof. split; cbv; discriminate. Qed.

Lemma is_declaration_line_iff (line : string) :
  is_declaration_line line = true <-> declaration (PyStr.strip line).
Proof.
  unfold is_declaration_line, declaration, is_package_declaration,
    is_import_declaration. cbn zeta.
  rewrite orb_true_iff, !andb_true_iff, !startswith_iff, !endswith_iff.
  split.
  - intros [[[r Hr] He] | [[r Hr] He]]; rewrite Hr in He |- *;
      apply endswith_iff in He; cbn in He; apply endswith_iff in He;
      destruct He as [body ->]; exists body; auto.
  - intros [body [H | H]]; rewrite H; [left | right];
      (split; [eexists; reflexivity|]);
      [exists ("package " ++ body)%string | exists ("import " ++ body)%string];
      now rewrite append_assoc.
Qed.

Lemma needs_rewrite_iff (java_file : string) (nd : node) :
  needs_rewrite (java_file, nd) = true <->
  PyStr.endswith java_file ".java" = true /\
  exists content,
    nd = File content /\ utf8_valid content = true /\
    exists line,
      In line (split_lines (universal_newlines content)) /\
      declaration (PyStr.strip line).
Proof.
  unfold needs_rewrite. cbn [fst snd]. rewrite andb_true_iff.
  destruct nd as [content | sub].
  - rewrite andb_true_iff, existsb_exists. unfold readlines. split.
    + intros (Hj & Hu & line & Hi & Hd). split; [exact Hj|].
      exists content. repeat split; [exact Hu|]. exists line.
      split; [exact Hi | now apply is_declaration_line_iff].
    + intros (Hj & c & Hc & Hu & line & Hi & Hd). injection Hc as <-.
      repeat split; try assumption. exists line.
      split; [exact Hi | now apply is_declaration_line_iff].
  - split; [intros [_ H]; discriminate|].
    intros (_ & c & Hc & _). discriminate.
Qed.

(** C3 (amended).  The stripper works on the [*.java] entries that are
    regular files and decode as UTF-8; an entry that is a directory or
    does not decode is passed over: left as it is and not counted.  Of
    every file it works on it drops exactly the lines whose trimmed
    text is [package ] or [import ], any text and a semicolon.  A file
    with such a line is written back as its other lines, in order, each
    as it was read (CR LF and CR read as LF) and with every LF written
    as the line separator of the platform; a file without such a line,
    and every other entry, is left as it is and is not opened for
    writing.  The count returned is the number of files written. *)
Theorem remove_package_declarations_contract (plat : platform)
  (entries : directory) :
  remove_package_declarations plat (Some entries)
  = (Some (map (strip_entry plat) entries),
     List.length (filter needs_rewrite entries),
     map fst (filter needs_rewrite entries)) /\
  remove_package_declarations plat None = (None, 0, []) /\
  (forall e, needs_rewrite e = false -> strip_entry plat e = e) /\
  (forall java_file content,
      needs_rewrite (java_file, File content) = true ->
      strip_entry plat (java_file, File content)
      = (java_file,
         File (write_text (linesep plat)
                 (join_lines
                    (filter (fun line => negb (is_declaration_line line))
                       (split_lines (universal_newlines content))))))) /\
  (forall java_file nd,
      needs_rewrite (java_file, nd) = true <->
      PyStr.endswith java_file ".java" = true /\
      exists content,
        nd = File content /\ utf8_valid content = true /\
        exists line,
          In line (split_lines (universal_newlines content)) /\
          declaration (PyStr.strip line)) /\
  (forall line,
      is_declaration_line line = true <-> declaration (PyStr.strip line)).
Proof.
  split; [|split; [|split; [|split; [|split]]]].
  - unfold remove_package_declarations. now rewrite strip_files_spec.
  - reflexivity.
  - intros [nm [c | d]] H; cbn [strip_entry]; [now rewrite H | reflexivity].
  - intros java_file content H. cbn [strip_entry]. now rewrite H.
  - apply needs_rewrite_iff.
  - apply is_declaration_line_iff.
Qed.

Lemma remove_package_declarations_contract_witness :
  remove_package_declarations Windows (Some sample_staging)
  = (Some [("Solution.java",
            File ("class Solution {}" ++ String CR (String LF "")));
           ("Helper.java", File ("class Helper {}" ++ String LF ""));
           ("old.java", Dir []);
           ("Legacy.java", File latin1_source);
           ("README", File "import this;")],
     1, ["Solution.java"]) /\
  strip_entry Windows ("Legacy.java", File latin1_source)
  = ("Legacy.java", File latin1_source) /\
  strip_entry Posix ("A.java", File crlf_source)
  = ("A.java", File ("int x;" ++ String LF "")) /\
  needs_rewrite ("A.java", File crlf_source) = true /\
  is_declaration_line ("  import a.B; " ++ String LF "") = true.
Proof.
  destruct (remove_package_declarations_contract Windows sample_staging)
    as (H1 & _ & H3 & _).
  destruct (remove_package_declarations_contract Posix [])
    as (_ & _ & _ & H4 & H5 & H6).
  split; [|split; [|split; [|split]]].
  - etransitivity; [exact H1 | reflexivity].
  - exact (H3 ("Legacy.java", File latin1_source) eq_refl).
  - etransitivity; [exact (H4 "A.java" crlf_source eq_refl) | reflexivity].
  - apply H5. split; [reflexivity|]. exists crlf_source.
    split; [reflexivity|]. split; [reflexivity|].
    exists ("import a.B;" ++ String LF "")%string.
    split; [right; left; reflexivity|]. exists "a.B". right. reflexivity.
  - apply H6. exists "a.B". right. reflexivity.
Defined.

(** C4.  Running the stripper on the directory it left behind changes
    nothing, writes no file and reports zero modified files. *)
Theorem remove_package_declarations_idempotent (plat : platform)
  (dir : option directory) :
  let after := fst (fst (remove_package_declarations plat dir)) in
  remove_package_declarations plat after = (after, 0, []).
Proof.
  destruct dir as [entries|]; [|reflexivity].
  unfold remove_package_declarations. rewrite strip_files_spec.
  cbn [fst sd_entries]. rewrite strip_files_spec.
  rewrite filter_needs_rewrite_stripped. cbn [List.length map Nat.add].
  rewrite map_map.
  rewrite (map_ext _ _ (strip_entry_idempotent plat)). reflexivity.
Qed.

(** * Grade capture and the report *)

(** C5.  The capture never runs out of loop fuel.  It returns exactly
    as the contract says: at each of the three score prompts the lines
    that are not all digits, or whose integer is outside 0 to 2, are
    refused and the prompt repeated, and the first line that is a score
    is the answer; after three scores the comment is read, and a
    comment that is [b] or [0] discards the three scores and starts
    the capture again on the lines that follow, so that three new
    scores are required.  Every score returned is all digits with an
    integer from 0 to 2.  A capture does not return when the console
    runs out of lines, or when a line at a score prompt is all digits
    and has no integer value: there the capture ends in [ValueError]
    and the prompt is not repeated. *)
Theorem collect_grades_contract (py : interpreter) (console : list string) :
  collect_grades py console <> OutOfFuel /\
  (forall g rest,
      collect_grades py console = Returned g rest <->
      captures py console g rest) /\
  (forall g rest,
      collect_grades py console = Returned g rest ->
      score py (task1 g) /\ score py (task2 g) /\ score py (task3 g)) /\
  (collect_grades py console = ValueError <-> capture_raises py console).
Proof.
  split; [|split; [|split]].
  - apply collect_loop_fuel. lia.
  - intros g rest. split.
    + now apply collect_loop_captures.
    + apply captures_collect_grades.
  - intros g rest H.
    apply collect_loop_accepts in H; [|now left].
    destruct H as (H1 & H2 & H3 & _).
    now rewrite <- !valid_grade_score.
  - split.
    + now apply collect_loop_raises.
    + apply capture_raises_collect_grades.
Qed.

Lemma collect_grades_contract_witness :
  captures ascii_interpreter
    ["1"; "1"; "1"; " b "; "7"; "2"; "x"; "1"; "0"; "late"; "next"]
    (mk_grades "2" "1" "0" "late") ["next"] /\
  (score ascii_interpreter "2" /\ score ascii_interpreter "1" /\
   score ascii_interpreter "0") /\
  capture_raises superscript_interpreter ["1"; "3"; superscript_two; "1"].
Proof.
  split; [|split].
  - destruct (collect_grades_contract ascii_interpreter
                ["1"; "1"; "1"; " b "; "7"; "2"; "x"; "1"; "0"; "late"; "next"])
      as (_ & H & _).
    now apply H.
  - destruct (collect_grades_contract ascii_interpreter
                ["7"; "2"; "x"; "1"; "0"; "fine"])
      as (_ & _ & H & _).
    exact (H (mk_grades "2" "1" "0" "fine") [] eq_refl).
  - destruct (collect_grades_contract superscript_interpreter
                ["1"; "3"; superscript_two; "1"])
      as (_ & _ & _ & H).
    now apply H.
Defined.

Lemma append_records_existing (records : list (student_info * grades))
  (rows : list csv_row) :
  fold_left append_record records (Some rows)
  = Some (rows ++ map (fun r => grade_row (fst r) (snd r)) records).
Proof.
  revert rows. induction records as [|r rs IH]; intros rows; cbn [fold_left map].
  - now rewrite app_nil_r.
  - change (append_record (Some rows) r)
      with (Some (rows ++ [grade_row (fst r) (snd r)])).
    rewrite IH, <- app_assoc. reflexivity.
Qed.

(** C6.  Two records appended where no report exists give the header
    and then the two rows; an append to a report that exists adds its
    row after the rows already there and nothing else; and any run of
    appends from a fresh location gives the header once, followed by one
    row per record. *)
Theorem report_header_written_once :
  (forall info1 g1 info2 g2,
      save_grades_to_csv (save_grades_to_csv None info1 g1) info2 g2
      = Some [csv_header; grade_row info1 g1; grade_row info2 g2]) /\
  (forall rows info g,
      save_grades_to_csv (Some rows) info g = Some (rows ++ [grade_row info g])) /\
  (forall r records,
      fold_left append_record (r :: records) None
      = Some (csv_header
                :: map (fun r => grade_row (fst r) (snd r)) (r :: records))).
Proof.
  repeat apply conj.
  - reflexivity.
  - reflexivity.
  - intros r records. cbn [fold_left].
    change (append_record None r)
      with (Some [csv_header; grade_row (fst r) (snd r)]).
    now rewrite append_records_existing.
Qed.

Lemma is_sentinel_false (cm : string) :
  is_sentinel cm = false -> cm <> "b" /\ cm <> "0".
Proof.
  unfold is_sentinel. intros H. apply orb_false_iff in H.
  destruct H as [Hb H0]. now rewrite !String.eqb_neq in *.
Qed.

(** C10.  A comment that the capture returns is neither [b] nor [0],
    and the row that the grading stage appends to the report carries
    that comment as its last field. *)
Theorem sentinel_never_recorded (py : interpreter) :
  (forall console g rest,
      collect_grades py console = Returned g rest ->
      comment g <> "b" /\ comment g <> "0") /\
  (forall student w w',
      grading py student w = Some w' ->
      exists g rows,
        report w' = Some (rows ++ [grade_row student g]) /\
        last (grade_row student g) "" = comment g /\
        comment g <> "b" /\ comment g <> "0").
Proof.
  split.
  - intros console g rest H.
    apply collect_loop_accepts in H; [|now left].
    now apply is_sentinel_false.
  - intros student w w'. unfold grading.
    destruct (collect_grades py (console w)) as [g rest| | |] eqn:Hc;
      try discriminate.
    intros H. injection H as <-. cbn [report].
    apply collect_loop_accepts in Hc; [|now left].
    destruct Hc as (_ & _ & _ & Hs). apply is_sentinel_false in Hs.
    exists g. destruct (report w) as [rows|].
    + exists rows. now split.
    + exists [csv_header]. now split.
Qed.

Lemma sentinel_never_recorded_witness :
  ("fine" <> "b" /\ "fine" <> "0") /\
  exists g rows,
    Some [csv_header; grade_row sample_student (mk_grades "1" "1" "1" "b0")]
    = Some (rows ++ [grade_row sample_student g]) /\
    last (grade_row sample_student g) "" = comment g /\
    comment g <> "b" /\ comment g <> "0".
Proof.
  destruct (sentinel_never_recorded ascii_interpreter) as [H1 H2]. split.
  - exact (H1 ["1"; "2"; "0"; "fine"] (mk_grades "1" "2" "0" "fine") [] eq_refl).
  - exact (H2 sample_student sample_world
             (mk_world (homeworks sample_world) None None
                (Some [csv_header;
                       grade_row sample_student (mk_grades "1" "1" "1" "b0")])
                [""])
             eq_refl).
Defined.

(** * Scanning and the pipeline *)

(** C7 (the code departs from the claim).  Only the folder name is
    lower-cased before the comparison, the configured name is not: with
    the archive directory configured as [Done], the folders [Done],
    [DONE] and [done] are all scanned as submissions, where the exclusion
    up to case leaves one submission. *)
Theorem scan_submissions_keeps_done_folder :
  let cfg := mk_config "Homeworks" "Done" ["_MACOSX"] in
  let homeworks :=
    [("Done", Dir []); ("DONE", Dir []); ("done", Dir []);
     ("Jane Doe_7_file", Dir [("notes.txt", File "hello")])] in
  map name (scan_submissions cfg homeworks)
  = ["Done"; "DONE"; "done"; "Jane Doe"] /\
  map name (describe_directories cfg (without_done cfg homeworks))
  = ["Jane Doe"].
Proof. split; reflexivity. Qed.

Lemma no_digit_run_search (nm : string) :
  ~ has_digit_run8 nm -> PyStr.search_digits8 nm = None.
Proof.
  intros H. destruct (PyStr.search_digits8 nm) as [d|] eqn:E; [|reflexivity].
  exfalso. apply H. exact (search_digits8_sound _ _ E).
Qed.

Lemma find_matriculation_number_none (folder : directory) :
  (forall nm, In nm (listdir folder) -> ~ has_digit_run8 nm) ->
  find_matriculation_number folder = None.
Proof.
  intros H. unfold find_matriculation_number.
  rewrite first_match_none.
  - apply first_match_none. intros nm Hn. now apply no_digit_run_search, H.
  - intros nm Hn. now apply search_underscore_none, no_digit_run_search, H.
Qed.

(** C8.  When no entry name of the folder holds eight digits in a row,
    the descriptor carries [Not found], and the run over that submission
    goes on as for any other: once the stages before grading are through
    and the operator's scores are accepted, the row is appended with
    [Not found] as its identifier, and the run ends where the later
    stages end. *)
Theorem not_found_is_not_fatal (py : interpreter)
  (zip_extractall : string -> option node -> option directory)
  (run_junit_tests :
     option directory -> directory -> student_info -> list string ->
     option (option directory * directory * list string))
  (plat : platform) (cfg : config)
  (fp : list string) (folder_name : string) (folder : directory) :
  (forall nm, In nm (listdir folder) -> ~ has_digit_run8 nm) ->
  let student := search_student_directory fp folder_name folder in
  matriculation student = "Not found" /\
  forall w w1 extract_path g rest,
    stages_before_grading zip_extractall run_junit_tests plat cfg student w
    = Some (w1, extract_path) ->
    collect_grades py (console w1) = Returned g rest ->
    let graded :=
      mk_world (homeworks w1) (temp_dir w1) (current_submission w1)
        (save_grades_to_csv (report w) student g) rest in
    grading py student w1 = Some graded /\
    process_student_submission py zip_extractall run_junit_tests plat cfg student w
    = stages_after_grading cfg student extract_path graded /\
    (forall w',
        stages_after_grading cfg student extract_path graded = Some w' ->
        report w' = save_grades_to_csv (report w) student g) /\
    exists rows,
      save_grades_to_csv (report w) student g
      = Some (rows ++ [[name student; "Not found"; task1 g; task2 g; task3 g;
                        comment g]]).
Proof.
  intros Hno student.
  assert (Hm : matriculation student = "Not found").
  { unfold student, search_student_directory.
    rewrite (find_matriculation_number_none _ Hno).
    now destruct (determine_submission_type folder). }
  split; [exact Hm|].
  intros w w1 extract_path g rest Hb Hc graded.
  assert (Hg : grading py student w1 = Some graded).
  { unfold grading. rewrite Hc. unfold graded.
    now rewrite (stages_before_report _ _ _ _ _ _ _ _ Hb). }
  repeat apply conj.
  - exact Hg.
  - unfold process_student_submission. rewrite Hb. cbn [bind].
    now rewrite Hg.
  - intros w' Ha. now rewrite (stages_after_report _ _ _ _ _ Ha).
  - unfold save_grades_to_csv, grade_row. rewrite Hm.
    destruct (report w) as [rows|]; cbn [negb].
    + now exists rows.
    + now exists [csv_header].
Qed.

Lemma search_digits8_eq (s : string) :
  PyStr.search_digits8 s
  = match PyStr.take_digits 8 s with
    | Some d => Some d
    | None => match s with
              | EmptyString => None
              | String _ t => PyStr.search_digits8 t
              end
    end.
Proof. destruct s; reflexivity. Qed.

Lemma has_digit_run_search (s : string) :
  has_digit_run8 s -> PyStr.search_digits8 s <> None.
Proof.
  intros (p & d & r & -> & Hl & Hd). induction p as [|c t IH].
  - pose proof (take_digits_app d r Hd) as Ht. rewrite Hl in Ht.
    cbn [append]. rewrite search_digits8_eq, Ht. discriminate.
  - cbn [append]. rewrite search_digits8_eq.
    destruct (PyStr.take_digits 8 (String c (t ++ d ++ r))); [discriminate|].
    exact IH.
Qed.

Lemma search_none_no_digit_run (s : string) :
  PyStr.search_digits8 s = None -> ~ has_digit_run8 s.
Proof. intros H Hr. exact (has_digit_run_search _ Hr H). Qed.

Lemma not_found_is_not_fatal_witness :
  matriculation sample_student = "Not found" /\
  process_student_submission ascii_interpreter no_zip tests_pass Posix default_config
    sample_student sample_world
  = Some (mk_world
            [("done", Dir [("Jane Doe_7_file", Dir [("notes.txt", File "hello")])])]
            None None
            (Some [csv_header; ["Jane Doe"; "Not found"; "1"; "1"; "1"; "b0"]])
            []).
Proof.
  assert (Hno : forall nm,
             In nm (listdir [("notes.txt", File "hello")]) ->
             ~ has_digit_run8 nm).
  { intros nm [<- | []]. now apply search_none_no_digit_run. }
  destruct (not_found_is_not_fatal ascii_interpreter no_zip tests_pass Posix default_config
              ["Homeworks"; "Jane Doe_7_file"] "Jane Doe_7_file"
              [("notes.txt", File "hello")] Hno) as [Hm Hrun].
  split; [exact Hm|].
  destruct (Hrun sample_world
              (mk_world (homeworks sample_world) (Some []) (Some []) None
                 (console sample_world))
              None (mk_grades "1" "1" "1" "b0") [""] eq_refl eq_refl)
    as (_ & Hp & _).
  etransitivity; [exact Hp | reflexivity].
Defined.

(** C9.  An archive submission whose first archive entry ends in [.rar]
    or [.7z], with no directory called [extracted] in the folder: nothing
    is decompressed (the folder is left as it is, whatever the archive
    library would do), no file reaches the staging directory, and with
    the staging directory empty the test stage is not entered (the world
    before grading does not depend on the test runner and the console is
    untouched). *)
Theorem unsupported_archive_leaves_staging_empty
  (zip_extractall : string -> option node -> option directory)
  (run_junit_tests :
     option directory -> directory -> student_info -> list string ->
     option (option directory * directory * list string))
  (plat : platform) (cfg : config)
  (student : student_info) (w : world)
  (folder : directory) (item : string) (nd : node) :
  submission_type student = "Zipped file" ->
  lookup (basename (folder_path student)) (homeworks w) = Some (Dir folder) ->
  find_archive folder = Some (item, nd) ->
  PyStr.endswith item ".rar" || PyStr.endswith item ".7z" = true ->
  (forall d, lookup "extracted" folder <> Some (Dir d)) ->
  extract_and_copy_java_files zip_extractall plat (folder_path student) folder []
  = Some (folder, [], Some (folder_path student ++ ["extracted"])) /\
  stages_before_grading zip_extractall run_junit_tests plat cfg student w
  = Some (mk_world (homeworks w) (Some []) (Some []) (report w) (console w),
          Some (folder_path student ++ ["extracted"])).
Proof.
  intros Ht Hl Hf Hext Hno.
  assert (Hw : walk_path (folder_path student ++ ["extracted"])
                 (lookup "extracted" folder) = []).
  { destruct (lookup "extracted" folder) as [[c | d]|] eqn:E;
      [reflexivity | now destruct (Hno d) | reflexivity]. }
  assert (He : extract_and_copy_java_files zip_extractall plat
                 (folder_path student) folder []
               = Some (folder, [], Some (folder_path student ++ ["extracted"]))).
  { unfold extract_and_copy_java_files.
    rewrite Hf, (rar_or_7z_not_zip _ Hext), Hw. reflexivity. }
  split; [exact He|].
  unfold stages_before_grading, normalize, setup_directories.
  cbn [current_submission homeworks temp_dir report console].
  rewrite Ht, String.eqb_refl, Hl, He, (set_entry_lookup_same _ _ _ Hl).
  reflexivity.
Qed.

Lemma unsupported_archive_leaves_staging_empty_witness :
  stages_before_grading no_zip tests_pass Windows default_config
    rar_student rar_world
  = Some (mk_world (homeworks rar_world) (Some []) (Some []) None
            (console rar_world),
          Some ["Homeworks"; "Max Mustermann_9_file"; "extracted"]).
Proof.
  refine (proj2 (unsupported_archive_leaves_staging_empty no_zip tests_pass
                   Windows default_config rar_student rar_world
                   [("hw1.rar", File "Rar!")] "hw1.rar" (File "Rar!")
                   eq_refl eq_refl eq_refl eq_refl _)).
  intros d. cbn. discriminate.
Defined.

(** * Further properties of the scanner *)

Lemma contains_underscore_cons (c : ascii) (t : string) :
  Ascii.eqb c "_" = false ->
  PyStr.contains (String c t) "_" = PyStr.contains t "_".
Proof.
  intros Hc. cbn [PyStr.contains String.prefix].
  destruct (ascii_dec "_" c) as [E | E]; [|reflexivity].
  subst c. discriminate.
Qed.

(** The display name has no separator, and the folder name is the
    display name, alone or followed by a separator and the rest. *)
Theorem extract_student_name_splits (folder_name : string) :
  PyStr.contains (extract_student_name folder_name) "_" = false /\
  (folder_name = extract_student_name folder_name \/
   exists rest,
     folder_name = (extract_student_name folder_name ++ String "_" rest)%string).
Proof.
  unfold extract_student_name.
  induction folder_name as [|c t [IH1 IH2]]; [now split; [|left]|].
  cbn [PyStr.split_head]. destruct (Ascii.eqb c "_") eqn:Hc.
  - split; [reflexivity|]. right. exists t.
    apply Ascii.eqb_eq in Hc. now subst.
  - split.
    + now rewrite (contains_underscore_cons _ _ Hc).
    + destruct IH2 as [IH2 | [rest IH2]].
      * left. now rewrite <- IH2.
      * right. exists rest. cbn [append]. now rewrite <- IH2.
Qed.

Lemma search_underscore_digits8_sound (s d : string) :
  PyStr.search_underscore_digits8 s = Some d ->
  String.length d = 8 /\ PyStr.all_digits d = true /\ has_underscore_run8 s d.
Proof.
  induction s as [|c t IH]; intros H; [discriminate|].
  cbn [PyStr.search_underscore_digits8] in H.
  assert (Hrec : PyStr.search_underscore_digits8 t = Some d ->
                 String.length d = 8 /\ PyStr.all_digits d = true /\
                 has_underscore_run8 (String c t) d).
  { intros Ht. destruct (IH Ht) as (Hl & Ha & p & r & ->).
    repeat split; auto. now exists (String c p), r. }
  destruct (Ascii.eqb c "_") eqn:Hc; [|now apply Hrec].
  destruct (PyStr.take_digits 8 t) as [d'|] eqn:Ht; [|now apply Hrec].
  injection H as <-. apply Ascii.eqb_eq in Hc. subst c.
  destruct (take_digits_sound _ _ _ Ht) as (Hl & Ha & r & ->).
  repeat split; auto. now exists "", r.
Qed.

Lemma first_match_some (search : string -> option string)
  (items : list string) (m : string) :
  first_match search items = Some m ->
  exists item, In item items /\ search item = Some m.
Proof.
  induction items as [|x xs IH]; [discriminate|]. cbn [first_match].
  destruct (search x) as [m'|] eqn:Hx.
  - intros H. injection H as <-. exists x. split; [now left | exact Hx].
  - intros H. destruct (IH H) as (item & Hi & Hs).
    exists item. split; [now right | exact Hs].
Qed.

Lemma first_match_none_inv (search : string -> option string)
  (items : list string) :
  first_match search items = None ->
  forall item, In item items -> search item = None.
Proof.
  induction items as [|x xs IH]; [intros _ item []|]. cbn [first_match].
  destruct (search x) eqn:Hx; [discriminate|].
  intros H item [<- | Hi]; [exact Hx | now apply IH].
Qed.

(** An identifier that is found is a run of eight digits that stands
    in the name of some entry of the folder. *)
Theorem find_matriculation_number_sound (folder : directory) (m : string) :
  find_matriculation_number folder = Some m ->
  String.length m = 8 /\ PyStr.all_digits m = true /\
  exists item p r, In item (listdir folder) /\ item = (p ++ m ++ r)%string.
Proof.
  unfold find_matriculation_number.
  destruct (first_match PyStr.search_underscore_digits8 (listdir folder))
    as [m'|] eqn:Hu.
  - intros H. injection H as <-.
    destruct (first_match_some _ _ _ Hu) as (item & Hi & Hs).
    destruct (search_underscore_digits8_sound _ _ Hs) as (Hl & Ha & p & r & ->).
    repeat split; auto.
    exists (p ++ String "_" (m' ++ r))%string, (p ++ "_")%string, r.
    split; [exact Hi|]. now rewrite append_assoc.
  - intros H. destruct (first_match_some _ _ _ H) as (item & Hi & Hs).
    assert (Ht : exists p r, item = (p ++ m ++ r)%string /\
                             String.length m = 8 /\ PyStr.all_digits m = true).
    { clear Hi H Hu. revert Hs. induction item as [|c t IH]; [discriminate|].
      rewrite search_digits8_eq.
      destruct (PyStr.take_digits 8 (String c t)) as [d|] eqn:Ht.
      - intros H. injection H as <-.
        destruct (take_digits_sound _ _ _ Ht) as (Hl & Ha & r & Hs).
        exists "", r. now rewrite Hs.
      - intros H. destruct (IH H) as (p & r & -> & Hl & Ha).
        now exists (String c p), r. }
    destruct Ht as (p & r & -> & Hl & Ha). repeat split; auto.
    now exists (p ++ m ++ r)%string, p, r.
Qed.

Lemma find_matriculation_number_sound_witness :
  String.length "20231234" = 8 /\ PyStr.all_digits "20231234" = true /\
  exists item p r,
    In item (listdir [("notes.txt", File ""); ("hw20231234.zip", File "PK")]) /\
    item = (p ++ "20231234" ++ r)%string.
Proof.
  exact (find_matriculation_number_sound
           [("notes.txt", File ""); ("hw20231234.zip", File "PK")]
           "20231234" eq_refl).
Defined.

(** No identifier is found exactly when no entry name of the folder
    holds eight digits in a row. *)
Theorem find_matriculation_number_none_iff (folder : directory) :
  find_matriculation_number folder = None <->
  (forall item, In item (listdir folder) -> ~ has_digit_run8 item).
Proof.
  split.
  - unfold find_matriculation_number.
    destruct (first_match PyStr.search_underscore_digits8 (listdir folder));
      [discriminate|].
    intros H item Hi. apply search_none_no_digit_run.
    exact (first_match_none_inv _ _ H item Hi).
  - apply find_matriculation_number_none.
Qed.

Lemma take_digits_app8 (d rest : string) :
  String.length d = 8 -> PyStr.all_digits d = true ->
  PyStr.take_digits 8 (d ++ rest) = Some d.
Proof. intros Hl Hd. rewrite <- Hl. now apply take_digits_app. Qed.

Lemma has_underscore_run_search (s d : string) :
  has_underscore_run8 s d ->
  String.length d = 8 -> PyStr.all_digits d = true ->
  PyStr.search_underscore_digits8 s <> None.
Proof.
  intros (p & r & ->) Hl Hd. induction p as [|c t IH].
  - cbn [append PyStr.search_underscore_digits8]. rewrite Ascii.eqb_refl.
    rewrite (take_digits_app8 _ _ Hl Hd). discriminate.
  - cbn [append PyStr.search_underscore_digits8].
    destruct (Ascii.eqb c "_"); [|exact IH].
    destruct (PyStr.take_digits 8 (t ++ String "_" (d ++ r)));
      [discriminate | exact IH].
Qed.

(** A run of eight digits that follows an underscore is preferred to
    one that does not, wherever the two stand in the listing: when some
    entry name has an underscore followed by eight digits, the
    identifier found follows an underscore in some entry name. *)
Theorem find_matriculation_number_prefers_underscore
  (folder : directory) (item d : string) :
  In item (listdir folder) ->
  has_underscore_run8 item d ->
  String.length d = 8 -> PyStr.all_digits d = true ->
  exists m item',
    find_matriculation_number folder = Some m /\
    In item' (listdir folder) /\ has_underscore_run8 item' m.
Proof.
  intros Hi Hr Hl Hd. unfold find_matriculation_number.
  destruct (first_match PyStr.search_underscore_digits8 (listdir folder))
    as [m|] eqn:Hu.
  - destruct (first_match_some _ _ _ Hu) as (item' & Hi' & Hs).
    exists m, item'. repeat split; auto.
    now apply search_underscore_digits8_sound.
  - exfalso. apply (has_underscore_run_search _ _ Hr Hl Hd).
    exact (first_match_none_inv _ _ Hu item Hi).
Qed.

Lemma find_matriculation_number_prefers_underscore_witness :
  exists m item',
    find_matriculation_number
      [("11112222.txt", File ""); ("hw_33334444.zip", File "PK")] = Some m /\
    In item' (listdir [("11112222.txt", File ""); ("hw_33334444.zip", File "PK")]) /\
    has_underscore_run8 item' m.
Proof.
  apply (find_matriculation_number_prefers_underscore
           [("11112222.txt", File ""); ("hw_33334444.zip", File "PK")]
           "hw_33334444.zip" "33334444").
  - right. now left.
  - now exists "hw", ".zip".
  - reflexivity.
  - reflexivity.
Defined.

(** A leftover [extracted] entry has no part in the classification. *)
Theorem determine_submission_type_ignores_extracted (folder : directory) :
  determine_submission_type (remove_entry "extracted" folder)
  = determine_submission_type folder.
Proof.
  induction folder as [|[item nd] rest IH]; [reflexivity|].
  cbn [remove_entry determine_submission_type].
  destruct (item =? "extracted") eqn:E; [exact IH|].
  cbn [determine_submission_type]. rewrite E, IH. reflexivity.
Qed.

(** A submission classified as an archive has an archive entry for the
    normalizer to find, and it is an entry of the folder. *)
Theorem zipped_submission_has_archive (folder : directory) :
  fst (determine_submission_type folder) = "Zipped file" ->
  exists item nd,
    find_archive folder = Some (item, nd) /\ In (item, nd) folder /\
    PyStr.endswith_any item archive_extensions = true.
Proof.
  induction folder as [|[item nd] rest IH]; [discriminate|].
  cbn [determine_submission_type find_archive].
  assert (Hrec : fst (determine_submission_type rest) = "Zipped file" ->
                 PyStr.endswith_any item archive_extensions = false ->
                 exists item0 nd0,
                   find_archive rest = Some (item0, nd0) /\
                   In (item0, nd0) ((item, nd) :: rest) /\
                   PyStr.endswith_any item0 archive_extensions = true).
  { intros H _. destruct (IH H) as (i & n & Hf & Hi & He).
    exists i, n. repeat split; auto. now right. }
  destruct (item =? "extracted") eqn:E.
  - apply String.eqb_eq in E. subst item. intros H. now apply Hrec.
  - destruct (PyStr.endswith_any item archive_extensions) eqn:Ha.
    + intros _. exists item, nd. repeat split; auto. now left.
    + destruct (PyStr.endswith item ".txt"); [discriminate|].
      destruct (isdir nd); [discriminate|]. intros H. now apply Hrec.
Qed.

Lemma zipped_submission_has_archive_witness :
  exists item nd,
    find_archive [("extracted", Dir []); ("readme", File ""); ("hw.7z", File "7z")]
    = Some (item, nd) /\
    In (item, nd) [("extracted", Dir []); ("readme", File ""); ("hw.7z", File "7z")] /\
    PyStr.endswith_any item archive_extensions = true.
Proof.
  exact (zipped_submission_has_archive
           [("extracted", Dir []); ("readme", File ""); ("hw.7z", File "7z")]
           eq_refl).
Defined.

(** The classification is [Unknown/Other file] exactly when every
    entry, the leftover [extracted] apart, is a regular file with
    neither an archive extension nor [.txt]; an empty folder is one. *)
Theorem unknown_submission_iff (folder : directory) :
  fst (determine_submission_type folder) = "Unknown/Other file" <->
  forallb unclassified folder = true.
Proof.
  induction folder as [|[item nd] rest IH]; [now split|].
  cbn [determine_submission_type forallb]. unfold unclassified at 1.
  cbn [fst snd].
  destruct (item =? "extracted"); cbn [orb andb]; [exact IH|].
  destruct (PyStr.endswith_any item archive_extensions); cbn [negb andb];
    [now split|].
  destruct (PyStr.endswith item ".txt"); cbn [negb andb]; [now split|].
  destruct (isdir nd); cbn [negb andb]; [now split | exact IH].
Qed.

(** The descriptors the scanner returns are, in listing order, those of
    the entries of the homework root that are directories and whose
    lower-cased name differs from the configured archive name; each
    carries the path of its folder below the root and the display name
    taken from the folder name. *)
Theorem scan_submissions_folders (cfg : config) (homeworks : directory) :
  let scanned :=
    filter (fun e => negb (PyStr.lower (fst e) =? DONE_DIR cfg) && isdir (snd e))
      homeworks in
  map folder_path (scan_submissions cfg homeworks)
  = map (fun e => [HOMEWORKS_DIR cfg; fst e]) scanned /\
  map name (scan_submissions cfg homeworks)
  = map (fun e => extract_student_name (fst e)) scanned.
Proof.
  cbn zeta. induction homeworks as [|[folder_name nd] rest [IH1 IH2]];
    [now split|].
  cbn [scan_submissions filter fst snd].
  destruct (PyStr.lower folder_name =? DONE_DIR cfg); cbn [negb andb];
    [now split|].
  destruct nd as [content | folder]; cbn [isdir]; [now split|].
  cbn [map]. rewrite IH1, IH2. unfold search_student_directory.
  destruct (determine_submission_type folder). now split.
Qed.

Lemma scan_submissions_lower_case_witness :
  scan_submissions default_config
    [("Done", Dir []); ("notes.txt", File "");
     ("Jane Doe_7_file", Dir [("notes.txt", File "hello")]); ("DONE", Dir [])]
  = describe_directories default_config
      [("notes.txt", File "");
       ("Jane Doe_7_file", Dir [("notes.txt", File "hello")])].
Proof.
  exact (scan_submissions_lower_case default_config
           [("Done", Dir []); ("notes.txt", File "");
            ("Jane Doe_7_file", Dir [("notes.txt", File "hello")]);
            ("DONE", Dir [])]
           eq_refl).
Defined.

(** * Further properties of the stripper *)

Lemma fst_strip_entry (plat : platform) (e : string * node) :
  fst (strip_entry plat e) = fst e.
Proof.
  destruct e as [nm [c | d]]; cbn [strip_entry]; [|reflexivity].
  now destruct (needs_rewrite (nm, File c)).
Qed.

Lemma is_java_file_strip_entry (plat : platform) (e : string * node) :
  is_java_file (strip_entry plat e) = is_java_file e.
Proof.
  destruct e as [nm [c | d]]; cbn [strip_entry]; [|reflexivity].
  now destruct (needs_rewrite (nm, File c)).
Qed.

Lemma strip_entry_not_java (plat : platform) (e : string * node) :
  is_java_file e = false -> strip_entry plat e = e.
Proof.
  destruct e as [nm [c | d]]; cbn [strip_entry is_java_file]; [|reflexivity].
  intros H. unfold needs_rewrite. cbn [fst snd]. now rewrite H.
Qed.

Lemma strip_entry_unchanged (plat : platform) (e : string * node) :
  needs_rewrite e = false -> strip_entry plat e = e.
Proof.
  destruct e as [nm [c | d]]; cbn [strip_entry]; [|reflexivity].
  now intros ->.
Qed.

(** After the stripper the directory lists the same names in the same
    order; no [*.java] file in it that decodes as UTF-8 has a package or
    import declaration line left; and every entry that is not a regular
    [*.java] file that decodes, a file in another encoding among them,
    is at its place what it was. *)
Theorem stripper_leaves_no_declaration (plat : platform) (entries : directory) :
  exists after,
    fst (fst (remove_package_declarations plat (Some entries))) = Some after /\
    listdir after = listdir entries /\
    (forall java_file content line,
        In (java_file, File content) after ->
        PyStr.endswith java_file ".java" = true ->
        utf8_valid content = true ->
        In line (readlines content) ->
        is_declaration_line line = false) /\
    (forall i e,
        nth_error entries i = Some e ->
        is_source_file e = false ->
        nth_error after i = Some e).
Proof.
  exists (map (strip_entry plat) entries).
  unfold remove_package_declarations. rewrite strip_files_spec.
  cbn [fst sd_entries]. split; [reflexivity|]. split; [|split].
  - unfold listdir. rewrite map_map. apply map_ext. apply fst_strip_entry.
  - intros java_file content line Hi Hj Hu Hl.
    apply in_map_iff in Hi. destruct Hi as (e & He & _).
    pose proof (needs_rewrite_strip_entry plat e) as Hn. rewrite He in Hn.
    unfold needs_rewrite in Hn. cbn [fst snd] in Hn.
    rewrite Hj, Hu in Hn. cbn [andb] in Hn.
    destruct (is_declaration_line line) eqn:Hd; [|reflexivity].
    assert (Hex : existsb is_declaration_line (readlines content) = true)
      by (apply existsb_exists; now exists line).
    congruence.
  - intros i e Hi Hs. rewrite nth_error_map, Hi. cbn [option_map].
    f_equal. apply strip_entry_unchanged.
    destruct e as [nm [c | d]]; unfold needs_rewrite; cbn [fst snd];
      [|apply andb_false_r].
    cbn [is_source_file] in Hs. rewrite andb_assoc, Hs. reflexivity.
Qed.

Lemma stripper_leaves_no_declaration_witness :
  exists after,
    fst (fst (remove_package_declarations Posix (Some sample_staging)))
    = Some after /\
    nth_error after 3 = Some ("Legacy.java", File latin1_source) /\
    nth_error after 2 = Some ("old.java", Dir []).
Proof.
  destruct (stripper_leaves_no_declaration Posix sample_staging)
    as (after & H1 & _ & _ & H4).
  exists after. split; [exact H1|]. split.
  - exact (H4 3 ("Legacy.java", File latin1_source) eq_refl eq_refl).
  - exact (H4 2 ("old.java", Dir []) eq_refl eq_refl).
Defined.

Lemma filter_nil_map_strip (plat : platform) (entries : directory) :
  filter needs_rewrite entries = [] -> map (strip_entry plat) entries = entries.
Proof.
  induction entries as [|e rest IH]; [reflexivity|]. cbn [filter map].
  destruct (needs_rewrite e) eqn:Hn; [discriminate|].
  intros H. now rewrite (strip_entry_unchanged _ _ Hn), (IH H).
Qed.

Lemma needs_rewrite_java (e : string * node) :
  needs_rewrite e = true -> is_java_file e = true.
Proof.
  destruct e as [nm [c | d]]; unfold needs_rewrite; cbn [fst snd is_java_file];
    intros H; apply andb_true_iff in H; destruct H as [H1 H2];
    [exact H1 | discriminate].
Qed.

Lemma filter_length_le {A : Type} (f g : A -> bool) (l : list A) :
  (forall x, f x = true -> g x = true) ->
  List.length (filter f l) <= List.length (filter g l).
Proof.
  intros H. induction l as [|x xs IH]; [reflexivity|]. cbn [filter].
  destruct (f x) eqn:Hf.
  - rewrite (H x Hf). cbn. lia.
  - destruct (g x); cbn; lia.
Qed.

(** The count the stripper returns is the number of files it wrote, at
    most the number of regular [*.java] files; and when it returns zero
    the directory is left exactly as it was. *)
Theorem stripper_count (plat : platform) (entries : directory)
  (after : option directory) (files_modified : nat) (written : list string) :
  remove_package_declarations plat (Some entries)
  = (after, files_modified, written) ->
  files_modified = List.length written /\
  files_modified <= List.length (filter is_java_file entries) /\
  (files_modified = 0 -> after = Some entries /\ written = []).
Proof.
  unfold remove_package_declarations. rewrite strip_files_spec.
  cbn [sd_entries sd_modified sd_written Nat.add].
  intros H. injection H as <- <- <-. repeat split.
  - now rewrite length_map.
  - apply filter_length_le. exact needs_rewrite_java.
  - apply length_zero_iff_nil in H. now rewrite (filter_nil_map_strip _ _ H).
  - apply length_zero_iff_nil in H. now rewrite H.
Qed.

Lemma stripper_count_witness :
  (0 = List.length (@nil string) /\
   0 <= List.length
          (filter is_java_file
             [("Helper.java", File "class Helper {}");
              ("README", File "import this;")])) /\
  Some [("Helper.java", File "class Helper {}"); ("README", File "import this;")]
  = Some [("Helper.java", File "class Helper {}"); ("README", File "import this;")].
Proof.
  destruct (stripper_count Posix
              [("Helper.java", File "class Helper {}");
               ("README", File "import this;")]
              (Some [("Helper.java", File "class Helper {}");
                     ("README", File "import this;")])
              0 [] eq_refl) as (H1 & H2 & H3).
  split; [now split|]. exact (proj1 (H3 eq_refl)).
Defined.

Ltac bounds :=
  repeat match goal with
         | H : andb _ _ = true |- _ =>
             apply andb_true_iff in H; destruct H
         | H : orb _ _ = true |- _ =>
             apply orb_true_iff in H; destruct H
         | H : Nat.leb _ _ = true |- _ => apply Nat.leb_le in H
         | H : Nat.eqb _ _ = true |- _ => apply Nat.eqb_eq in H
         end;
  lia.

(** An ASCII white-space character is no second or third byte of a
    white-space character of several bytes. *)
Lemma isspace_not_second (c w : ascii) :
  PyStr.isspace w = true -> PyStr.isspace2 c w = false.
Proof.
  intros H. destruct (PyStr.isspace2 c w) eqn:E; [exfalso|reflexivity].
  unfold PyStr.isspace, PyStr.isspace2 in *. cbn zeta in *. bounds.
Qed.

Lemma isspace_not_second_of_three (c w x : ascii) :
  PyStr.isspace w = true -> PyStr.isspace3 c w x = false.
Proof.
  intros H. destruct (PyStr.isspace3 c w x) eqn:E; [exfalso|reflexivity].
  unfold PyStr.isspace, PyStr.isspace3 in *. cbn zeta in *. bounds.
Qed.

Lemma isspace_not_third (c1 c2 w : ascii) :
  PyStr.isspace w = true -> PyStr.isspace3 c1 c2 w = false.
Proof.
  intros H. destruct (PyStr.isspace3 c1 c2 w) eqn:E; [exfalso|reflexivity].
  unfold PyStr.isspace, PyStr.isspace3 in *. cbn zeta in *. bounds.
Qed.

Lemma lstrip_eq (c1 : ascii) (t1 : string) :
  PyStr.lstrip (String c1 t1)
  = if PyStr.isspace c1 then PyStr.lstrip t1
    else
      match t1 with
      | EmptyString => String c1 t1
      | String c2 t2 =>
          if PyStr.isspace2 c1 c2 then PyStr.lstrip t2
          else
            match t2 with
            | EmptyString => String c1 t1
            | String c3 t3 =>
                if PyStr.isspace3 c1 c2 c3 then PyStr.lstrip t3
                else String c1 t1
            end
      end.
Proof. reflexivity. Qed.

Lemma rstrip_eq (c : ascii) (t : string) :
  PyStr.rstrip (String c t)
  = if PyStr.lstrip (String c t) =? "" then ""
    else String c (PyStr.rstrip t).
Proof. reflexivity. Qed.

Lemma lstrip_all_space (ws : string) :
  all_space ws = true -> PyStr.lstrip ws = "".
Proof.
  induction ws as [|c t IH]; [reflexivity|]. cbn [all_space].
  intros H. apply andb_true_iff in H. destruct H as [Hc Ht].
  now rewrite lstrip_eq, Hc, (IH Ht).
Qed.

Lemma rstrip_all_space (ws : string) :
  all_space ws = true -> PyStr.rstrip ws = "".
Proof.
  intros H. destruct ws as [|c t]; [reflexivity|].
  now rewrite rstrip_eq, (lstrip_all_space _ H).
Qed.

Lemma lstrip_app_space (ws s : string) :
  all_space ws = true -> PyStr.lstrip (ws ++ s) = PyStr.lstrip s.
Proof.
  induction ws as [|c t IH]; [reflexivity|]. cbn [all_space append].
  intros H. apply andb_true_iff in H. destruct H as [Hc Ht].
  now rewrite lstrip_eq, Hc, (IH Ht).
Qed.

(** White space appended to a string is no part of what [lstrip]
    drops, unless the string is white space throughout. *)
Lemma lstrip_space_app (ws : string) :
  all_space ws = true ->
  forall n s,
    String.length s <= n ->
    PyStr.lstrip (s ++ ws)
    = if PyStr.lstrip s =? "" then "" else (PyStr.lstrip s ++ ws)%string.
Proof.
  intros Hws. induction n as [|n IH]; intros s Hn.
  - destruct s; [|cbn in Hn; lia]. cbn [append PyStr.lstrip String.eqb].
    now apply lstrip_all_space.
  - destruct s as [|c1 t1].
    { cbn [append PyStr.lstrip String.eqb]. now apply lstrip_all_space. }
    cbn [String.length] in Hn. cbn [append]. rewrite !lstrip_eq.
    destruct (PyStr.isspace c1) eqn:H1; [apply IH; lia|].
    destruct t1 as [|c2 t2].
    { cbn [append String.eqb]. destruct ws as [|w ws']; [reflexivity|].
      cbn [all_space] in Hws. apply andb_true_iff in Hws.
      destruct Hws as [Hw _]. rewrite (isspace_not_second c1 w Hw).
      destruct ws' as [|w2 ws'']; [reflexivity|].
      now rewrite (isspace_not_second_of_three c1 w w2 Hw). }
    cbn [String.length] in Hn. cbn [append].
    destruct (PyStr.isspace2 c1 c2) eqn:H2; [apply IH; lia|].
    destruct t2 as [|c3 t3].
    { cbn [append String.eqb]. destruct ws as [|w ws']; [reflexivity|].
      cbn [all_space] in Hws. apply andb_true_iff in Hws.
      destruct Hws as [Hw _]. now rewrite (isspace_not_third c1 c2 w Hw). }
    cbn [String.length] in Hn. cbn [append].
    destruct (PyStr.isspace3 c1 c2 c3) eqn:H3; [apply IH; lia|].
    reflexivity.
Qed.

Lemma rstrip_app_space (s ws : string) :
  all_space ws = true -> PyStr.rstrip (s ++ ws) = PyStr.rstrip s.
Proof.
  intros H. induction s as [|c t IH].
  - cbn [append]. now rewrite (rstrip_all_space _ H).
  - change (String c t ++ ws)%string with (String c (t ++ ws)).
    rewrite !rstrip_eq, IH.
    change (String c (t ++ ws)) with (String c t ++ ws)%string.
    rewrite (lstrip_space_app ws H _ (String c t) (Nat.le_refl _)).
    destruct (PyStr.lstrip (String c t)) as [|x r]; reflexivity.
Qed.

Lemma strip_app_space (ws1 s ws2 : string) :
  all_space ws1 = true -> all_space ws2 = true ->
  PyStr.strip (ws1 ++ s ++ ws2) = PyStr.strip s.
Proof.
  intros H1 H2. unfold PyStr.strip. rewrite (lstrip_app_space _ _ H1).
  rewrite (lstrip_space_app ws2 H2 _ s (Nat.le_refl _)).
  destruct (PyStr.lstrip s) as [|x r] eqn:E; [reflexivity|].
  cbn [String.eqb]. now apply rstrip_app_space.
Qed.

(** Whether a line is dropped does not depend on the white space
    around it: indentation, trailing blanks and the line ending. *)
Theorem declaration_line_ignores_white_space (ws1 line ws2 : string) :
  all_space ws1 = true -> all_space ws2 = true ->
  is_declaration_line (ws1 ++ line ++ ws2) = is_declaration_line line.
Proof.
  intros H1 H2. unfold is_declaration_line.
  now rewrite (strip_app_space _ _ _ H1 H2).
Qed.

Lemma declaration_line_ignores_white_space_witness :
  is_declaration_line
    ("    " ++ "import java.util.List;" ++ String " " (String CR (String LF "")))
  = is_declaration_line "import java.util.List;".
Proof.
  exact (declaration_line_ignores_white_space
           "    " "import java.util.List;" (String " " (String CR (String LF "")))
           eq_refl eq_refl).
Defined.

(** * Further properties of the normalizer *)

Lemma lookup_set_entry (nm nm' : string) (nd : node) (d : directory) :
  lookup nm (set_entry nm' nd d)
  = if nm' =? nm then Some nd else lookup nm d.
Proof.
  induction d as [|[k v] rest IH]; cbn [set_entry lookup]; [reflexivity|].
  destruct (k =? nm') eqn:Ek.
  - apply String.eqb_eq in Ek. subst k. cbn [lookup].
    now destruct (nm' =? nm).
  - cbn [lookup]. rewrite IH. destruct (k =? nm) eqn:En; [|reflexivity].
    apply String.eqb_eq in En. subst k.
    rewrite String.eqb_sym in Ek. now rewrite Ek.
Qed.

Lemma copy_java_files_spec (files : list (string * string)) :
  forall staging n staging' n',
    copy_java_files files staging n = (staging', n') ->
    n' = n + List.length (filter (fun f => PyStr.endswith (fst f) ".java") files) /\
    forall name,
      lookup name staging'
      = match last_copy name files with
        | Some c => Some (File c)
        | None => lookup name staging
        end.
Proof.
  induction files as [|[file content] rest IH]; intros staging n staging' n' H.
  - injection H as <- <-. split; [cbn; lia | reflexivity].
  - cbn [copy_java_files] in H. cbn [filter fst last_copy].
    destruct (PyStr.endswith file ".java") eqn:Hj.
    + destruct (IH _ _ _ _ H) as [Hn Hl]. split; [cbn; lia|].
      intros name. rewrite Hl, lookup_set_entry, andb_true_r.
      destruct (last_copy name rest); [reflexivity|].
      now destruct (file =? name).
    + destruct (IH _ _ _ _ H) as [Hn Hl]. split; [exact Hn|].
      intros name. rewrite Hl, andb_false_r.
      now destruct (last_copy name rest).
Qed.

Lemma forallb_java_set_entry (file content : string) (d : directory) :
  PyStr.endswith file ".java" = true ->
  forallb is_java_file d = true ->
  forallb is_java_file (set_entry file (File content) d) = true.
Proof.
  intros Hj. induction d as [|[k v] rest IH]; cbn [set_entry forallb].
  - intros _. cbn [is_java_file]. now rewrite Hj.
  - intros H. apply andb_true_iff in H. destruct H as [Hk Hr].
    destruct (k =? file); cbn [forallb].
    + cbn [is_java_file]. now rewrite Hj, Hr.
    + now rewrite Hk, (IH Hr).
Qed.

Lemma copy_java_files_inv (files : list (string * string)) :
  forall staging n staging' n',
    copy_java_files files staging n = (staging', n') ->
    n <= n' /\ (n' = n -> staging' = staging) /\
    (forallb is_java_file staging = true ->
     forallb is_java_file staging' = true).
Proof.
  induction files as [|[file content] rest IH]; intros staging n staging' n' H.
  - injection H as <- <-. auto.
  - cbn [copy_java_files] in H.
    destruct (PyStr.endswith file ".java") eqn:Hj.
    + destruct (IH _ _ _ _ H) as (Hn & He & Hf). repeat split; [lia | lia |].
      intros Hs. apply Hf. now apply forallb_java_set_entry.
    + exact (IH _ _ _ _ H).
Qed.

Lemma copy_walk_inv (skip : string -> bool) (plat : platform)
  (items : list walk_item) :
  forall staging n staging' n',
    copy_walk skip plat items staging n = (staging', n') ->
    n <= n' /\ (n' = n -> staging' = staging) /\
    (forallb is_java_file staging = true ->
     forallb is_java_file staging' = true).
Proof.
  induction items as [|item rest IH]; intros staging n staging' n' H.
  - injection H as <- <-. auto.
  - cbn [copy_walk] in H.
    destruct (skip (path_string plat (w_root item))); [exact (IH _ _ _ _ H)|].
    destruct (copy_java_files (w_files item) staging n) as [st1 n1] eqn:Hc.
    destruct (copy_java_files_inv _ _ _ _ _ Hc) as (Hn1 & He1 & Hf1).
    destruct (IH _ _ _ _ H) as (Hn & He & Hf). repeat split.
    + lia.
    + intros E. assert (E1 : n1 = n) by lia.
      rewrite (He ltac:(lia)). now apply He1.
    + intros Hs. now apply Hf, Hf1.
Qed.

Lemma staged_ok_eq (e : string * node) :
  staged_ok e = is_java_file e && negb (needs_rewrite e).
Proof.
  destruct e as [nm [c | d]]; unfold needs_rewrite;
    cbn [staged_ok is_java_file fst snd]; [|reflexivity].
  now destruct (PyStr.endswith nm ".java").
Qed.

Lemma strip_staging_ok (plat : platform) (staging : directory) (n : nat) :
  forallb is_java_file staging = true ->
  (n = 0 -> staging = []) ->
  forallb staged_ok (strip_staging plat staging n) = true.
Proof.
  intros Hj H0. unfold strip_staging. destruct (0 <? n)%nat eqn:Hn.
  - rewrite strip_files_spec. cbn [sd_entries]. clear H0.
    induction staging as [|e rest IH]; [reflexivity|].
    cbn [forallb map] in *. apply andb_true_iff in Hj. destruct Hj as [He Hr].
    rewrite staged_ok_eq, is_java_file_strip_entry, He,
      needs_rewrite_strip_entry.
    now rewrite (IH Hr).
  - apply Nat.ltb_ge in Hn. now rewrite H0 by lia.
Qed.

Lemma extract_and_copy_staged_ok
  (zip_extractall : string -> option node -> option directory)
  (plat : platform) (fp : list string) (folder folder' staging : directory)
  (extract_path : option (list string)) :
  extract_and_copy_java_files zip_extractall plat fp folder []
  = Some (folder', staging, extract_path) ->
  forallb staged_ok staging = true.
Proof.
  unfold extract_and_copy_java_files.
  destruct (find_archive folder) as [[item nd]|].
  - destruct (if PyStr.endswith item ".zip"
              then match nd with
                   | File archive =>
                       match zip_extractall archive (lookup "extracted" folder) with
                       | Some tree => Some (set_entry "extracted" (Dir tree) folder)
                       | None => None
                       end
                   | Dir _ => None
                   end
              else Some folder) as [folder1|]; [|discriminate].
    destruct (copy_walk in_macosx plat
                (walk_path (fp ++ ["extracted"]) (lookup "extracted" folder1))
                [] 0) as [st n] eqn:Hc.
    destruct (copy_walk_inv _ _ _ _ _ _ _ Hc) as (_ & He & Hf).
    intros H. injection H as <- <- <-.
    apply strip_staging_ok; [now apply Hf | exact He].
  - intros H. now injection H as <- <- <-.
Qed.

Lemma staged_ok_spec (java_file : string) (nd : node) :
  staged_ok (java_file, nd) = true ->
  PyStr.endswith java_file ".java" = true /\
  exists content,
    nd = File content /\
    (utf8_valid content = true ->
     forall line,
       In line (readlines content) -> is_declaration_line line = false).
Proof.
  destruct nd as [content | sub]; cbn [staged_ok]; [|discriminate].
  intros H. apply andb_true_iff in H. destruct H as [Hj Hn].
  split; [exact Hj|]. exists content. split; [reflexivity|].
  intros Hu line Hl. rewrite Hu in Hn. cbn [andb] in Hn.
  apply negb_true_iff in Hn.
  destruct (is_declaration_line line) eqn:Hd; [|reflexivity].
  assert (Hex : existsb is_declaration_line (readlines content) = true)
    by (apply existsb_exists; now exists line).
  congruence.
Qed.

(** What normalizing leaves in the staging directory, for every shape
    of submission: regular [*.java] files only, and none that decodes
    as UTF-8 has a package or import declaration line left.  (A file in
    another encoding is staged as it was submitted.) *)
Theorem staging_holds_stripped_sources
  (zip_extractall : string -> option node -> option directory)
  (plat : platform) (cfg : config) (student : student_info)
  (w w1 : world) (extract_path : option (list string)) :
  normalize zip_extractall plat cfg student (setup_directories w)
  = Some (w1, extract_path) ->
  exists staging,
    current_submission w1 = Some staging /\
    forall java_file nd,
      In (java_file, nd) staging ->
      PyStr.endswith java_file ".java" = true /\
      exists content,
        nd = File content /\
        (utf8_valid content = true ->
         forall line,
           In line (readlines content) -> is_declaration_line line = false).
Proof.
  intros H.
  assert (Hs : exists staging,
             current_submission w1 = Some staging /\
             forallb staged_ok staging = true).
  { revert H. unfold normalize, setup_directories.
    cbn [current_submission homeworks temp_dir report console].
    destruct (submission_type student =? "Zipped file").
    - destruct (lookup (basename (folder_path student)) (homeworks w))
        as [[c | folder]|]; try discriminate.
      destruct (extract_and_copy_java_files zip_extractall plat
                  (folder_path student) folder [])
        as [[[folder' staging] ep]|] eqn:He; [|discriminate].
      intros H. injection H as <- <-. cbn [current_submission].
      exists staging. split; [reflexivity|].
      exact (extract_and_copy_staged_ok _ _ _ _ _ _ _ He).
    - destruct (submission_type student =? "Folder").
      + destruct (copy_walk (ignored_root cfg) plat
                    (walk_path (folder_path student)
                       (lookup (basename (folder_path student)) (homeworks w)))
                    [] 0) as [st n] eqn:Hc.
        destruct (copy_walk_inv _ _ _ _ _ _ _ Hc) as (_ & He & Hf).
        intros H. injection H as <- <-. cbn [current_submission].
        eexists. split; [reflexivity|].
        apply strip_staging_ok; [now apply Hf | exact He].
      + intros H. injection H as <- <-. now exists []. }
  destruct Hs as (staging & Hc & Hok). exists staging. split; [exact Hc|].
  intros java_file nd Hi. apply staged_ok_spec.
  rewrite forallb_forall in Hok. now apply Hok.
Qed.

Lemma staging_holds_stripped_sources_witness :
  exists staging,
    Some [("Main.java", File "class Main {}");
          ("Legacy.java", File latin1_source)] = Some staging /\
    forall java_file nd,
      In (java_file, nd) staging ->
      PyStr.endswith java_file ".java" = true /\
      exists content,
        nd = File content /\
        (utf8_valid content = true ->
         forall line,
           In line (readlines content) -> is_declaration_line line = false).
Proof.
  exact (staging_holds_stripped_sources no_zip Posix default_config
           legacy_student legacy_world
           (mk_world (homeworks legacy_world) (Some [])
              (Some [("Main.java", File "class Main {}");
                     ("Legacy.java", File latin1_source)]) None
              (console legacy_world))
           None eq_refl).
Defined.

Lemma node_ind' (P : node -> Prop) :
  (forall content, P (File content)) ->
  (forall entries, Forall (fun e => P (snd e)) entries -> P (Dir entries)) ->
  forall n, P n.
Proof.
  intros HF HD. fix IH 1. intros [content | entries].
  - apply HF.
  - apply HD. induction entries as [|[nm child] rest IHr].
    + constructor.
    + constructor; [apply IH | exact IHr].
Qed.

Lemma walk_roots (n : node) :
  forall root item,
    In item (walk root n) -> exists suffix, w_root item = root ++ suffix.
Proof.
  induction n as [content | entries IH] using node_ind'; intros root item Hi.
  - destruct Hi.
  - cbn [walk] in Hi. destruct Hi as [<- | Hi].
    + exists []. cbn. now rewrite app_nil_r.
    + induction IH as [|[nm child] rest Hc _ IHr]; [destruct Hi|].
      apply in_app_or in Hi. destruct Hi as [Hi | Hi].
      * destruct (Hc _ _ Hi) as [suffix Hs]. exists (nm :: suffix).
        rewrite Hs, <- app_assoc. reflexivity.
      * now apply IHr.
Qed.

Lemma prefix_app (needle a b : string) :
  String.prefix needle a = true -> String.prefix needle (a ++ b) = true.
Proof.
  revert a. induction needle as [|c t IH]; intros a H;
    [now destruct (a ++ b)%string|].
  destruct a as [|x a']; [discriminate|]. cbn [append String.prefix] in *.
  destruct (ascii_dec c x); [now apply IH | discriminate].
Qed.

Lemma contains_app_l (a b needle : string) :
  PyStr.contains a needle = true -> PyStr.contains (a ++ b) needle = true.
Proof.
  induction a as [|c t IH]; cbn [PyStr.contains]; intros H.
  - rewrite orb_false_r in H. destruct needle; [|discriminate].
    destruct b; reflexivity.
  - apply orb_true_iff in H. cbn [append PyStr.contains].
    destruct H as [H | H].
    + change (String c (t ++ b)) with (String c t ++ b)%string.
      now rewrite (prefix_app _ _ b H).
    + rewrite (IH H). apply orb_true_r.
Qed.

Lemma concat_app_extends (sep : string) (root suffix : list string) :
  exists rest,
    String.concat sep (root ++ suffix) = (String.concat sep root ++ rest)%string.
Proof.
  induction root as [|x xs IH].
  - now exists (String.concat sep suffix).
  - destruct xs as [|y ys].
    + cbn [app String.concat]. destruct suffix as [|z zs].
      * exists "". now rewrite append_empty_r.
      * now exists (sep ++ String.concat sep (z :: zs))%string.
    + destruct IH as [rest IH]. exists rest.
      change ((x :: y :: ys) ++ suffix) with (x :: (y :: ys) ++ suffix).
      change (String.concat sep (x :: (y :: ys) ++ suffix))
        with (x ++ sep ++ String.concat sep ((y :: ys) ++ suffix))%string.
      rewrite IH.
      change (String.concat sep (x :: y :: ys))
        with (x ++ sep ++ String.concat sep (y :: ys))%string.
      now rewrite !append_assoc.
Qed.

Lemma ignored_root_extends (cfg : config) (plat : platform)
  (root suffix : list string) :
  ignored_root cfg (path_string plat root) = true ->
  ignored_root cfg (path_string plat (root ++ suffix)) = true.
Proof.
  unfold ignored_root, in_macosx, path_string.
  destruct (concat_app_extends (os_sep plat) root suffix) as [rest ->].
  intros H. apply orb_true_iff in H. apply orb_true_iff.
  destruct H as [H | H]; [left; now apply contains_app_l|]. right.
  apply existsb_exists in H. destruct H as (ignored & Hi & Hc).
  apply existsb_exists. exists ignored. split; [exact Hi|].
  now apply contains_app_l.
Qed.

Lemma copy_walk_all_skipped (skip : string -> bool) (plat : platform)
  (items : list walk_item) (staging : directory) (n : nat) :
  (forall item, In item items -> skip (path_string plat (w_root item)) = true) ->
  copy_walk skip plat items staging n = (staging, n).
Proof.
  induction items as [|item rest IH]; intros H; [reflexivity|].
  cbn [copy_walk]. rewrite (H item (or_introl eq_refl)).
  apply IH. intros i Hi. apply H. now right.
Qed.

(** A folder submission whose own path holds the name of an ignored
    directory somewhere in it, be it inside the name of the student, is
    skipped as a whole: no file of it reaches the staging directory. *)
Theorem ignored_folder_path_copies_nothing
  (zip_extractall : string -> option node -> option directory)
  (plat : platform) (cfg : config) (student : student_info) (w : world) :
  submission_type student = "Folder" ->
  ignored_root cfg (path_string plat (folder_path student)) = true ->
  normalize zip_extractall plat cfg student (setup_directories w)
  = Some (setup_directories w, None).
Proof.
  intros Ht Hi. unfold normalize. rewrite Ht.
  cbn [setup_directories current_submission homeworks temp_dir report console
       String.eqb Ascii.eqb Bool.eqb].
  rewrite copy_walk_all_skipped; [reflexivity|].
  intros item Hitem. unfold walk_path in Hitem.
  destruct (lookup (basename (folder_path student)) (homeworks w)) as [n|];
    [|destruct Hitem].
  destruct (walk_roots _ _ _ Hitem) as [suffix ->].
  now apply ignored_root_extends.
Qed.

Lemma ignored_folder_path_copies_nothing_witness :
  normalize no_zip Windows default_config ignored_student
    (setup_directories ignored_world)
  = Some (setup_directories ignored_world, None).
Proof.
  exact (ignored_folder_path_copies_nothing no_zip Windows default_config
           ignored_student ignored_world eq_refl eq_refl).
Defined.

(** * Further properties of archiving and of the run over a submission *)

Lemma lookup_remove_entry_same (nm : string) (d : directory) :
  lookup nm (remove_entry nm d) = None.
Proof.
  induction d as [|[k v] rest IH]; [reflexivity|]. cbn [remove_entry].
  destruct (k =? nm) eqn:E; [exact IH|]. cbn [lookup]. now rewrite E.
Qed.

Lemma lookup_remove_entry_other (nm nm' : string) (d : directory) :
  nm <> nm' -> lookup nm (remove_entry nm' d) = lookup nm d.
Proof.
  intros Hne. induction d as [|[k v] rest IH]; [reflexivity|].
  cbn [remove_entry lookup]. destruct (k =? nm') eqn:E.
  - apply String.eqb_eq in E. subst k.
    destruct (nm' =? nm) eqn:E'; [|exact IH].
    apply String.eqb_eq in E'. now subst.
  - cbn [lookup]. now rewrite IH.
Qed.

Lemma move_to_done_folder_removes (cfg : config) (fp : list string)
  (hw hw' : directory) :
  move_to_done_folder cfg fp hw = Some hw' ->
  lookup (basename fp) hw' = None.
Proof.
  unfold move_to_done_folder.
  destruct (lookup (basename fp) hw) as [nd|]; [|discriminate].
  destruct (basename fp =? DONE_DIR cfg) eqn:Hd; [discriminate|].
  match goal with
  | |- match ?x with Some _ => _ | None => None end = _ -> _ =>
      destruct x as [d|]; [|discriminate]
  end.
  intros H.
  assert (H' : exists nd', hw' = set_entry (DONE_DIR cfg) nd'
                                   (remove_entry (basename fp) hw)).
  { destruct (lookup (basename fp) d) as [[c | sub]|];
      [discriminate | injection H as <- | injection H as <-]; now eexists. }
  destruct H' as [nd' ->].
  rewrite lookup_set_entry, String.eqb_sym, Hd.
  apply lookup_remove_entry_same.
Qed.

(** When the move to the archive directory succeeds, the folder is
    found there with the content it had, an earlier folder of that name
    in the archive directory is replaced, the folder is no longer an
    entry of the homework root, and every other entry of the root is
    what it was. *)
Theorem move_to_done_folder_moves (cfg : config) (fp : list string)
  (hw hw' : directory) :
  move_to_done_folder cfg fp hw = Some hw' ->
  exists nd done,
    lookup (basename fp) hw = Some nd /\
    lookup (DONE_DIR cfg) hw' = Some (Dir done) /\
    lookup (basename fp) done = Some nd /\
    lookup (basename fp) hw' = None /\
    forall nm, nm <> basename fp -> nm <> DONE_DIR cfg ->
               lookup nm hw' = lookup nm hw.
Proof.
  unfold move_to_done_folder.
  destruct (lookup (basename fp) hw) as [nd|] eqn:Hl; [|discriminate].
  destruct (basename fp =? DONE_DIR cfg) eqn:Hd; [discriminate|].
  match goal with
  | |- match ?x with Some _ => _ | None => None end = _ -> _ =>
      destruct x as [d|]; [|discriminate]
  end.
  intros H.
  assert (H' : hw' = set_entry (DONE_DIR cfg)
                       (Dir (set_entry (basename fp) nd
                               (remove_entry (basename fp) d)))
                       (remove_entry (basename fp) hw)).
  { destruct (lookup (basename fp) d) as [[c | sub]|];
      [discriminate | now injection H | now injection H]. }
  clear H. subst hw'.
  exists nd, (set_entry (basename fp) nd (remove_entry (basename fp) d)).
  repeat split.
  - now rewrite lookup_set_entry, String.eqb_refl.
  - now rewrite lookup_set_entry, String.eqb_refl.
  - rewrite lookup_set_entry, String.eqb_sym, Hd.
    apply lookup_remove_entry_same.
  - intros nm Hn Hdn. rewrite lookup_set_entry.
    destruct (DONE_DIR cfg =? nm) eqn:E.
    + apply String.eqb_eq in E. now subst.
    + now apply lookup_remove_entry_other.
Qed.

Lemma move_to_done_folder_moves_witness :
  exists nd done,
    lookup "Jane Doe_7_file"
      [("done", Dir [("Jane Doe_7_file", Dir [])]);
       ("Jane Doe_7_file", Dir [("notes.txt", File "hello")])] = Some nd /\
    lookup "done"
      [("done", Dir [("Jane Doe_7_file", Dir [("notes.txt", File "hello")])])]
    = Some (Dir done) /\
    lookup "Jane Doe_7_file" done = Some nd /\
    lookup "Jane Doe_7_file"
      [("done", Dir [("Jane Doe_7_file", Dir [("notes.txt", File "hello")])])]
    = None /\
    forall nm, nm <> "Jane Doe_7_file" -> nm <> "done" ->
      lookup nm
        [("done", Dir [("Jane Doe_7_file", Dir [("notes.txt", File "hello")])])]
      = lookup nm
          [("done", Dir [("Jane Doe_7_file", Dir [])]);
           ("Jane Doe_7_file", Dir [("notes.txt", File "hello")])].
Proof.
  exact (move_to_done_folder_moves default_config
           ["Homeworks"; "Jane Doe_7_file"]
           [("done", Dir [("Jane Doe_7_file", Dir [])]);
            ("Jane Doe_7_file", Dir [("notes.txt", File "hello")])]
           [("done", Dir [("Jane Doe_7_file", Dir [("notes.txt", File "hello")])])]
           eq_refl).
Defined.

Lemma scan_set_entry_done (cfg : config) (nd : node) (hw : directory) :
  PyStr.lower (DONE_DIR cfg) = DONE_DIR cfg ->
  scan_submissions cfg (set_entry (DONE_DIR cfg) nd hw)
  = scan_submissions cfg hw.
Proof.
  intros Hd. induction hw as [|[k v] rest IH]; cbn [set_entry].
  - cbn [scan_submissions]. now rewrite Hd, String.eqb_refl.
  - destruct (k =? DONE_DIR cfg) eqn:E.
    + apply String.eqb_eq in E. subst k. cbn [scan_submissions].
      now rewrite Hd, String.eqb_refl.
    + cbn [scan_submissions]. now rewrite IH.
Qed.

Lemma scan_remove_entry (cfg : config) (fn : string) (hw : directory) :
  scan_submissions cfg (remove_entry fn hw)
  = filter (fun s => negb (basename (folder_path s) =? fn))
      (scan_submissions cfg hw).
Proof.
  induction hw as [|[k v] rest IH]; [reflexivity|].
  cbn [remove_entry scan_submissions].
  destruct (k =? fn) eqn:E.
  - rewrite IH. destruct (PyStr.lower k =? DONE_DIR cfg); [reflexivity|].
    destruct v as [c | folder]; [reflexivity|]. cbn [filter].
    unfold search_student_directory at 1.
    destruct (determine_submission_type folder).
    cbn [folder_path basename last]. now rewrite E.
  - cbn [scan_submissions]. rewrite IH.
    destruct (PyStr.lower k =? DONE_DIR cfg); [reflexivity|].
    destruct v as [c | folder]; [reflexivity|]. cbn [filter].
    unfold search_student_directory at 2.
    destruct (determine_submission_type folder) eqn:Hdt.
    cbn [folder_path basename last]. rewrite E. cbn [negb].
    unfold search_student_directory. now rewrite Hdt.
Qed.

(** With a lower-case archive name, a folder that was moved to the
    archive directory is not scanned again, and the scan finds every
    other submission as before. *)
Theorem archived_folder_is_not_rescanned (cfg : config) (fp : list string)
  (hw hw' : directory) :
  PyStr.lower (DONE_DIR cfg) = DONE_DIR cfg ->
  move_to_done_folder cfg fp hw = Some hw' ->
  scan_submissions cfg hw'
  = filter (fun s => negb (basename (folder_path s) =? basename fp))
      (scan_submissions cfg hw).
Proof.
  intros Hd. unfold move_to_done_folder.
  destruct (lookup (basename fp) hw) as [nd|]; [|discriminate].
  destruct (basename fp =? DONE_DIR cfg); [discriminate|].
  match goal with
  | |- match ?x with Some _ => _ | None => None end = _ -> _ =>
      destruct x as [d|]; [|discriminate]
  end.
  intros H.
  assert (H' : hw' = set_entry (DONE_DIR cfg)
                       (Dir (set_entry (basename fp) nd
                               (remove_entry (basename fp) d)))
                       (remove_entry (basename fp) hw)).
  { destruct (lookup (basename fp) d) as [[c | sub]|];
      [discriminate | now injection H | now injection H]. }
  subst hw'. rewrite (scan_set_entry_done _ _ _ Hd). apply scan_remove_entry.
Qed.

Lemma archived_folder_is_not_rescanned_witness :
  scan_submissions default_config
    [("Max Mustermann_9_file", Dir [("hw1.rar", File "Rar!")]);
     ("done", Dir [("Jane Doe_7_file", Dir [("notes.txt", File "hello")])])]
  = filter (fun s => negb (basename (folder_path s) =? "Jane Doe_7_file"))
      (scan_submissions default_config
         [("Jane Doe_7_file", Dir [("notes.txt", File "hello")]);
          ("Max Mustermann_9_file", Dir [("hw1.rar", File "Rar!")])]).
Proof.
  exact (archived_folder_is_not_rescanned default_config
           ["Homeworks"; "Jane Doe_7_file"]
           [("Jane Doe_7_file", Dir [("notes.txt", File "hello")]);
            ("Max Mustermann_9_file", Dir [("hw1.rar", File "Rar!")])]
           [("Max Mustermann_9_file", Dir [("hw1.rar", File "Rar!")]);
            ("done", Dir [("Jane Doe_7_file", Dir [("notes.txt", File "hello")])])]
           eq_refl eq_refl).
Defined.

Lemma grading_inv (py : interpreter) (student : student_info) (w w' : world) :
  grading py student w = Some w' ->
  exists g rest,
    collect_grades py (console w) = Returned g rest /\
    w' = mk_world (homeworks w) (temp_dir w) (current_submission w)
           (save_grades_to_csv (report w) student g) rest.
Proof.
  unfold grading. destruct (collect_grades py (console w)) as [g rest| | |];
    try discriminate.
  intros H. injection H as <-. now exists g, rest.
Qed.

Lemma stages_after_grading_inv (cfg : config) (student : student_info)
  (ep : option (list string)) (w w' : world) :
  stages_after_grading cfg student ep w = Some w' ->
  temp_dir w' = None /\ current_submission w' = None /\
  report w' = report w /\
  lookup (basename (folder_path student)) (homeworks w') = None.
Proof.
  unfold stages_after_grading, bind, archiving. intros H.
  destruct (move_to_done_folder cfg (folder_path student) (homeworks w))
    as [hw|] eqn:Hm; [|discriminate].
  pose proof (move_to_done_folder_removes _ _ _ _ Hm) as Hg.
  unfold cleanup in H. cbn [homeworks report console] in H. rewrite Hg in H.
  assert (H' : pause (mk_world hw None None (report w) (console w)) = Some w')
    by (destruct ep; exact H).
  unfold pause in H'. cbn [console] in H'.
  destruct (console w); [discriminate|]. injection H' as <-. now cbn.
Qed.

Lemma process_student_submission_report (py : interpreter)
  (zip_extractall : string -> option node -> option directory)
  (run_junit_tests :
     option directory -> directory -> student_info -> list string ->
     option (option directory * directory * list string))
  (plat : platform) (cfg : config) (student : student_info) (w w' : world) :
  process_student_submission py zip_extractall run_junit_tests plat cfg student w
  = Some w' ->
  exists g,
    report w' = save_grades_to_csv (report w) student g /\
    valid_grade py (task1 g) = true /\ valid_grade py (task2 g) = true /\
    valid_grade py (task3 g) = true /\ is_sentinel (comment g) = false.
Proof.
  unfold process_student_submission, bind. intros H.
  destruct (stages_before_grading zip_extractall run_junit_tests plat cfg
              student w) as [[w1 ep]|] eqn:Hb; [|discriminate].
  destruct (grading py student w1) as [w2|] eqn:Hg; [|discriminate].
  destruct (grading_inv _ _ _ _ Hg) as (g & rest & Hc & ->).
  destruct (stages_after_grading_inv _ _ _ _ _ H) as (_ & _ & Hr & _).
  exists g. cbn [report] in Hr.
  rewrite Hr, (stages_before_report _ _ _ _ _ _ _ _ Hb).
  split; [reflexivity|].
  apply collect_loop_accepts in Hc; [exact Hc | now left].
Qed.

(** A run over one submission that comes to its end leaves no staging
    directory behind, has moved the folder out of the homework root, and
    has appended to the report exactly one row for this student, with
    three scores in range and a comment that is no sentinel. *)
Theorem completed_submission_is_graded_and_archived (py : interpreter)
  (zip_extractall : string -> option node -> option directory)
  (run_junit_tests :
     option directory -> directory -> student_info -> list string ->
     option (option directory * directory * list string))
  (plat : platform) (cfg : config) (student : student_info) (w w' : world) :
  process_student_submission py zip_extractall run_junit_tests plat cfg student w
  = Some w' ->
  temp_dir w' = None /\ current_submission w' = None /\
  lookup (basename (folder_path student)) (homeworks w') = None /\
  exists g,
    report w' = save_grades_to_csv (report w) student g /\
    valid_grade py (task1 g) = true /\ valid_grade py (task2 g) = true /\
    valid_grade py (task3 g) = true /\ is_sentinel (comment g) = false.
Proof.
  intros H. pose proof (process_student_submission_report _ _ _ _ _ _ _ _ H) as Hg.
  unfold process_student_submission, bind in H.
  destruct (stages_before_grading zip_extractall run_junit_tests plat cfg
              student w) as [[w1 ep]|]; [|discriminate].
  destruct (grading py student w1) as [w2|]; [|discriminate].
  destruct (stages_after_grading_inv _ _ _ _ _ H) as (Ht & Hs & _ & Hl).
  repeat split; assumption.
Qed.

Lemma completed_submission_is_graded_and_archived_witness :
  lookup "Ann Lee_5_file"
    [("done",
      Dir [("Ann Lee_5_file",
            Dir [("src",
                  Dir [("Main.java",
                        File ("package a;" ++ String LF "" ++ "class Main {}"))])])])]
  = None /\
  exists g,
    Some [csv_header; ["Ann Lee"; "Not found"; "2"; "2"; "2"; "good"]]
    = save_grades_to_csv None folder_student g /\
    valid_grade ascii_interpreter (task1 g) = true /\ valid_grade ascii_interpreter (task2 g) = true /\
    valid_grade ascii_interpreter (task3 g) = true /\ is_sentinel (comment g) = false.
Proof.
  destruct (completed_submission_is_graded_and_archived ascii_interpreter
              no_zip tests_pass
              Posix default_config folder_student folder_world
              (mk_world
                 [("done",
                   Dir [("Ann Lee_5_file",
                         Dir [("src",
                               Dir [("Main.java",
                                     File ("package a;" ++ String LF ""
                                           ++ "class Main {}"))])])])]
                 None None
                 (Some [csv_header; ["Ann Lee"; "Not found"; "2"; "2"; "2"; "good"]])
                 [])
              eq_refl) as (_ & _ & Hl & Hg).
  split; [exact Hl | exact Hg].
Defined.

Lemma process_students_report (py : interpreter)
  (zip_extractall : string -> option node -> option directory)
  (run_junit_tests :
     option directory -> directory -> student_info -> list string ->
     option (option directory * directory * list string))
  (plat : platform) (cfg : config) (students : list student_info) :
  forall w w',
    process_students py zip_extractall run_junit_tests plat cfg students w
    = Some w' ->
    exists gs,
      List.length gs = List.length students /\
      report w' = fold_left append_record (combine students gs) (report w) /\
      forallb (fun g => valid_grade py (task1 g) && valid_grade py (task2 g) &&
                        valid_grade py (task3 g) && negb (is_sentinel (comment g)))
        gs = true.
Proof.
  induction students as [|student rest IH]; intros w w' H.
  - injection H as <-. now exists [].
  - cbn [process_students] in H. unfold bind in H.
    destruct (process_student_submission py zip_extractall run_junit_tests plat
                cfg student w) as [w1|] eqn:Hp; [|discriminate].
    destruct (process_student_submission_report _ _ _ _ _ _ _ _ Hp)
      as (g & Hr & H1 & H2 & H3 & Hs).
    destruct (IH _ _ H) as (gs & Hl & Hrep & Hok).
    exists (g :: gs). cbn [List.length combine fold_left forallb].
    repeat split.
    + now rewrite Hl.
    + rewrite Hrep, Hr. reflexivity.
    + now rewrite H1, H2, H3, Hs, Hok.
Qed.

(** A batch that comes to its end has appended to the report one row
    per student, in the order of the list, each with three scores in
    range and a comment that is no sentinel. *)
Theorem completed_batch_appends_one_row_per_student (py : interpreter)
  (zip_extractall : string -> option node -> option directory)
  (run_junit_tests :
     option directory -> directory -> student_info -> list string ->
     option (option directory * directory * list string))
  (plat : platform) (cfg : config) (students : list student_info)
  (w w' : world) :
  process_all_submissions py zip_extractall run_junit_tests plat cfg students w
  = Some w' ->
  exists gs,
    List.length gs = List.length students /\
    report w' = fold_left append_record (combine students gs) (report w) /\
    forallb (fun g => valid_grade py (task1 g) && valid_grade py (task2 g) &&
                      valid_grade py (task3 g) && negb (is_sentinel (comment g)))
      gs = true.
Proof.
  unfold process_all_submissions. intros H.
  apply process_students_report in H. destruct H as (gs & Hl & Hr & Hok).
  exists gs. repeat split; auto. rewrite Hr. now destruct (temp_dir w).
Qed.

Lemma completed_batch_appends_one_row_per_student_witness :
  exists gs,
    List.length gs = 2 /\
    report batch_world_done
    = fold_left append_record (combine [sample_student; rar_student] gs) None /\
    forallb (fun g => valid_grade ascii_interpreter (task1 g) && valid_grade ascii_interpreter (task2 g) &&
                      valid_grade ascii_interpreter (task3 g) && negb (is_sentinel (comment g)))
      gs = true.
Proof.
  exact (completed_batch_appends_one_row_per_student ascii_interpreter
           no_zip tests_pass Posix
           default_config [sample_student; rar_student] batch_world
           batch_world_done eq_refl).
Defined.

(** * Further properties of grade capture *)

(** When the three score prompts are answered and the comment line is
    no sentinel, the capture returns those three scores and the comment
    without the white space around it, and leaves the lines that follow
    unread.  A prompt is answered when, after the lines it refuses, a
    line is a score; a line of digits without an integer value leaves
    it unanswered. *)
Theorem collect_grades_accepts_round (py : interpreter)
  (console : list string) (t1 t2 t3 line : string) (rest : list string) :
  enter_scores py console = Some (t1, t2, t3, line :: rest) ->
  is_sentinel (PyStr.strip line) = false ->
  collect_grades py console
  = Returned (mk_grades t1 t2 t3 (PyStr.strip line)) rest /\
  score py t1 /\ score py t2 /\ score py t3.
Proof.
  intros H Hs. split.
  - unfold collect_grades.
    change (2 + List.length console) with (S (S (List.length console))).
    rewrite (collect_loop_round _ _ "0" _ _ _ _ _ _ eq_refl H), Hs.
    now rewrite collect_loop_S, Hs.
  - destruct (enter_scores_sound _ _ _ _ _ _ H) as (_ & H1 & H2 & H3).
    now rewrite <- !valid_grade_score.
Qed.

Lemma collect_grades_accepts_round_witness :
  (collect_grades ascii_interpreter
     ["x"; " 2"; "3"; "0"; "1 "; "  very good  "; "next"]
   = Returned (mk_grades "2" "0" "1" "very good") ["next"] /\
   score ascii_interpreter "2" /\ score ascii_interpreter "0" /\
   score ascii_interpreter "1") /\
  enter_scores superscript_interpreter [superscript_two; "1"; "1"; "1"; "ok"]
  = None.
Proof.
  split; [|reflexivity].
  exact (collect_grades_accepts_round ascii_interpreter
           ["x"; " 2"; "3"; "0"; "1 "; "  very good  "; "next"]
           "2" "0" "1" "  very good  " ["next"] eq_refl eq_refl).
Defined.

Lemma ask_grade_suffix (py : interpreter) (console : list string) :
  forall g g' console',
    ask_grade py g console = Asked g' console' ->
    exists used, console = used ++ console'.
Proof.
  induction console as [|line rest IH]; intros g g' console' H;
    rewrite ask_grade_eq in H;
    destruct (grade_condition py g) as [[|]|]; try discriminate.
  - injection H as <- <-. now exists [].
  - injection H as <- <-. now exists [].
  - destruct (IH _ _ _ H) as (used & ->). now exists (line :: used).
Qed.

Lemma ask_grade_cleared_suffix (py : interpreter) (console : list string)
  (g : string) (console' : list string) :
  ask_grade py "" console = Asked g console' ->
  exists used, console = used ++ console' /\ 1 <= List.length used.
Proof.
  rewrite ask_grade_cleared. destruct console as [|line rest]; [discriminate|].
  intros H. destruct (ask_grade_suffix _ _ _ _ _ H) as (used & ->).
  exists (line :: used). split; [reflexivity | cbn; lia].
Qed.

Lemma collect_loop_consumes (py : interpreter) (fuel : nat) :
  forall cm console g rest,
    is_sentinel cm = true ->
    collect_loop py fuel "" "" "" cm console = Returned g rest ->
    exists used, console = used ++ rest /\ 4 <= List.length used.
Proof.
  induction fuel as [|fuel IH]; intros cm console g rest Hc H; [discriminate|].
  rewrite collect_loop_S, Hc in H.
  destruct (ask_grade py "" console) as [g1 c1| |] eqn:E1; try discriminate.
  destruct (ask_grade py "" c1) as [g2 c2| |] eqn:E2; try discriminate.
  destruct (ask_grade py "" c2) as [g3 c3| |] eqn:E3; try discriminate.
  destruct c3 as [|line c4]; [discriminate|].
  destruct (ask_grade_cleared_suffix _ _ _ _ E1) as (u1 & -> & H1).
  destruct (ask_grade_cleared_suffix _ _ _ _ E2) as (u2 & -> & H2).
  destruct (ask_grade_cleared_suffix _ _ _ _ E3) as (u3 & -> & H3).
  destruct (is_sentinel (PyStr.strip line)) eqn:Hs.
  - destruct (IH _ _ _ _ Hs H) as (used & -> & Hu).
    exists (u1 ++ u2 ++ u3 ++ line :: used).
    split; [now rewrite <- !app_assoc|].
    rewrite !length_app. cbn. lia.
  - destruct fuel as [|fuel']; [discriminate|].
    rewrite collect_loop_S, Hs in H. injection H as <- <-.
    exists (u1 ++ u2 ++ u3 ++ [line]).
    split; [now rewrite <- !app_assoc|].
    rewrite !length_app. cbn. lia.
Qed.

(** A capture that returns has read at least four lines, and what it
    leaves is the console without the lines it read; on a console of
    fewer than four lines the capture does not return: it ends in
    [EOFError], or in [ValueError] at a line of digits that has no
    integer value. *)
Theorem collect_grades_reads_four_lines (py : interpreter)
  (console : list string) :
  (forall g rest,
      collect_grades py console = Returned g rest ->
      exists used, console = used ++ rest /\ 4 <= List.length used) /\
  (List.length console < 4 ->
   collect_grades py console = EOFError \/
   (collect_grades py console = ValueError /\
    exists line, In line console /\ raises py (PyStr.strip line))).
Proof.
  assert (H : forall g rest,
             collect_grades py console = Returned g rest ->
             exists used, console = used ++ rest /\ 4 <= List.length used).
  { intros g rest. apply collect_loop_consumes. reflexivity. }
  split; [exact H|]. intros Hl.
  destruct (collect_grades py console) as [g rest| | |] eqn:E.
  - destruct (H g rest eq_refl) as (used & -> & Hu).
    rewrite length_app in Hl. lia.
  - now left.
  - right. split; [reflexivity|].
    apply collect_loop_raises in E; [|reflexivity].
    now apply capture_raises_line.
  - exfalso. revert E. apply collect_loop_fuel. lia.
Qed.

Lemma collect_grades_reads_four_lines_witness :
  (exists used, ["1"; "2"; "0"; "fine"; "next"] = used ++ ["next"] /\
                4 <= List.length used) /\
  (collect_grades ascii_interpreter ["1"; "2"; "0"] = EOFError \/
   (collect_grades ascii_interpreter ["1"; "2"; "0"] = ValueError /\
    exists line,
      In line ["1"; "2"; "0"] /\ raises ascii_interpreter (PyStr.strip line))) /\
  (collect_grades superscript_interpreter ["1"; superscript_two] = EOFError \/
   (collect_grades superscript_interpreter ["1"; superscript_two] = ValueError /\
    exists line,
      In line ["1"; superscript_two] /\
      raises superscript_interpreter (PyStr.strip line))).
Proof.
  split; [|split].
  - exact (proj1 (collect_grades_reads_four_lines ascii_interpreter
                    ["1"; "2"; "0"; "fine"; "next"])
             (mk_grades "1" "2" "0" "fine") ["next"] eq_refl).
  - apply (proj2 (collect_grades_reads_four_lines ascii_interpreter
                    ["1"; "2"; "0"])).
    cbn. lia.
  - apply (proj2 (collect_grades_reads_four_lines superscript_interpreter
                    ["1"; superscript_two])).
    cbn. lia.
Defined.

(** * Properties of the rest of the program *)

(** The test file chosen in the setup dialogue is one of the files
    that were listed: the number entered is accepted only within the
    bounds of the list, so the list is never indexed outside them. *)
Theorem select_test_file_in_list (py : interpreter)
  (test_files console : list string) (file : string) (rest : list string) :
  select_test_file py test_files console = Some (file, rest) ->
  In file test_files /\ exists used, console = used ++ rest /\ used <> [].
Proof.
  revert file rest.
  induction console as [|line more IH]; intros file rest H; [discriminate|].
  cbn [select_test_file] in H.
  assert (Hrec : select_test_file py test_files more = Some (file, rest) ->
                 In file test_files /\
                 exists used, line :: more = used ++ rest /\ used <> []).
  { intros Hm. destruct (IH _ _ Hm) as (Hi & used & -> & _).
    split; [exact Hi|]. now exists (line :: used). }
  destruct (str_isdigit py (PyStr.strip line)); [|now apply Hrec].
  destruct (str_int py (PyStr.strip line)) as [choice_num|]; [|discriminate].
  destruct ((1 <=? choice_num)%Z &&
            (choice_num <=? Z.of_nat (List.length test_files))%Z)
    eqn:Hb; [|now apply Hrec].
  injection H as <- <-. apply andb_true_iff in Hb. destruct Hb as [H1 H2].
  apply Z.leb_le in H1, H2. split.
  - apply nth_In. lia.
  - now exists [line].
Qed.

Lemma select_test_file_in_list_witness :
  In "TestBank.java" ["TestBank.java"; "TestInTheSky.java"] /\
  exists used, ["0"; "3"; "two"; " 1 "; "x"] = used ++ ["x"] /\ used <> [].
Proof.
  exact (select_test_file_in_list ascii_interpreter
           ["TestBank.java"; "TestInTheSky.java"]
           ["0"; "3"; "two"; " 1 "; "x"] "TestBank.java" ["x"] eq_refl).
Defined.

Lemma lower_app (a b : string) :
  PyStr.lower (a ++ b) = (PyStr.lower a ++ PyStr.lower b)%string.
Proof.
  induction a as [|c t IH]; [reflexivity|].
  cbn [append PyStr.lower]. now rewrite IH.
Qed.

Lemma prefix_self_app (s b : string) : String.prefix s (s ++ b) = true.
Proof.
  induction s as [|c t IH]; [now destruct b|].
  cbn [append String.prefix]. destruct (ascii_dec c c); [exact IH | congruence].
Qed.

Lemma contains_app_r (a b needle : string) :
  PyStr.contains b needle = true -> PyStr.contains (a ++ b) needle = true.
Proof.
  intros H. induction a as [|c t IH]; [exact H|].
  cbn [append PyStr.contains]. rewrite IH. apply orb_true_r.
Qed.

Lemma contains_self_app (s b : string) : PyStr.contains (s ++ b) s = true.
Proof.
  destruct s as [|c t]; [now destruct b|].
  cbn [append PyStr.contains].
  change (String c (t ++ b)) with (String c t ++ b)%string.
  now rewrite prefix_self_app.
Qed.

(** The verdict on a test run looks for one word only: an output in
    which [successful] stands somewhere, in whatever letter case, is
    taken as passed, whatever else the output says. *)
Theorem execute_junit_tests_looks_for_one_word (before word after : string) :
  PyStr.lower word = "successful" ->
  execute_junit_tests (before ++ word ++ after) = true.
Proof.
  intros H. unfold execute_junit_tests.
  rewrite !lower_app, H. apply contains_app_r, contains_self_app.
Qed.

Lemma execute_junit_tests_looks_for_one_word_witness :
  execute_junit_tests
    ("[ 3 tests " ++ "successful" ++ " ]  [ 2 tests failed ]") = true.
Proof.
  exact (execute_junit_tests_looks_for_one_word
           "[ 3 tests " "successful" " ]  [ 2 tests failed ]" eq_refl).
Defined.

Lemma prepare_test_environment_copies (tcfg : test_config)
  (tests lib temp temp' : directory) :
  prepare_test_environment tcfg tests lib temp = Some (true, temp') ->
  lookup (TEST_FILE tcfg) temp' = lookup (TEST_FILE tcfg) tests.
Proof.
  unfold prepare_test_environment.
  destruct (lookup (TEST_FILE tcfg) tests) as [[content | sub]|];
    try discriminate.
  destruct (lookup (JUNIT_JAR tcfg) lib); [|discriminate].
  intros H. injection H as <-.
  now rewrite lookup_set_entry, String.eqb_refl.
Qed.

(** The test environment is ready exactly when the test file and the
    library archive are both there.  A missing test file leaves the
    compilation directory as it is; a test file that is there is copied
    into it under its own name, also when the library archive then turns
    out to be missing; no other name of the directory is touched. *)
Theorem prepare_test_environment_result (tcfg : test_config)
  (tests lib temp temp' : directory) (ok : bool) :
  prepare_test_environment tcfg tests lib temp = Some (ok, temp') ->
  (ok = true <->
   lookup (TEST_FILE tcfg) tests <> None /\ lookup (JUNIT_JAR tcfg) lib <> None) /\
  (lookup (TEST_FILE tcfg) tests = None -> temp' = temp) /\
  (lookup (TEST_FILE tcfg) tests <> None ->
   lookup (TEST_FILE tcfg) temp' = lookup (TEST_FILE tcfg) tests) /\
  (forall nm, nm <> TEST_FILE tcfg -> lookup nm temp' = lookup nm temp).
Proof.
  unfold prepare_test_environment.
  destruct (lookup (TEST_FILE tcfg) tests) as [[content | sub]|] eqn:Ht.
  - assert (Hl : forall nm, nm <> TEST_FILE tcfg ->
                   lookup nm (set_entry (TEST_FILE tcfg) (File content) temp)
                   = lookup nm temp).
    { intros nm Hn. rewrite lookup_set_entry.
      destruct (TEST_FILE tcfg =? nm) eqn:E; [|reflexivity].
      apply String.eqb_eq in E. now subst. }
    destruct (lookup (JUNIT_JAR tcfg) lib) eqn:Hj; intros H;
      injection H as <- <-; repeat split; try discriminate; auto;
      try (intros _; now rewrite lookup_set_entry, String.eqb_refl).
    now intros [_ H].
  - discriminate.
  - intros H. injection H as <- <-. repeat split; try discriminate; auto.
    + now intros [H _].
    + now intros H.
Qed.

Lemma prepare_test_environment_result_witness :
  (false = true <->
   lookup "TestBank.java" sample_tests <> None /\ lookup "junit.jar" [] <> None) /\
  lookup "TestBank.java" [("TestBank.java", File "class TestBank { /* instructor */ }")]
  = lookup "TestBank.java" sample_tests.
Proof.
  destruct (prepare_test_environment_result sample_test_config sample_tests
              [] [] [("TestBank.java", File "class TestBank { /* instructor */ }")]
              false eq_refl) as (H1 & _ & H3 & _).
  split; [exact H1|]. apply H3. discriminate.
Defined.

Lemma copy_student_files_spec (student_files : list string)
  (staging : directory) :
  forall temp temp',
    copy_student_files student_files staging temp = Some temp' ->
    forall nm,
      lookup nm temp'
      = if existsb (String.eqb nm) student_files then lookup nm staging
        else lookup nm temp.
Proof.
  induction student_files as [|file rest IH]; intros temp temp' H nm.
  - now injection H as <-.
  - cbn [copy_student_files] in H.
    destruct (lookup file staging) as [[content | sub]|] eqn:Hl;
      try discriminate.
    rewrite (IH _ _ H nm), lookup_set_entry. cbn [existsb].
    destruct (existsb (String.eqb nm) rest); [now rewrite orb_true_r|].
    rewrite orb_false_r, String.eqb_sym.
    destruct (nm =? file) eqn:E; [|reflexivity].
    apply String.eqb_eq in E. now subst.
Qed.

Lemma lookup_in_listdir (nm : string) (d : directory) (nd : node) :
  lookup nm d = Some nd -> In nm (listdir d).
Proof.
  induction d as [|[k v] rest IH]; [discriminate|]. cbn [lookup listdir map fst].
  destruct (k =? nm) eqn:E.
  - intros _. left. now apply String.eqb_eq.
  - intros H. right. now apply IH.
Qed.

Lemma lookup_app_some (nm : string) (d d' : directory) (nd : node) :
  lookup nm d = Some nd -> lookup nm (d ++ d') = Some nd.
Proof.
  induction d as [|[k v] rest IH]; [discriminate|]. cbn [lookup app].
  now destruct (k =? nm).
Qed.

(** A student file that has the name of the test file takes its place:
    the test file is copied into the compilation directory first and the
    student files are copied over it, so the compiler is run with the
    student's file under that name, and the instructor's is not among
    its sources. *)
Theorem student_file_replaces_test_file
  (javac : list string -> directory -> bool * directory)
  (tcfg : test_config) (temp_path : list string)
  (tests lib temp temp1 temp' staging : directory)
  (content : string) (ok : bool) (bin_dir : option (list string)) :
  PyStr.endswith (TEST_FILE tcfg) ".java" = true ->
  lookup (TEST_FILE tcfg) staging = Some (File content) ->
  prepare_test_environment tcfg tests lib temp = Some (true, temp1) ->
  compile_java_files javac temp_path temp1 staging = Some (ok, bin_dir, temp') ->
  lookup (TEST_FILE tcfg) temp1 = lookup (TEST_FILE tcfg) tests /\
  exists java_files sources,
    javac java_files sources = (ok, temp') /\
    In (TEST_FILE tcfg) java_files /\
    lookup (TEST_FILE tcfg) sources = Some (File content).
Proof.
  intros Hj Hs Hp Hc. split.
  { exact (prepare_test_environment_copies _ _ _ _ _ Hp). }
  unfold compile_java_files in Hc.
  assert (Hin : existsb (String.eqb (TEST_FILE tcfg)) (java_names staging) = true).
  { apply existsb_exists. exists (TEST_FILE tcfg).
    split; [|apply String.eqb_refl]. unfold java_names.
    apply filter_In. split; [exact (lookup_in_listdir _ _ _ Hs) | exact Hj]. }
  destruct (java_names staging) as [|f fs] eqn:Hn; [discriminate|].
  destruct (copy_student_files (f :: fs) staging temp1) as [temp2|] eqn:Hcp;
    [|discriminate].
  pose proof (copy_student_files_spec _ _ _ _ Hcp (TEST_FILE tcfg)) as Hl.
  rewrite Hin, Hs in Hl.
  assert (Hjn : In (TEST_FILE tcfg) (java_names temp2)).
  { unfold java_names. apply filter_In.
    split; [exact (lookup_in_listdir _ _ _ Hl) | exact Hj]. }
  destruct (lookup "bin" temp2) as [[c | sub]|] eqn:Hb; [discriminate | |].
  - destruct (javac (java_names temp2) temp2) as [ok' t'] eqn:Hjc.
    exists (java_names temp2), temp2.
    destruct ok'; injection Hc as <- <- <-; auto.
  - destruct (javac (java_names temp2) (temp2 ++ [("bin", Dir [])]))
      as [ok' t'] eqn:Hjc.
    exists (java_names temp2), (temp2 ++ [("bin", Dir [])]).
    destruct ok'; injection Hc as <- <- <-;
      (repeat split; [exact Hjc | exact Hjn | now apply lookup_app_some]).
Qed.

Lemma student_file_replaces_test_file_witness :
  lookup "TestBank.java"
    [("TestBank.java", File "class TestBank { /* instructor */ }")]
  = lookup "TestBank.java" sample_tests /\
  exists java_files sources,
    javac_fails java_files sources
    = (false,
       [("TestBank.java", File "class TestBank { /* student */ }");
        ("Bank.java", File "class Bank {}"); ("bin", Dir [])]) /\
    In "TestBank.java" java_files /\
    lookup "TestBank.java" sources
    = Some (File "class TestBank { /* student */ }").
Proof.
  exact (student_file_replaces_test_file javac_fails sample_test_config
           ["temp_dir"] sample_tests sample_lib []
           [("TestBank.java", File "class TestBank { /* instructor */ }")]
           [("TestBank.java", File "class TestBank { /* student */ }");
            ("Bank.java", File "class Bank {}"); ("bin", Dir [])]
           cheating_staging "class TestBank { /* student */ }" false None
           eq_refl eq_refl eq_refl eq_refl).
Defined.

(** * Further properties across the pipeline *)

Lemma copy_java_files_app (files1 files2 : list (string * string)) :
  forall staging n,
    copy_java_files (files1 ++ files2) staging n
    = let '(staging1, n1) := copy_java_files files1 staging n in
      copy_java_files files2 staging1 n1.
Proof.
  induction files1 as [|[file content] rest IH]; intros staging n;
    [reflexivity|].
  cbn [app copy_java_files]. now destruct (PyStr.endswith file ".java").
Qed.

Lemma copy_walk_flat (skip : string -> bool) (plat : platform)
  (items : list walk_item) :
  forall staging n,
    copy_walk skip plat items staging n
    = copy_java_files
        (flat_map w_files
           (filter (fun item => negb (skip (path_string plat (w_root item))))
              items))
        staging n.
Proof.
  induction items as [|item rest IH]; intros staging n; [reflexivity|].
  cbn [copy_walk filter].
  destruct (skip (path_string plat (w_root item))); cbn [negb]; [apply IH|].
  cbn [flat_map]. rewrite copy_java_files_app.
  destruct (copy_java_files (w_files item) staging n) as [st1 n1]. apply IH.
Qed.

(** Over a whole walk the copy is one copy loop over the files of the
    roots that are not skipped, in walk order: of two files of one name
    in different directories the one met later is the one staged, and
    the files of a skipped root are never staged. *)
Theorem copy_walk_last_write_wins (skip : string -> bool) (plat : platform)
  (items : list walk_item) (staging staging' : directory) (n n' : nat) :
  copy_walk skip plat items staging n = (staging', n') ->
  let copied :=
    flat_map w_files
      (filter (fun item => negb (skip (path_string plat (w_root item)))) items) in
  n' = n + List.length (filter (fun f => PyStr.endswith (fst f) ".java") copied) /\
  forall name,
    lookup name staging'
    = match last_copy name copied with
      | Some c => Some (File c)
      | None => lookup name staging
      end.
Proof.
  rewrite copy_walk_flat. apply copy_java_files_spec.
Qed.

Lemma copy_walk_last_write_wins_witness :
  2 = 0 + 2 /\
  lookup "Main.java" [("Main.java", File "class Main { int v = 2; }")]
  = Some (File "class Main { int v = 2; }").
Proof.
  destruct (copy_walk_last_write_wins in_macosx Posix colliding_walk []
              [("Main.java", File "class Main { int v = 2; }")] 0 2 eq_refl)
    as [H1 H2].
  split; [exact H1 | exact (H2 "Main.java")].
Defined.

(** An archive that the archive library cannot read is fatal: the
    exception is not caught, the run over this submission does not come
    to an end, and neither does a batch that reaches it. *)
Theorem unreadable_archive_aborts (py : interpreter)
  (zip_extractall : string -> option node -> option directory)
  (run_junit_tests :
     option directory -> directory -> student_info -> list string ->
     option (option directory * directory * list string))
  (plat : platform) (cfg : config) (student : student_info) (w : world)
  (folder : directory) (item archive : string) :
  submission_type student = "Zipped file" ->
  lookup (basename (folder_path student)) (homeworks w) = Some (Dir folder) ->
  find_archive folder = Some (item, File archive) ->
  PyStr.endswith item ".zip" = true ->
  zip_extractall archive (lookup "extracted" folder) = None ->
  process_student_submission py zip_extractall run_junit_tests plat cfg student w
  = None /\
  forall rest,
    process_all_submissions py zip_extractall run_junit_tests plat cfg
      (student :: rest) w = None.
Proof.
  intros Ht Hl Hf Hz Hx.
  assert (Hn : forall t c,
             normalize zip_extractall plat cfg student
               (mk_world (homeworks w) t (Some c) (report w) (console w))
             = None).
  { intros t c. unfold normalize, extract_and_copy_java_files.
    cbn [current_submission homeworks].
    now rewrite Ht, String.eqb_refl, Hl, Hf, Hz, Hx. }
  assert (Hp : forall t c,
             process_student_submission py zip_extractall run_junit_tests plat cfg
               student (mk_world (homeworks w) t c (report w) (console w))
             = None).
  { intros t c. unfold process_student_submission, stages_before_grading,
      setup_directories.
    cbn [homeworks report console]. now rewrite Hn. }
  split.
  - destruct w as [hw t c r con]. apply Hp.
  - intros rest. unfold process_all_submissions.
    destruct (temp_dir w) eqn:Et; cbn [process_students].
    + destruct w as [hw t c r con]. cbn [homeworks report console] in Hp.
      now rewrite Hp.
    + now rewrite Hp.
Qed.

Lemma unreadable_archive_aborts_witness :
  process_student_submission ascii_interpreter no_zip tests_pass Posix
    default_config zip_student zip_world = None /\
  forall rest,
    process_all_submissions ascii_interpreter no_zip tests_pass Posix
      default_config (zip_student :: rest) zip_world = None.
Proof.
  exact (unreadable_archive_aborts ascii_interpreter no_zip tests_pass Posix
           default_config zip_student zip_world [("hw.zip", File "not a zip")]
           "hw.zip" "not a zip" eq_refl eq_refl eq_refl eq_refl eq_refl).
Defined.

(** A submission that is neither an archive nor a folder goes to
    grading with both staging directories empty: nothing is copied, the
    archive library and the test runner are not called, and the run
    does not depend on them. *)
Theorem text_submission_needs_no_tools (py : interpreter)
  (zip_extractall zip_extractall' : string -> option node -> option directory)
  (run_junit_tests run_junit_tests' :
     option directory -> directory -> student_info -> list string ->
     option (option directory * directory * list string))
  (plat : platform) (cfg : config) (student : student_info) (w : world) :
  submission_type student <> "Zipped file" ->
  submission_type student <> "Folder" ->
  stages_before_grading zip_extractall run_junit_tests plat cfg student w
  = Some (mk_world (homeworks w) (Some []) (Some []) (report w) (console w),
          None) /\
  process_student_submission py zip_extractall run_junit_tests plat cfg student w
  = process_student_submission py zip_extractall' run_junit_tests' plat cfg
      student w.
Proof.
  intros Hz Hf. apply String.eqb_neq in Hz, Hf.
  assert (Hb : forall zip run,
             stages_before_grading zip run plat cfg student w
             = Some (mk_world (homeworks w) (Some []) (Some []) (report w)
                       (console w), None)).
  { intros zip run. unfold stages_before_grading, normalize, setup_directories.
    cbn [current_submission]. now rewrite Hz, Hf. }
  split; [apply Hb|].
  unfold process_student_submission. now rewrite !Hb.
Qed.

Lemma text_submission_needs_no_tools_witness :
  stages_before_grading no_zip tests_pass Posix default_config
    sample_student sample_world
  = Some (mk_world (homeworks sample_world) (Some []) (Some []) None
            (console sample_world), None).
Proof.
  refine (proj1 (text_submission_needs_no_tools ascii_interpreter no_zip
                   no_zip tests_pass tests_pass Posix default_config
                   sample_student sample_world _ _)); discriminate.
Defined.

Lemma search_digits8_digits (s d : string) :
  PyStr.search_digits8 s = Some d ->
  String.length d = 8 /\ PyStr.all_digits d = true.
Proof.
  induction s as [|c t IH]; [discriminate|]. rewrite search_digits8_eq.
  destruct (PyStr.take_digits 8 (String c t)) as [d'|] eqn:Ht; [|exact IH].
  intros H. injection H as <-.
  destruct (take_digits_sound _ _ _ Ht) as (Hl & Ha & _). now split.
Qed.

Lemma find_matriculation_number_digits (folder : directory) (m : string) :
  find_matriculation_number folder = Some m ->
  String.length m = 8 /\ PyStr.all_digits m = true.
Proof.
  unfold find_matriculation_number.
  destruct (first_match PyStr.search_underscore_digits8 (listdir folder))
    as [m'|] eqn:Hu.
  - intros H. injection H as <-.
    destruct (first_match_some _ _ _ Hu) as (item & _ & Hs).
    destruct (search_underscore_digits8_sound _ _ Hs) as (Hl & Ha & _).
    now split.
  - intros H. destruct (first_match_some _ _ _ H) as (item & _ & Hs).
    exact (search_digits8_digits _ _ Hs).
Qed.

Lemma split_head_no_underscore (s : string) :
  PyStr.contains (PyStr.split_head "_" s) "_" = false.
Proof.
  induction s as [|c t IH]; [reflexivity|]. cbn [PyStr.split_head].
  destruct (Ascii.eqb c "_") eqn:Hc; [reflexivity|].
  now rewrite (contains_underscore_cons _ _ Hc).
Qed.

Lemma determine_submission_type_shapes (folder : directory) :
  In (determine_submission_type folder) shapes.
Proof.
  induction folder as [|[item nd] rest IH]; cbn [determine_submission_type].
  - cbn. tauto.
  - destruct (item =? "extracted"); [exact IH|].
    destruct (PyStr.endswith_any item archive_extensions); [cbn; tauto|].
    destruct (PyStr.endswith item ".txt"); [cbn; tauto|].
    destruct (isdir nd); [cbn; tauto | exact IH].
Qed.

(** Every descriptor is well formed: the display name has no
    separator, the identifier is [Not found] or eight digits, the shape
    and its colour are one of the four pairs, and the path is the one
    that was given. *)
Theorem search_student_directory_well_formed (fp : list string)
  (folder_name : string) (folder : directory) :
  let info := search_student_directory fp folder_name folder in
  PyStr.contains (name info) "_" = false /\
  (matriculation info = "Not found" \/
   (String.length (matriculation info) = 8 /\
    PyStr.all_digits (matriculation info) = true)) /\
  In (submission_type info, color info) shapes /\
  folder_path info = fp.
Proof.
  cbn zeta. unfold search_student_directory.
  pose proof (determine_submission_type_shapes folder) as Hs.
  destruct (determine_submission_type folder) as [ty col].
  cbn [name matriculation submission_type color folder_path].
  repeat split; auto.
  - apply split_head_no_underscore.
  - destruct (find_matriculation_number folder) as [m|] eqn:Hm; [|now left].
    destruct (find_matriculation_number_digits _ _ Hm) as (Hl & Ha).
    destruct m; [discriminate|]. right. now split.
Qed.
